(** * GarderieFlow: enrollment lifecycle, ledger and reports of [app.py]

    A shallow embedding of the request handlers of [src/app.py] that carry
    the enrollment state machine, the expiration notifier, the ledger and
    the monthly and annual reports, with the properties of the
    specification that they decide.

    Conventions of the embedding.
    - A table is the list of its rows, in storage order; a row carries its
      primary key. [db.session.add] appends a row whose key is drawn from
      the table's sequence; an attribute assignment on a loaded row is the
      [UPDATE ... WHERE id = key] that the commit flushes.
    - A handler is a function from the request (the organization of the
      token, the JSON body, the readings of the clock) and the database to
      a [result]: [Ok] with what was committed or returned, or [Err] with
      the exception that aborts the request, in which case nothing is
      committed.
    - A [Numeric(10, 2)] amount is the integer number of its hundredths.
    - A date is its proleptic Gregorian ordinal (day 1 is 0001-01-01), as
      [date.toordinal] gives it; a timestamp is a date and a time of day,
      in one time zone.
    - The organization of a request is the identity of its token; the table
      of organizations is not part of the state. The status of an
      enrollment is one of the four values of its enumeration. *)

From Stdlib Require Import ZArith QArith Lia.
From stdpp Require Import base decidable option list gmap strings.

Local Open Scope Z_scope.

(** ** Outcome of a request *)

Inductive error : Type :=
  | NotFound          (* first_or_404 *)
  | Forbidden         (* a system category cannot be deleted *)
  | IntegrityError    (* a foreign key rejected at flush *)
  | DataError         (* a value out of the range of its column *)
  | OverflowError     (* date or timedelta out of range *)
  | ValueError        (* date(year, month, day) with a field out of range *)
  | TypeError.        (* operands of unsupported types *)

Inductive result (A : Type) : Type :=
  | Ok (a : A)
  | Err (e : error).
Arguments Ok {A} a.
Arguments Err {A} e.

Definition bind {A B} (r : result A) (k : A -> result B) : result B :=
  match r with
  | Ok a => k a
  | Err e => Err e
  end.

Notation "'let*' x ':=' r 'in' k" := (bind r (fun x => k))
  (at level 10, x pattern, r at level 100, k at level 200).

Definition guard (b : Prop) `{Decision b} (e : error) : result unit :=
  if decide b then Ok tt else Err e.

#[global] Instance error_eq_dec : EqDecision error.
Proof. solve_decision. Defined.

(** ** Python numbers

    The handlers mix three numeric types: [int], [float] and
    [decimal.Decimal] (what a [Numeric] column and its [SUM] are read back
    as; the source converts each of them with [float(...)] before it
    serialises it). A [Decimal] and a [float] carry the number of
    hundredths they stand for; the rounding of binary floating point is not
    modelled. *)

Inductive pynum : Type :=
  | PyInt (n : Z)
  | PyFloat (cents : Z)
  | PyDecimal (cents : Z).

#[global] Instance pynum_eq_dec : EqDecision pynum.
Proof. solve_decision. Defined.

(** The value of a number, in hundredths. *)
Definition cents_of (x : pynum) : Z :=
  match x with
  | PyInt n => 100 * n
  | PyFloat c => c
  | PyDecimal c => c
  end.

(** [x + y]: [Decimal.__add__] accepts an [int] or a [Decimal] and nothing
    else, [float.__add__] accepts an [int] or a [float]. *)
Definition py_add (x y : pynum) : result pynum :=
  match x, y with
  | PyInt a, PyInt b => Ok (PyInt (a + b))
  | PyInt a, PyFloat c => Ok (PyFloat (100 * a + c))
  | PyFloat c, PyInt b => Ok (PyFloat (c + 100 * b))
  | PyFloat c, PyFloat d => Ok (PyFloat (c + d))
  | PyInt a, PyDecimal d => Ok (PyDecimal (100 * a + d))
  | PyDecimal c, PyInt b => Ok (PyDecimal (c + 100 * b))
  | PyDecimal c, PyDecimal d => Ok (PyDecimal (c + d))
  | PyDecimal _, PyFloat _ => Err TypeError
  | PyFloat _, PyDecimal _ => Err TypeError
  end.

(** [float(x)] *)
Definition py_float (x : pynum) : pynum := PyFloat (cents_of x).

(** Truth value of a number: zero is false. *)
Definition py_truthy (x : pynum) : bool := negb (cents_of x =? 0).

(** [o or d], where [o] is a scalar that may be [None]. *)
Definition py_or (o : option pynum) (d : pynum) : pynum :=
  match o with
  | Some x => if py_truthy x then x else d
  | None => d
  end.

(** [sum(xs)]: the left fold of [+] from the [int] 0. *)
Fixpoint py_sum_from (acc : pynum) (xs : list pynum) : result pynum :=
  match xs with
  | [] => Ok acc
  | x :: xs' => let* acc' := py_add acc x in py_sum_from acc' xs'
  end.

Definition py_sum (xs : list pynum) : result pynum := py_sum_from (PyInt 0) xs.

(** ** Dates

    The calendar of Python's [datetime.date]: [_ymd2ord] and [_ord2ymd]. *)

Definition Date := Z.

Definition MINYEAR : Z := 1.
Definition MAXYEAR : Z := 9999.

Definition is_leap (year : Z) : bool :=
  (year mod 4 =? 0) && (negb (year mod 100 =? 0) || (year mod 400 =? 0)).

Definition days_before_year (year : Z) : Z :=
  let y := year - 1 in y * 365 + y / 4 - y / 100 + y / 400.

Definition DAYS_IN_MONTH (month : Z) : Z :=
  match month with
  | 1 => 31 | 2 => 28 | 3 => 31 | 4 => 30 | 5 => 31 | 6 => 30
  | 7 => 31 | 8 => 31 | 9 => 30 | 10 => 31 | 11 => 30 | 12 => 31
  | _ => 0
  end.

Definition DAYS_BEFORE_MONTH (month : Z) : Z :=
  match month with
  | 1 => 0 | 2 => 31 | 3 => 59 | 4 => 90 | 5 => 120 | 6 => 151
  | 7 => 181 | 8 => 212 | 9 => 243 | 10 => 273 | 11 => 304 | 12 => 334
  | _ => 0
  end.

Definition days_in_month (year month : Z) : Z :=
  if (month =? 2) && is_leap year then 29 else DAYS_IN_MONTH month.

Definition days_before_month (year month : Z) : Z :=
  DAYS_BEFORE_MONTH month + (if (2 <? month) && is_leap year then 1 else 0).

Definition ymd2ord (year month day : Z) : Z :=
  days_before_year year + days_before_month year month + day.

Definition DI400Y : Z := days_before_year 401.
Definition DI100Y : Z := days_before_year 101.
Definition DI4Y : Z := days_before_year 5.

Definition ord2ymd (n : Z) : Z * Z * Z :=
  let n := n - 1 in
  let n400 := n / DI400Y in
  let n := n mod DI400Y in
  let year := n400 * 400 + 1 in
  let n100 := n / DI100Y in
  let n := n mod DI100Y in
  let n4 := n / DI4Y in
  let n := n mod DI4Y in
  let n1 := n / 365 in
  let n := n mod 365 in
  let year := year + (n100 * 100 + n4 * 4 + n1) in
  if (n1 =? 4) || (n100 =? 4) then (year - 1, 12, 31)
  else
    let leapyear := (n1 =? 3) && (negb (n4 =? 24) || (n100 =? 3)) in
    let month := Z.shiftr (n + 50) 5 in
    let preceding :=
      DAYS_BEFORE_MONTH month + (if (2 <? month) && leapyear then 1 else 0) in
    if n <? preceding then
      let month := month - 1 in
      let preceding :=
        preceding - (DAYS_IN_MONTH month
                     + (if (month =? 2) && leapyear then 1 else 0)) in
      (year, month, n - preceding + 1)
    else (year, month, n - preceding + 1).

(** The largest ordinal, 9999-12-31. *)
Definition MAXORDINAL : Z := 3652059.

Definition valid_date (d : Z) : Prop := 1 <= d <= MAXORDINAL.

#[global] Instance valid_date_dec d : Decision (valid_date d).
Proof. unfold valid_date. apply _. Defined.

(** [date(year, month, day)] *)
Definition mk_date (year month day : Z) : result Date :=
  let* _ := guard (MINYEAR <= year <= MAXYEAR) ValueError in
  let* _ := guard (1 <= month <= 12) ValueError in
  let* _ := guard (1 <= day <= days_in_month year month) ValueError in
  Ok (ymd2ord year month day).

(** [extract('year', d)] and [extract('month', d)] *)
Definition extract_year (d : Date) : Z := (ord2ymd d).1.1.
Definition extract_month (d : Date) : Z := (ord2ymd d).1.2.

(** [timedelta(days=n)] *)
Definition timedelta (days : Z) : result Z :=
  let* _ := guard (-999999999 <= days <= 999999999) OverflowError in
  Ok days.

(** [d + delta] on a date *)
Definition date_add (d : Date) (delta : Z) : result Date :=
  let* _ := guard (valid_date (d + delta)) OverflowError in
  Ok (d + delta).

(** [d + timedelta(days=n)] *)
Definition date_plus_days (d : Date) (n : Z) : result Date :=
  let* delta := timedelta n in date_add d delta.

(** A [datetime]: its date and the microseconds since midnight. *)
Record DateTime : Type := mkDateTime {
  dt_date : Date;
  dt_micro : N
}.

#[global] Instance DateTime_eq_dec : EqDecision DateTime.
Proof. solve_decision. Defined.

(** [ts < d] for a timestamp and a date: the date stands for its midnight. *)
Definition dt_before_date (ts : DateTime) (d : Date) : Prop :=
  dt_date ts < d \/ (dt_date ts = d /\ (Z.of_N (dt_micro ts) < 0)).

#[global] Instance dt_before_date_dec ts d : Decision (dt_before_date ts d).
Proof. unfold dt_before_date. apply _. Defined.

(** ** Data model *)

(** [enrollment_status_enum]: 'actif', 'expiré', 'renouvelé', 'résilié' *)
Inductive enrollment_status : Type := Actif | Expire | Renouvele | Resilie.

(** [transaction_type_enum]: 'gain', 'dépense' *)
Inductive transaction_type : Type := Gain | Depense.

(** [payment_method_enum] *)
Inductive payment_method : Type :=
  Especes | Virement | Carte | MobileMoney | Autre.

#[global] Instance enrollment_status_eq_dec : EqDecision enrollment_status.
Proof. solve_decision. Defined.
#[global] Instance transaction_type_eq_dec : EqDecision transaction_type.
Proof. solve_decision. Defined.
#[global] Instance payment_method_eq_dec : EqDecision payment_method.
Proof. solve_decision. Defined.

(** The columns of [Student] that the handlers below read. *)
Record Student : Type := mkStudent {
  s_id : Z;
  s_organization_id : Z
}.

(** [Enrollment], without the bookkeeping columns [created_at] and
    [updated_at]. *)
Record Enrollment : Type := mkEnrollment {
  e_id : Z;
  e_student_id : Z;
  e_organization_id : Z;
  e_start_date : Date;
  e_end_date : option Date;
  e_amount : Z;
  e_status : enrollment_status;
  e_notified_at : option DateTime;
  e_terminated_at : option DateTime
}.

Record TransactionCategory : Type := mkTransactionCategory {
  c_id : Z;
  c_organization_id : Z;
  c_label : string;
  c_is_system : bool
}.

Record Transaction : Type := mkTransaction {
  t_id : Z;
  t_organization_id : Z;
  t_student_id : option Z;
  t_date : Date;
  t_type : transaction_type;
  t_amount : Z;
  t_payment_method : payment_method;
  t_reference : option string;
  t_category_id : option Z;
  t_comment : option string
}.

#[global] Instance Student_eq_dec : EqDecision Student.
Proof. solve_decision. Defined.
#[global] Instance Enrollment_eq_dec : EqDecision Enrollment.
Proof. solve_decision. Defined.
#[global] Instance TransactionCategory_eq_dec : EqDecision TransactionCategory.
Proof. solve_decision. Defined.
#[global] Instance Transaction_eq_dec : EqDecision Transaction.
Proof. solve_decision. Defined.

(** The database: the four tables and the two sequences that the handlers
    draw primary keys from. *)
Record DB : Type := mkDB {
  students : list Student;
  enrollments : list Enrollment;
  transaction_categories : list TransactionCategory;
  transactions : list Transaction;
  enrollments_id_seq : Z;
  transactions_id_seq : Z
}.

(** Attribute assignments on an enrollment. *)
Definition set_end_date (v : option Date) (e : Enrollment) : Enrollment :=
  mkEnrollment (e_id e) (e_student_id e) (e_organization_id e) (e_start_date e)
    v (e_amount e) (e_status e) (e_notified_at e) (e_terminated_at e).

Definition set_status (v : enrollment_status) (e : Enrollment) : Enrollment :=
  mkEnrollment (e_id e) (e_student_id e) (e_organization_id e) (e_start_date e)
    (e_end_date e) (e_amount e) v (e_notified_at e) (e_terminated_at e).

Definition set_notified_at (v : option DateTime) (e : Enrollment) : Enrollment :=
  mkEnrollment (e_id e) (e_student_id e) (e_organization_id e) (e_start_date e)
    (e_end_date e) (e_amount e) (e_status e) v (e_terminated_at e).

Definition set_terminated_at (v : option DateTime) (e : Enrollment) : Enrollment :=
  mkEnrollment (e_id e) (e_student_id e) (e_organization_id e) (e_start_date e)
    (e_end_date e) (e_amount e) (e_status e) (e_notified_at e) v.

(** ** Persistence *)

(** A value fits [Numeric(10, 2)] when it has at most eight digits before
    the point. *)
Definition fits_numeric_10_2 (cents : Z) : Prop := Z.abs cents < 10 ^ 10.

#[global] Instance fits_numeric_10_2_dec c : Decision (fits_numeric_10_2 c).
Proof. unfold fits_numeric_10_2. apply _. Defined.

Definition student_exists (sid : Z) (db : DB) : Prop :=
  Exists (fun s => s_id s = sid) (students db).

Definition category_exists (cid : Z) (db : DB) : Prop :=
  Exists (fun c => c_id c = cid) (transaction_categories db).

#[global] Instance student_exists_dec sid db : Decision (student_exists sid db).
Proof. unfold student_exists. apply _. Defined.
#[global] Instance category_exists_dec cid db : Decision (category_exists cid db).
Proof. unfold category_exists. apply _. Defined.

(** The foreign keys of a nullable column hold for NULL. *)
Definition fk_ok (P : Z -> Prop) (o : option Z) : Prop :=
  match o with
  | Some k => P k
  | None => True
  end.

#[global] Instance fk_ok_dec P `{forall k, Decision (P k)} o : Decision (fk_ok P o).
Proof. destruct o; simpl; apply _. Defined.

(** [db.session.add(Transaction(...))]: the row gets the next key of the
    sequence; the insert is rejected when [student_id] or [category_id]
    references no row, or when the amount does not fit its column. The
    argument carries every column but the key. *)
Definition add_transaction (mk : Z -> Transaction) (db : DB) : result DB :=
  let t := mk (transactions_id_seq db) in
  let* _ := guard (fk_ok (fun k => student_exists k db) (t_student_id t))
                  IntegrityError in
  let* _ := guard (fk_ok (fun k => category_exists k db) (t_category_id t))
                  IntegrityError in
  let* _ := guard (fits_numeric_10_2 (t_amount t)) DataError in
  Ok (mkDB (students db) (enrollments db) (transaction_categories db)
        (transactions db ++ [t])
        (enrollments_id_seq db) (transactions_id_seq db + 1)).

(** [db.session.add(Enrollment(...))] *)
Definition add_enrollment_row (mk : Z -> Enrollment) (db : DB) : result DB :=
  let e := mk (enrollments_id_seq db) in
  let* _ := guard (student_exists (e_student_id e) db) IntegrityError in
  let* _ := guard (fits_numeric_10_2 (e_amount e)) DataError in
  Ok (mkDB (students db) (enrollments db ++ [e]) (transaction_categories db)
        (transactions db)
        (enrollments_id_seq db + 1) (transactions_id_seq db)).

(** The update of the enrollment of key [id] that a commit flushes. *)
Definition update_rows (id : Z) (f : Enrollment -> Enrollment)
    (rows : list Enrollment) : list Enrollment :=
  (fun e => if decide (e_id e = id) then f e else e) <$> rows.

Definition update_enrollment (id : Z) (f : Enrollment -> Enrollment) (db : DB) : DB :=
  mkDB (students db) (update_rows id f (enrollments db))
    (transaction_categories db) (transactions db)
    (enrollments_id_seq db) (transactions_id_seq db).

(** [query.first_or_404()] *)
Definition first_or_404 {A} (rows : list A) : result A :=
  match rows with
  | r :: _ => Ok r
  | [] => Err NotFound
  end.

(** ** Enrollment state machine *)

(** Body of [POST /transactions/payment]. *)
Record PaymentData : Type := mkPaymentData {
  pd_student_id : Z;
  pd_amount : Z;
  pd_date : option Date;
  pd_duration_days : option Z;
  pd_payment_method : payment_method;
  pd_reference : option string;
  pd_comment : option string
}.

(** [ORDER BY end_date DESC]: [a] sorts strictly after [b]. PostgreSQL, the
    dialect of the source, puts NULL first in a descending order. *)
Definition sorts_after (a b : option Date) : Prop :=
  match a, b with
  | Some x, Some y => x < y
  | Some _, None => True
  | None, _ => False
  end.

#[global] Instance sorts_after_dec a b : Decision (sorts_after a b).
Proof. destruct a, b; simpl; apply _. Defined.

(** [.order_by(Enrollment.end_date.desc()).first()]: a row that none sorts
    before; among equals, the earliest in storage order. *)
Fixpoint first_by_end_date_desc_from (best : Enrollment) (rows : list Enrollment)
    : Enrollment :=
  match rows with
  | [] => best
  | e :: rows' =>
      if decide (sorts_after (e_end_date best) (e_end_date e))
      then first_by_end_date_desc_from e rows'
      else first_by_end_date_desc_from best rows'
  end.

Definition first_by_end_date_desc (rows : list Enrollment) : option Enrollment :=
  match rows with
  | [] => None
  | e :: rows' => Some (first_by_end_date_desc_from e rows')
  end.

(** [Enrollment.query.filter_by(student_id=student_id, status='actif')] *)
Definition active_enrollments_of (student_id : Z) (db : DB) : list Enrollment :=
  filter (fun e => e_student_id e = student_id /\ e_status e = Actif)
    (enrollments db).

Definition current_enroll (student_id : Z) (db : DB) : option Enrollment :=
  first_by_end_date_desc (active_enrollments_of student_id db).

(** [record_payment] (lines 518-556): the transaction is added, then the
    current enrollment is extended and renewed, or a new one is created. *)
Definition record_payment (org_id : Z) (data : PaymentData) (now : DateTime)
    (db : DB) : result DB :=
  let student_id := pd_student_id data in
  let amount := pd_amount data in
  let date_val := default (dt_date now) (pd_date data) in
  let duration_days := default 30 (pd_duration_days data) in
  let* db :=
    add_transaction
      (fun id => mkTransaction id org_id (Some student_id) date_val Gain amount
                   (pd_payment_method data) (pd_reference data) None
                   (pd_comment data)) db in
  match current_enroll student_id db with
  | Some current =>
      let* end_date :=
        match e_end_date current with
        | Some d => let* d' := date_plus_days d duration_days in Ok (Some d')
        | None => Ok None
        end in
      Ok (update_enrollment (e_id current)
            (fun e => set_status Renouvele (set_end_date end_date e)) db)
  | None =>
      let* end_date := date_plus_days date_val duration_days in
      add_enrollment_row
        (fun id => mkEnrollment id student_id org_id date_val (Some end_date)
                     amount Actif None None) db
  end.

(** Body of [POST /enrollments/<id>/renew]. *)
Record RenewData : Type := mkRenewData {
  rd_duration_days : option Z;
  rd_amount : option Z
}.

(** [Enrollment.query.filter_by(id=id, organization_id=g.org_id)] *)
Definition enrollments_by_id (id org_id : Z) (db : DB) : list Enrollment :=
  filter (fun e => e_id e = id /\ e_organization_id e = org_id) (enrollments db).

(** [renew_enrollment] (lines 661-679); returns the committed database and
    [new_id]. *)
Definition renew_enrollment (org_id id : Z) (data : RenewData) (now : DateTime)
    (db : DB) : result (DB * Z) :=
  let duration_days := default 30 (rd_duration_days data) in
  let* enroll := first_or_404 (enrollments_by_id id org_id db) in
  let db := update_enrollment (e_id enroll) (set_status Renouvele) db in
  let* new_start :=
    match e_end_date enroll with
    | Some d => date_plus_days d 1
    | None => Ok (dt_date now)
    end in
  let* new_end := date_plus_days new_start duration_days in
  let new_id := enrollments_id_seq db in
  let* db :=
    add_enrollment_row
      (fun id => mkEnrollment id (e_student_id enroll) org_id new_start
                   (Some new_end) (default (e_amount enroll) (rd_amount data))
                   Actif None None) db in
  Ok (db, new_id).

(** [terminate_enrollment] (lines 681-688) *)
Definition terminate_enrollment (org_id id : Z) (now : DateTime) (db : DB)
    : result DB :=
  let* enroll := first_or_404 (enrollments_by_id id org_id db) in
  Ok (update_enrollment (e_id enroll)
        (fun e => set_terminated_at (Some now) (set_status Resilie e)) db).

(** Body of [POST /enrollments]. *)
Record EnrollmentData : Type := mkEnrollmentData {
  ed_student_id : Z;
  ed_start_date : Date;
  ed_end_date : option Date;
  ed_amount : Z;
  ed_status : option enrollment_status
}.

(** [add_enrollment] (lines 617-635): the student is looked up in the
    organization of the caller first. Returns the committed database and
    the key of the new enrollment. *)
Definition add_enrollment (org_id : Z) (data : EnrollmentData) (db : DB)
    : result (DB * Z) :=
  let student_id := ed_student_id data in
  let* _ :=
    first_or_404
      (filter (fun s => s_id s = student_id /\ s_organization_id s = org_id)
         (students db)) in
  let new_id := enrollments_id_seq db in
  let* db :=
    add_enrollment_row
      (fun id => mkEnrollment id student_id org_id (ed_start_date data)
                   (ed_end_date data) (ed_amount data)
                   (default Actif (ed_status data)) None None) db in
  Ok (db, new_id).

(** ** Expiration notifier *)

(** Days before expiration to notify. *)
Definition thresholds : list Z := [0; 1; 3; 7].

(** [max(xs)] of a list that is not empty. *)
Definition py_max (xs : list Z) : Z :=
  match xs with
  | [] => 0
  | x :: xs' => fold_left Z.max xs' x
  end.

(** The filter of the query of [check_expirations]; [end_date - today] is an
    integer number of days, [notified_at < today] compares the timestamp
    with the midnight of [today]. *)
Definition expiring_row (org_id : Z) (today : Date) (e : Enrollment) : Prop :=
  e_organization_id e = org_id /\
  e_status e = Actif /\
  match e_end_date e with
  | Some d => d - today <= py_max thresholds
  | None => False
  end /\
  match e_notified_at e with
  | None => True
  | Some ts => dt_before_date ts today
  end.

#[global] Instance expiring_row_dec org_id today e :
  Decision (expiring_row org_id today e).
Proof.
  unfold expiring_row.
  destruct (e_end_date e), (e_notified_at e); apply _.
Defined.

(** [(e.end_date - today).days] *)
Definition days_left (today : Date) (e : Enrollment) : result Z :=
  match e_end_date e with
  | Some d => Ok (d - today)
  | None => Err TypeError
  end.

(** The loop over the rows of the query. [stamps k] is the reading of
    [datetime.now()] at the [k]-th notification of the run; the loop
    carries the number of readings made, the pending updates and the list
    [notified]. *)
Fixpoint notify_loop (today : Date) (stamps : nat -> DateTime) (k : nat)
    (expiring : list Enrollment) (db : DB) (notified : list Z)
    : result (DB * list Z) :=
  match expiring with
  | [] => Ok (db, notified)
  | e :: rest =>
      let* n := days_left today e in
      if decide (n ∈ thresholds)
      then notify_loop today stamps (S k) rest
             (update_enrollment (e_id e) (set_notified_at (Some (stamps k))) db)
             (notified ++ [e_id e])
      else notify_loop today stamps k rest db notified
  end.

(** [check_expirations] (lines 637-659); returns the committed database
    and the list [notified]. [now] is the reading of the clock that gives
    [today]. *)
Definition check_expirations (org_id : Z) (now : DateTime)
    (stamps : nat -> DateTime) (db : DB) : result (DB * list Z) :=
  let today := dt_date now in
  let expiring := filter (expiring_row org_id today) (enrollments db) in
  notify_loop today stamps 0 expiring db [].

(** ** Financial ledger *)

(** Body of [POST /transactions/expense]. *)
Record ExpenseData : Type := mkExpenseData {
  xd_amount : Z;
  xd_payment_method : payment_method;
  xd_category_id : option Z;
  xd_date : option Date;
  xd_reference : option string;
  xd_comment : option string
}.

(** [record_expense] (lines 558-575) *)
Definition record_expense (org_id : Z) (data : ExpenseData) (now : DateTime)
    (db : DB) : result DB :=
  let date_val := default (dt_date now) (xd_date data) in
  add_transaction
    (fun id => mkTransaction id org_id None date_val Depense
                 (- Z.abs (xd_amount data))
                 (xd_payment_method data) (xd_reference data)
                 (xd_category_id data) (xd_comment data)) db.

(** [ON DELETE SET NULL] of [Transaction.category_id]. *)
Definition clear_category (cid : Z) (t : Transaction) : Transaction :=
  if decide (t_category_id t = Some cid)
  then mkTransaction (t_id t) (t_organization_id t) (t_student_id t) (t_date t)
         (t_type t) (t_amount t) (t_payment_method t) (t_reference t) None
         (t_comment t)
  else t.

(** [delete_category] (lines 813-821) *)
Definition delete_category (org_id id : Z) (db : DB) : result DB :=
  let* cat :=
    first_or_404
      (filter (fun c => c_id c = id /\ c_organization_id c = org_id)
         (transaction_categories db)) in
  if c_is_system cat then Err Forbidden
  else
    Ok (mkDB (students db) (enrollments db)
          (filter (fun c => c_id c <> c_id cat) (transaction_categories db))
          (clear_category (c_id cat) <$> transactions db)
          (enrollments_id_seq db) (transactions_id_seq db)).

Definition sum_Z (xs : list Z) : Z := foldr Z.add 0 xs.

(** [query(func.sum(column)).scalar()]: NULL over no row, else a
    [Decimal]. *)
Definition scalar_sum (xs : list Z) : option pynum :=
  match xs with
  | [] => None
  | _ => Some (PyDecimal (sum_Z xs))
  end.

(** The balance of [dashboard] (lines 582 and 610): the value under the
    key ['balance']. *)
Definition balance (org_id : Z) (db : DB) : pynum :=
  let balance :=
    py_or (scalar_sum (t_amount <$>
             filter (fun t => t_organization_id t = org_id) (transactions db)))
          (PyFloat 0) in
  py_float balance.

(** ** Reports *)

(** [Transaction JOIN TransactionCategory ON category_id = id]: the rows
    of the join that come from one transaction. *)
Definition join_category (db : DB) (t : Transaction)
    : list (Transaction * TransactionCategory) :=
  match t_category_id t with
  | Some cid =>
      (fun c => (t, c)) <$> filter (fun c => c_id c = cid) (transaction_categories db)
  | None => []
  end.

(** [GROUP BY label] with [SUM(amount)]: one row per label, in the order of
    first appearance. *)
Fixpoint add_to_group (label : string) (amount : Z) (groups : list (string * Z))
    : list (string * Z) :=
  match groups with
  | [] => [(label, amount)]
  | (l, s) :: groups' =>
      if decide (l = label) then (l, s + amount) :: groups'
      else (l, s) :: add_to_group label amount groups'
  end.

Definition group_by_label (rows : list (string * Z)) : list (string * Z) :=
  fold_left (fun groups r => add_to_group r.1 r.2 groups) rows [].

(** The query of expenses by category, given the filter on the date. *)
Definition expenses_by_cat (org_id : Z) (in_window : Date -> Prop)
    `{forall d, Decision (in_window d)} (db : DB) : list (string * Z) :=
  group_by_label
    ((fun r => (c_label r.2, t_amount r.1)) <$>
       filter (fun r : Transaction * TransactionCategory =>
                 t_organization_id r.1 = org_id /\ t_type r.1 = Depense /\
                 in_window (t_date r.1))
         (transactions db ≫= join_category db)).

(** The query of total gains, given the filter on the date. *)
Definition total_gains (org_id : Z) (in_window : Date -> Prop)
    `{forall d, Decision (in_window d)} (db : DB) : pynum :=
  py_or (scalar_sum (t_amount <$>
           filter (fun t => t_organization_id t = org_id /\ t_type t = Gain /\
                            in_window (t_date t))
             (transactions db)))
        (PyFloat 0).

(** [count(distinct(student_id))] of the enrollments that are active or
    renewed and overlap the window from [first] to [upper]. *)
Definition active_students (org_id : Z) (first upper : Date) (db : DB) : Z :=
  Z.of_nat (size (list_to_set (C := gset Z)
    (e_student_id <$>
       filter (fun e => e_organization_id e = org_id /\
                        (e_status e = Actif \/ e_status e = Renouvele) /\
                        e_start_date e <= upper /\
                        match e_end_date e with
                        | Some d => first <= d
                        | None => True
                        end)
         (enrollments db)))).

(** The JSON object of a report; the average is an [int] in the monthly
    report and a quotient in the annual one. *)
Record Report (A : Type) : Type := mkReport {
  gains : pynum;
  expenses : gmap string pynum;
  total_expenses : pynum;
  profit_loss : pynum;
  avg_active_students : A
}.
Arguments mkReport {A}.
Arguments gains {A}.
Arguments expenses {A}.
Arguments total_expenses {A}.
Arguments profit_loss {A}.
Arguments avg_active_students {A}.

(** [{cat: float(total) for cat, total in expenses_by_cat}]: the keys are
    set in the order of the rows. *)
Definition expenses_dict (rows : list (string * Z)) : gmap string pynum :=
  fold_left (fun d r => <[r.1 := py_float (PyDecimal r.2)]> d) rows ∅.

(** [sum(float(t) for _, t in expenses_by_cat)] *)
Definition sum_floats (rows : list (string * Z)) : result pynum :=
  py_sum ((fun r => py_float (PyDecimal r.2)) <$> rows).

(** The occupancy query for the month [m] of [year]. *)
Definition month_occupancy (org_id year m : Z) (db : DB) : result Z :=
  let* first := mk_date year m 1 in
  let* upper := date_plus_days first 31 in
  Ok (active_students org_id first upper db).

(** [monthly_report] (lines 691-734); [year_arg] and [month_arg] are the
    query arguments, which default to the current year and month. *)
Definition monthly_report (org_id : Z) (year_arg month_arg : option Z)
    (now : DateTime) (db : DB) : result (Report Z) :=
  let year := default (extract_year (dt_date now)) year_arg in
  let month := default (extract_month (dt_date now)) month_arg in
  let in_window d := extract_year d = year /\ extract_month d = month in
  let gains := total_gains org_id in_window db in
  let expenses_by_cat := expenses_by_cat org_id in_window db in
  let* total_expenses := sum_floats expenses_by_cat in
  let* profit_loss := py_add gains total_expenses in
  let* avg_students := month_occupancy org_id year month db in
  Ok (mkReport (py_float gains) (expenses_dict expenses_by_cat)
        (py_float total_expenses) (py_float profit_loss) avg_students).

(** The loop of [annual_report] over the months. *)
Fixpoint monthly_avgs (org_id year : Z) (months : list Z) (db : DB)
    : result (list Z) :=
  match months with
  | [] => Ok []
  | m :: months' =>
      let* avg := month_occupancy org_id year m db in
      let* avgs := monthly_avgs org_id year months' db in
      Ok (avg :: avgs)
  end.

(** [annual_report] (lines 736-778) *)
Definition annual_report (org_id : Z) (year_arg : option Z) (now : DateTime)
    (db : DB) : result (Report Q) :=
  let year := default (extract_year (dt_date now)) year_arg in
  let in_window d := extract_year d = year in
  let gains := total_gains org_id in_window db in
  let expenses_by_cat := expenses_by_cat org_id in_window db in
  let* total_expenses := sum_floats expenses_by_cat in
  let* profit_loss := py_add gains total_expenses in
  let* avgs := monthly_avgs org_id year (seqZ 1 12) db in
  let avg_students :=
    match avgs with
    | [] => 0%Q
    | _ => (inject_Z (sum_Z avgs) / 12)%Q
    end in
  Ok (mkReport (py_float gains) (expenses_dict expenses_by_cat)
        (py_float total_expenses) (py_float profit_loss) avg_students).

(** ** Notions that the properties refer to *)

(** The enrollments that a run on [today] for [org_id] is to notify, in
    the words of the specification: active, with an end date, not yet
    notified or notified on an earlier day, and with a number of days
    left, the end date minus today, that is one of the thresholds. *)
Definition notifiable (org_id : Z) (today : Date) (e : Enrollment) : Prop :=
  e_organization_id e = org_id /\
  e_status e = Actif /\
  match e_end_date e with
  | Some d => d - today ∈ thresholds
  | None => False
  end /\
  match e_notified_at e with
  | None => True
  | Some ts => dt_date ts < today
  end.

#[global] Instance notifiable_dec org_id today e :
  Decision (notifiable org_id today e).
Proof.
  unfold notifiable. destruct (e_end_date e), (e_notified_at e); apply _.
Defined.

(** The test of the loop body, on a row. *)
Definition at_threshold (today : Date) (e : Enrollment) : Prop :=
  match e_end_date e with
  | Some d => d - today ∈ thresholds
  | None => False
  end.

#[global] Instance at_threshold_dec today e : Decision (at_threshold today e).
Proof. unfold at_threshold. destruct (e_end_date e); apply _. Defined.

(** [rows'] is [rows] where the rows of key in [ids] carry a reading of
    the clock in [notified_at], and the others are as they were. *)
Definition stamped (stamps : nat -> DateTime) (ids : list Z)
    (rows rows' : list Enrollment) : Prop :=
  Forall2 (fun e e' =>
             if decide (e_id e ∈ ids)
             then exists k, e' = set_notified_at (Some (stamps k)) e
             else e' = e) rows rows'.

(** The assignments of [terminate_enrollment]. *)
Definition terminated (now : DateTime) (e : Enrollment) : Enrollment :=
  set_terminated_at (Some now) (set_status Resilie e).

(** The database with another table of transactions. *)
Definition with_transactions (txs : list Transaction) (db : DB) : DB :=
  mkDB (students db) (enrollments db) (transaction_categories db) txs
    (enrollments_id_seq db) (transactions_id_seq db).

(** A [Decimal]. *)
Definition is_decimal (x : pynum) : Prop :=
  match x with
  | PyDecimal _ => True
  | _ => False
  end.

Section sums.
Variables (org_id : Z) (in_window : Date -> Prop).
Context `{Hdec : forall d, Decision (in_window d)}.

(** The sum of the gains of the window. *)
Definition gains_sum (txs : list Transaction) : Z :=
  sum_Z (t_amount <$>
    filter (fun t => t_organization_id t = org_id /\ t_type t = Gain /\
                     in_window (t_date t)) txs).

(** The sum of the expenses of the window, with or without a category. *)
Definition expenses_sum (txs : list Transaction) : Z :=
  sum_Z (t_amount <$>
    filter (fun t => t_organization_id t = org_id /\ t_type t = Depense /\
                     in_window (t_date t)) txs).

(** The sum over the rows of the join of expenses and categories. *)
Definition joined_sum (db : DB) (txs : list Transaction) : Z :=
  sum_Z ((fun r : Transaction * TransactionCategory => t_amount r.1) <$>
    filter (fun r : Transaction * TransactionCategory =>
              t_organization_id r.1 = org_id /\ t_type r.1 = Depense /\
              in_window (t_date r.1))
      (txs ≫= join_category db)).

(** The true result of the window: the sum of the signed amounts of the
    organization, gains minus expenses. *)
Definition ledger_net (db : DB) : Z :=
  sum_Z (t_amount <$>
    filter (fun t => t_organization_id t = org_id /\ in_window (t_date t))
      (transactions db)).

End sums.

(** ** Sample databases *)

(** A database with a terminated enrollment of organization 1. *)
Definition db_terminated : DB :=
  mkDB [mkStudent 7 1]
    [mkEnrollment 1 7 1 738946 (Some 738976) 20000 Resilie None
       (Some (mkDateTime 738950 0))]
    [] [] 2 1.

(** A database in which the only student and the only enrollment belong
    to organization 2. *)
Definition db_two_tenants : DB :=
  mkDB [mkStudent 7 2]
    [mkEnrollment 1 7 2 738946 (Some 738976) 20000 Actif None None]
    [] [] 2 1.

(** The ledger of March 2024 of organization 1: a gain of 500.00 and an
    expense of 120.00 in the category "Loyer". *)
Definition db_march : DB :=
  mkDB [] []
    [mkTransactionCategory 1 1 "Loyer" false]
    [mkTransaction 1 1 None 738950 Gain 50000 Especes None None None;
     mkTransaction 2 1 None 738955 Depense (-12000) Virement None (Some 1) None]
    1 3.

(** Student 7 of organization 1, whose enrollment of February has
    expired. *)
Definition db_expired : DB :=
  mkDB [mkStudent 7 1]
    [mkEnrollment 1 7 1 738917 (Some 738945) 20000 Expire None None]
    [mkTransactionCategory 1 1 "Loyer" false] [] 2 1.

(** Student 7 of organization 1, with an active enrollment that ends on
    2024-03-31, and student 8, with an active enrollment without end date
    that was notified on 2024-03-01. *)
Definition db_active : DB :=
  mkDB [mkStudent 7 1; mkStudent 8 1]
    [mkEnrollment 1 7 1 738946 (Some 738976) 20000 Actif None None;
     mkEnrollment 2 8 1 738946 None 18000 Actif
       (Some (mkDateTime 738946 0)) None;
     mkEnrollment 3 8 1 738900 (Some 738930) 18000 Resilie None
       (Some (mkDateTime 738931 0))]
    [] [] 4 1.

Definition payment_march : PaymentData :=
  mkPaymentData 7 15000 (Some 738950) None Carte None None.

(** An expense of the given amount in category 1. *)
Definition expense_50 (amount : Z) : ExpenseData :=
  mkExpenseData amount Especes (Some 1) None None None.

(** The terminated enrollment of [db_active]. *)
Definition enrollment_terminated : Enrollment :=
  mkEnrollment 3 8 1 738900 (Some 738930) 18000 Resilie None
    (Some (mkDateTime 738931 0)).

(** A gain of 500.00 and an expense of 120.00 without category, both of
    March 2024 and of organization 1. *)
Definition gain_march : Transaction :=
  mkTransaction 1 1 None 738950 Gain 50000 Especes None None None.

Definition expense_uncategorized : Transaction :=
  mkTransaction 2 1 None 738955 Depense (-12000) Virement None None None.

Definition db_uncategorized : DB :=
  mkDB [] [] [mkTransactionCategory 1 1 "Loyer" false]
    [gain_march; expense_uncategorized] 1 3.

(** ** Dashboard, listings and categories *)

(** The filter of the count of upcoming payments of [dashboard]: the
    active enrollments of the organization that end from [today] to
    [limit]. *)
Definition upcoming_row (org_id : Z) (today limit : Date) (e : Enrollment)
    : Prop :=
  e_organization_id e = org_id /\
  match e_end_date e with
  | Some d => d <= limit /\ today <= d
  | None => False
  end /\
  e_status e = Actif.

#[global] Instance upcoming_row_dec org_id today limit e :
  Decision (upcoming_row org_id today limit e).
Proof. unfold upcoming_row. destruct (e_end_date e); apply _. Defined.

(** The count of [dashboard] under the key ['upcoming_payments'] (lines
    585-591), with [limit = today + timedelta(days=7)]. *)
Definition upcoming_payments (org_id : Z) (now : DateTime) (db : DB) : result Z :=
  let today := dt_date now in
  let* limit := date_plus_days today 7 in
  Ok (Z.of_nat (length
    (filter (upcoming_row org_id today limit) (enrollments db)))).

(** The mapping of [dashboard] under the key ['monthly_expenses'] (lines
    597-607 and 613). *)
Definition dashboard_monthly_expenses (org_id : Z) (now : DateTime) (db : DB)
    : gmap string pynum :=
  let today := dt_date now in
  let current_month := extract_month today in
  let current_year := extract_year today in
  expenses_dict
    (expenses_by_cat org_id
       (fun d => extract_month d = current_month /\ extract_year d = current_year)
       db).

(** Query arguments of [GET /transactions]. *)
Record TransactionsArgs : Type := mkTransactionsArgs {
  ta_start : option Date;
  ta_end : option Date;
  ta_type : option transaction_type;
  ta_student_id : option Z
}.

(** [get_transactions] (lines 487-516): the rows that the listing
    serialises, in the order of the table. *)
Definition get_transactions (org_id : Z) (args : TransactionsArgs) (db : DB)
    : list Transaction :=
  let query := filter (fun t => t_organization_id t = org_id) (transactions db) in
  let query :=
    match ta_type args with
    | Some trans_type => filter (fun t => t_type t = trans_type) query
    | None => query
    end in
  let query :=
    match ta_student_id args with
    | Some student_id => filter (fun t => t_student_id t = Some student_id) query
    | None => query
    end in
  match ta_start args, ta_end args with
  | Some start, Some end_ => filter (fun t => start <= t_date t <= end_) query
  | _, _ => query
  end.

(** [get_categories] (lines 781-789) *)
Definition get_categories (org_id : Z) (db : DB) : list TransactionCategory :=
  filter (fun c => c_organization_id c = org_id) (transaction_categories db).

(** Body of [POST /categories]. *)
Record CategoryData : Type := mkCategoryData {
  cd_label : string;
  cd_is_system : option bool
}.

(** A string is the UTF-8 encoding of a [str]. Its number of characters,
    which is what [String(n)] bounds, is the number of its bytes that are
    not continuation bytes, those of the form [10xxxxxx]. *)
Definition is_continuation (a : Ascii.ascii) : bool :=
  match a with
  | Ascii.Ascii _ _ _ _ _ _ b6 b7 => b7 && negb b6
  end.

Fixpoint char_length (s : string) : nat :=
  match s with
  | EmptyString => 0
  | String a s' => (if is_continuation a then 0 else 1) + char_length s'
  end.

(** The constraints of the table of categories on a row: the label fits
    [String(255)], the key is that of no other row and so is the pair of
    the organization and the label. *)
Definition category_row_ok (c : TransactionCategory)
    (others : list TransactionCategory) : Prop :=
  (char_length (c_label c) <= 255)%nat /\
  Forall (fun c' => c_id c' <> c_id c /\
                    ~ (c_organization_id c' = c_organization_id c /\
                       c_label c' = c_label c)) others.

#[global] Instance category_row_ok_dec c others :
  Decision (category_row_ok c others).
Proof. unfold category_row_ok. apply _. Defined.

(** [add_category] (lines 791-802). The state does not carry the sequence
    of the table of categories: [next_id] is the key that it gives.
    Returns the committed database and the key. *)
Definition add_category (org_id : Z) (data : CategoryData) (next_id : Z)
    (db : DB) : result (DB * Z) :=
  let cat :=
    mkTransactionCategory next_id org_id (cd_label data)
      (default false (cd_is_system data)) in
  let* _ := guard (char_length (c_label cat) <= 255)%nat DataError in
  let* _ := guard (category_row_ok cat (transaction_categories db))
                  IntegrityError in
  Ok (mkDB (students db) (enrollments db) (transaction_categories db ++ [cat])
        (transactions db) (enrollments_id_seq db) (transactions_id_seq db),
      next_id).

(** The assignment of [update_category] on a category. *)
Definition set_label (v : string) (c : TransactionCategory)
    : TransactionCategory :=
  mkTransactionCategory (c_id c) (c_organization_id c) v (c_is_system c).

(** [update_category] (lines 804-811); [label] is the label of the body,
    if any. The commit writes nothing when the label is the one that the
    category has; else it updates the row of the key, under the
    constraints of the table. *)
Definition update_category (org_id id : Z) (label : option string) (db : DB)
    : result DB :=
  let* cat :=
    first_or_404
      (filter (fun c => c_id c = id /\ c_organization_id c = org_id)
         (transaction_categories db)) in
  let label := default (c_label cat) label in
  if decide (label = c_label cat) then Ok db
  else
    let* _ := guard (char_length label <= 255)%nat DataError in
    let* _ :=
      guard (category_row_ok (set_label label cat)
               (filter (fun c => c_id c <> c_id cat) (transaction_categories db)))
            IntegrityError in
    Ok (mkDB (students db) (enrollments db)
          ((fun c => if decide (c_id c = c_id cat) then set_label label c else c)
             <$> transaction_categories db)
          (transactions db) (enrollments_id_seq db) (transactions_id_seq db)).

(** The sum of the amounts of the rows of a label. *)
Definition label_total (label : string) (rows : list (string * Z)) : Z :=
  sum_Z (snd <$> filter (fun r => r.1 = label) rows).

(** The rows that the query of expenses by category groups: the label and
    the amount of each expense of the window that has a category. *)
Definition expense_rows (org_id : Z) (in_window : Date -> Prop)
    `{forall d, Decision (in_window d)} (db : DB) : list (string * Z) :=
  (fun r => (c_label r.2, t_amount r.1)) <$>
    filter (fun r : Transaction * TransactionCategory =>
              t_organization_id r.1 = org_id /\ t_type r.1 = Depense /\
              in_window (t_date r.1))
      (transactions db ≫= join_category db).

(** The invariant of the table of categories: distinct keys, and distinct
    pairs of organization and label. *)
Definition categories_unique (cats : list TransactionCategory) : Prop :=
  NoDup (c_id <$> cats) /\
  NoDup ((fun c => (c_organization_id c, c_label c)) <$> cats).

(** ** Contacts, attendance and deletion of a student

    The tables of parent contacts and of attendance, beside the database
    of the handlers above. *)

(** [contact_type_enum], [relation_enum] and [attendance_status_enum] *)
Inductive contact_type : Type :=
  Telephone | Mobile | Email | Whatsapp | AutreContact.
Inductive relation : Type := Pere | Mere | GrandParent | Tuteur | AutreRelation.
Inductive attendance_status : Type := Present | Absent | Justifie.

#[global] Instance contact_type_eq_dec : EqDecision contact_type.
Proof. solve_decision. Defined.
#[global] Instance relation_eq_dec : EqDecision relation.
Proof. solve_decision. Defined.
#[global] Instance attendance_status_eq_dec : EqDecision attendance_status.
Proof. solve_decision. Defined.

Record ParentContact : Type := mkParentContact {
  pc_id : Z;
  pc_student_id : Z;
  pc_type : contact_type;
  pc_value : string;
  pc_is_principal : bool;
  pc_firstname : option string;
  pc_lastname : option string;
  pc_relation : relation
}.

(** A time of day, as [strptime(s, '%H:%M').time()] gives it: the hour and
    the minute. *)
Record Time : Type := mkTime {
  tm_hour : Z;
  tm_minute : Z
}.

Record Attendance : Type := mkAttendance {
  a_id : Z;
  a_student_id : Z;
  a_organization_id : Z;
  a_date : Date;
  a_status : attendance_status;
  a_arrival_time : option Time;
  a_departure_time : option Time;
  a_notes : option string
}.

#[global] Instance ParentContact_eq_dec : EqDecision ParentContact.
Proof. solve_decision. Defined.
#[global] Instance Time_eq_dec : EqDecision Time.
Proof. solve_decision. Defined.
#[global] Instance Attendance_eq_dec : EqDecision Attendance.
Proof. solve_decision. Defined.

Record Registry : Type := mkRegistry {
  core : DB;
  parent_contacts : list ParentContact;
  attendance : list Attendance;
  parent_contacts_id_seq : Z;
  attendance_id_seq : Z
}.

(** [Student.query.filter_by(id=student_id, organization_id=g.org_id)] *)
Definition students_by_id (student_id org_id : Z) (db : DB) : list Student :=
  filter (fun s => s_id s = student_id /\ s_organization_id s = org_id)
    (students db).

(** [get_contacts] (lines 345-358) *)
Definition get_contacts (org_id student_id : Z) (reg : Registry)
    : result (list ParentContact) :=
  let* _ := first_or_404 (students_by_id student_id org_id (core reg)) in
  Ok (filter (fun c => pc_student_id c = student_id) (parent_contacts reg)).

(** Body of [POST /students/<student_id>/contacts]. *)
Record ContactData : Type := mkContactData {
  kd_type : contact_type;
  kd_value : string;
  kd_is_principal : option bool;
  kd_firstname : option string;
  kd_lastname : option string;
  kd_relation : option relation
}.

(** [add_contact] (lines 360-376); returns the committed registry and the
    key of the contact. The value fits [String(255)] and the names
    [String(100)]. *)
Definition add_contact (org_id student_id : Z) (data : ContactData)
    (reg : Registry) : result (Registry * Z) :=
  let* _ := first_or_404 (students_by_id student_id org_id (core reg)) in
  let id := parent_contacts_id_seq reg in
  let contact :=
    mkParentContact id student_id (kd_type data) (kd_value data)
      (default false (kd_is_principal data)) (kd_firstname data)
      (kd_lastname data) (default AutreRelation (kd_relation data)) in
  let* _ :=
    guard ((char_length (kd_value data) <= 255)%nat /\
           (from_option char_length 0%nat (kd_firstname data) <= 100)%nat /\
           (from_option char_length 0%nat (kd_lastname data) <= 100)%nat)
          DataError in
  Ok (mkRegistry (core reg) (parent_contacts reg ++ [contact]) (attendance reg)
        (id + 1) (attendance_id_seq reg),
      id).

(** [delete_contact] (lines 388-394): the contact is looked up by its key
    and its student; the organization of the caller is not used. *)
Definition delete_contact (org_id student_id contact_id : Z) (reg : Registry)
    : result Registry :=
  let* contact :=
    first_or_404
      (filter (fun c => pc_id c = contact_id /\ pc_student_id c = student_id)
         (parent_contacts reg)) in
  Ok (mkRegistry (core reg)
        (filter (fun c => pc_id c <> pc_id contact) (parent_contacts reg))
        (attendance reg)
        (parent_contacts_id_seq reg) (attendance_id_seq reg)).

(** An entry of the body of [POST /attendance]. *)
Record AttendanceEntry : Type := mkAttendanceEntry {
  ae_student_id : Z;
  ae_status : option attendance_status;
  ae_arrival_time : option Time;
  ae_departure_time : option Time;
  ae_notes : option string
}.

(** The assignments of the loop body on an attendance row. *)
Definition set_entry (entry : AttendanceEntry) (a : Attendance) : Attendance :=
  mkAttendance (a_id a) (a_student_id a) (a_organization_id a) (a_date a)
    (default Absent (ae_status entry)) (ae_arrival_time entry)
    (ae_departure_time entry) (ae_notes entry).

(** [Attendance.query.filter_by(student_id=student_id, date=date_val)] *)
Definition attendance_of (student_id : Z) (date_val : Date)
    (rows : list Attendance) : list Attendance :=
  filter (fun a => a_student_id a = student_id /\ a_date a = date_val) rows.

(** The update of the attendance row of key [id] that a flush writes. *)
Definition update_attendance (id : Z) (f : Attendance -> Attendance)
    (rows : list Attendance) : list Attendance :=
  (fun a => if decide (a_id a = id) then f a else a) <$> rows.

(** One turn of the loop of [record_attendance]: the student is looked up
    in the organization of the caller, then the attendance row of the
    student and the date is updated, or created when there is none. *)
Definition record_entry (org_id : Z) (date_val : Date) (entry : AttendanceEntry)
    (reg : Registry) : result Registry :=
  let student_id := ae_student_id entry in
  let* _ := first_or_404 (students_by_id student_id org_id (core reg)) in
  match attendance_of student_id date_val (attendance reg) with
  | att :: _ =>
      Ok (mkRegistry (core reg) (parent_contacts reg)
            (update_attendance (a_id att) (set_entry entry) (attendance reg))
            (parent_contacts_id_seq reg) (attendance_id_seq reg))
  | [] =>
      let att :=
        mkAttendance (attendance_id_seq reg) student_id org_id date_val
          Absent None None None in
      Ok (mkRegistry (core reg) (parent_contacts reg)
            (attendance reg ++ [set_entry entry att])
            (parent_contacts_id_seq reg) (attendance_id_seq reg + 1))
  end.

(** [record_attendance] (lines 397-418) *)
Fixpoint record_attendance (org_id : Z) (date_val : Date)
    (entries : list AttendanceEntry) (reg : Registry) : result Registry :=
  match entries with
  | [] => Ok reg
  | entry :: entries' =>
      let* reg := record_entry org_id date_val entry reg in
      record_attendance org_id date_val entries' reg
  end.

(** [ON DELETE SET NULL] of [Transaction.student_id]. *)
Definition clear_student (sid : Z) (t : Transaction) : Transaction :=
  if decide (t_student_id t = Some sid)
  then mkTransaction (t_id t) (t_organization_id t) None (t_date t)
         (t_type t) (t_amount t) (t_payment_method t) (t_reference t)
         (t_category_id t) (t_comment t)
  else t.

(** [delete_student] (lines 336-342): the student is deleted, and with it
    its contacts, its enrollments and its attendance ([ON DELETE CASCADE]);
    its transactions stay, without student. *)
Definition delete_student (org_id id : Z) (reg : Registry) : result Registry :=
  let* student := first_or_404 (students_by_id id org_id (core reg)) in
  let sid := s_id student in
  let db := core reg in
  Ok (mkRegistry
        (mkDB (filter (fun s => s_id s <> sid) (students db))
           (filter (fun e => e_student_id e <> sid) (enrollments db))
           (transaction_categories db)
           (clear_student sid <$> transactions db)
           (enrollments_id_seq db) (transactions_id_seq db))
        (filter (fun c => pc_student_id c <> sid) (parent_contacts reg))
        (filter (fun a => a_student_id a <> sid) (attendance reg))
        (parent_contacts_id_seq reg) (attendance_id_seq reg)).

(** The invariant of the table of attendance: distinct keys, below the
    next key of the sequence, and one row at most for a student and a
    date. *)
Definition attendance_wf (reg : Registry) : Prop :=
  NoDup (a_id <$> attendance reg) /\
  Forall (fun a => a_id a < attendance_id_seq reg) (attendance reg) /\
  NoDup ((fun a => (a_student_id a, a_date a)) <$> attendance reg).

(** The foreign keys to the table of students hold. *)
Definition references_ok (reg : Registry) : Prop :=
  Forall (fun e => student_exists (e_student_id e) (core reg))
    (enrollments (core reg)) /\
  Forall (fun t => fk_ok (fun k => student_exists k (core reg)) (t_student_id t))
    (transactions (core reg)) /\
  Forall (fun c => student_exists (pc_student_id c) (core reg))
    (parent_contacts reg) /\
  Forall (fun a => student_exists (a_student_id a) (core reg)) (attendance reg).

(** ** Further sample data *)

(** [db_expired] after the payment [payment_march] of organization 1 on
    2024-03-05. *)
Definition db_paid : DB :=
  mkDB [mkStudent 7 1]
    [mkEnrollment 1 7 1 738917 (Some 738945) 20000 Expire None None;
     mkEnrollment 2 7 1 738950 (Some 738980) 15000 Actif None None]
    [mkTransactionCategory 1 1 "Loyer" false]
    [mkTransaction 1 1 (Some 7) 738950 Gain 15000 Carte None None None]
    3 2.


(** March 2024 of organization 1 without gain: two expenses in the
    category "Loyer", one in the category "Salaires", and one student
    enrolled for the month. *)
Definition db_spring : DB :=
  mkDB [mkStudent 7 1; mkStudent 8 1]
    [mkEnrollment 1 7 1 738946 (Some 738976) 20000 Actif None None]
    [mkTransactionCategory 1 1 "Loyer" false;
     mkTransactionCategory 2 1 "Salaires" false]
    [mkTransaction 1 1 None 738950 Depense (-12000) Virement None (Some 1) None;
     mkTransaction 2 1 None 738955 Depense (-3000) Especes None (Some 1) None;
     mkTransaction 3 1 None 738960 Depense (-50000) Virement None (Some 2) None]
    2 4.

(** Students 7 and 8 of organization 1 and student 9 of organization 2,
    with a contact and an attendance row of 2024-03-05 for student 7 and
    an attendance row of the day before for student 8. *)
Definition db_school : DB :=
  mkDB [mkStudent 7 1; mkStudent 8 1; mkStudent 9 2]
    [mkEnrollment 1 7 1 738946 (Some 738976) 20000 Actif None None;
     mkEnrollment 2 8 1 738946 None 18000 Actif None None]
    []
    [mkTransaction 1 1 (Some 7) 738950 Gain 20000 Carte None None None;
     mkTransaction 2 1 (Some 8) 738950 Gain 18000 Especes None None None]
    3 3.

Definition reg_school : Registry :=
  mkRegistry db_school
    [mkParentContact 1 7 Mobile "0612345678" true (Some "Nadia") None Mere]
    [mkAttendance 1 7 1 738950 Absent None None None;
     mkAttendance 2 8 1 738949 Present (Some (mkTime 8 30)) None None]
    2 3.

(** The entries of a request for 2024-03-05: student 7 twice, then
    student 8. *)
Definition entry_present : AttendanceEntry :=
  mkAttendanceEntry 7 (Some Present) (Some (mkTime 8 30)) None None.

Definition entry_justified : AttendanceEntry :=
  mkAttendanceEntry 7 (Some Justifie) None None (Some "medecin").

Definition entry_default : AttendanceEntry :=
  mkAttendanceEntry 8 None None None None.

Definition entries_march : list AttendanceEntry :=
  [entry_present; entry_justified; entry_default].

(** [reg_school] after the request [entries_march]. *)
Definition reg_recorded : Registry :=
  mkRegistry db_school
    [mkParentContact 1 7 Mobile "0612345678" true (Some "Nadia") None Mere]
    [mkAttendance 1 7 1 738950 Justifie None None (Some "medecin");
     mkAttendance 2 8 1 738949 Present (Some (mkTime 8 30)) None None;
     mkAttendance 3 8 1 738950 Absent None None None]
    2 4.

Definition contact_email : ContactData :=
  mkContactData Email "parent@example.org" None None None None.

(** [reg_school] after the creation of the contact [contact_email] of
    student 8. *)
Definition reg_contact : Registry :=
  mkRegistry db_school
    [mkParentContact 1 7 Mobile "0612345678" true (Some "Nadia") None Mere;
     mkParentContact 2 8 Email "parent@example.org" false None None
       AutreRelation]
    [mkAttendance 1 7 1 738950 Absent None None None;
     mkAttendance 2 8 1 738949 Present (Some (mkTime 8 30)) None None]
    3 3.

(** [reg_school] after the deletion of student 7. *)
Definition reg_left : Registry :=
  mkRegistry
    (mkDB [mkStudent 8 1; mkStudent 9 2]
       [mkEnrollment 2 8 1 738946 None 18000 Actif None None]
       []
       [mkTransaction 1 1 None 738950 Gain 20000 Carte None None None;
        mkTransaction 2 1 (Some 8) 738950 Gain 18000 Especes None None None]
       3 3)
    []
    [mkAttendance 2 8 1 738949 Present (Some (mkTime 8 30)) None None]
    2 3.

(** The first enrollment of [db_active] and of [db_open_ended], and the
    second one of [db_open_ended]. *)
Definition enrollment_active : Enrollment :=
  mkEnrollment 1 7 1 738946 (Some 738976) 20000 Actif None None.


(** The reports of March 2024 and of 2024 on [db_spring]. *)
Definition report_spring : Report Z :=
  mkReport (PyFloat 0)
    {[ "Loyer" := PyFloat (-15000); "Salaires" := PyFloat (-50000) ]}
    (PyFloat (-65000)) (PyFloat (-65000)) 1.

Definition report_spring_annual : Report Q :=
  mkReport (PyFloat 0)
    {[ "Loyer" := PyFloat (-15000); "Salaires" := PyFloat (-50000) ]}
    (PyFloat (-65000)) (PyFloat (-65000)) (2 # 12).

(** [db_march] after the deletion of its category. *)
Definition db_march_deleted : DB :=
  mkDB [] [] [] [gain_march; expense_uncategorized] 1 3.

(** [db_expired] after an expense of 50.00 in its category on
    2024-03-05. *)
Definition db_spent : DB :=
  mkDB [mkStudent 7 1]
    [mkEnrollment 1 7 1 738917 (Some 738945) 20000 Expire None None]
    [mkTransactionCategory 1 1 "Loyer" false]
    [mkTransaction 1 1 None 738950 Depense (-5000) Especes None (Some 1) None]
    2 2.

(** [db_spring] after the creation of the system category "Crèche". *)
Definition db_creche : DB :=
  mkDB (students db_spring) (enrollments db_spring)
    (transaction_categories db_spring ++
     [mkTransactionCategory 3 1 "Crèche" true])
    (transactions db_spring) 2 4.

(** [db_spring] after the creation of the category "Cantine". *)
Definition db_cantine : DB :=
  mkDB (students db_spring) (enrollments db_spring)
    (transaction_categories db_spring ++
     [mkTransactionCategory 3 1 "Cantine" false])
    (transactions db_spring) 2 4.

(** * Properties *)

(** ** The calendar *)

Example ymd2ord_2024_03_01 : ymd2ord 2024 3 1 = 738946.
Proof. reflexivity. Qed.

Example ord2ymd_2024_03_01 : ord2ymd 738946 = (2024, 3, 1).
Proof. reflexivity. Qed.


(** ** The result monad and the dates *)

Lemma guard_true (P : Prop) `{Decision P} (e : error) : P -> guard P e = Ok tt.
Proof. intros HP. unfold guard. by rewrite decide_True. Qed.

Lemma guard_false (P : Prop) `{Decision P} (e : error) : ~ P -> guard P e = Err e.
Proof. intros HP. unfold guard. by rewrite decide_False. Qed.

Lemma bind_Ok {A B} (r : result A) (k : A -> result B) (b : B) :
  bind r k = Ok b <-> exists a, r = Ok a /\ k a = Ok b.
Proof.
  destruct r as [a|e]; simpl; split.
  - intros Hk. by exists a.
  - by intros (a' & [= ->] & Hk).
  - discriminate.
  - by intros (a' & [=] & _).
Qed.

Lemma date_plus_days_Ok (d n : Z) :
  valid_date d -> valid_date (d + n) -> date_plus_days d n = Ok (d + n).
Proof.
  intros Hd Hdn. unfold date_plus_days, timedelta, date_add.
  rewrite guard_true; [simpl | unfold valid_date, MAXORDINAL in *; lia].
  by rewrite guard_true.
Qed.

Lemma date_plus_days_inv (d n d' : Z) :
  date_plus_days d n = Ok d' -> d' = d + n /\ valid_date d'.
Proof.
  unfold date_plus_days, timedelta, date_add, guard.
  repeat (case_decide; simpl; try discriminate).
  by intros [= <-].
Qed.

(** ** Selection of the current enrollment *)

Section current_enrollment.
Implicit Types (e best : Enrollment) (rows : list Enrollment).

Lemma first_from_elem best rows :
  first_by_end_date_desc_from best rows ∈ best :: rows.
Proof.
  revert best. induction rows as [|e rows IH]; intros best; simpl.
  - set_solver.
  - case_decide.
    + pose proof (IH e) as Hin. apply elem_of_cons in Hin as [->|Hin];
        apply elem_of_cons; right; [apply elem_of_cons; by left|].
      apply elem_of_cons. by right.
    + pose proof (IH best) as Hin. apply elem_of_cons in Hin as [->|Hin];
        apply elem_of_cons; [by left|right].
      apply elem_of_cons. by right.
Qed.

Lemma sorts_after_trans (a b c : option Date) :
  ~ sorts_after b a -> ~ sorts_after c b -> ~ sorts_after c a.
Proof. destruct a, b, c; simpl; intros; try tauto; lia. Qed.

Lemma first_from_not_before best rows :
  ~ sorts_after (e_end_date (first_by_end_date_desc_from best rows))
      (e_end_date best).
Proof.
  revert best. induction rows as [|e rows IH]; intros best; simpl.
  - destruct (e_end_date best); simpl; lia.
  - case_decide as Hlt; [|done].
    eapply sorts_after_trans; [|apply IH].
    destruct (e_end_date best), (e_end_date e); simpl in *; try tauto; lia.
Qed.

(** The selected row is one that no row sorts before. *)
Lemma first_from_maximal best rows e' :
  e' ∈ best :: rows ->
  ~ sorts_after (e_end_date (first_by_end_date_desc_from best rows))
      (e_end_date e').
Proof.
  revert best. induction rows as [|e rows IH]; intros best Hin; simpl.
  - apply list_elem_of_singleton in Hin as ->.
    destruct (e_end_date best); simpl; lia.
  - apply elem_of_cons in Hin as [->|Hin].
    + case_decide as Hlt.
      * eapply sorts_after_trans; [|apply first_from_not_before].
        destruct (e_end_date best), (e_end_date e); simpl in *; try tauto; lia.
      * apply first_from_not_before.
    + case_decide as Hlt.
      * by apply IH.
      * apply elem_of_cons in Hin as [->|Hin].
        -- eapply sorts_after_trans; [exact Hlt|apply first_from_not_before].
        -- apply IH. set_solver.
Qed.

Lemma current_enroll_Some student_id db cur :
  current_enroll student_id db = Some cur ->
  cur ∈ enrollments db /\ e_student_id cur = student_id /\ e_status cur = Actif /\
  forall e', e' ∈ enrollments db -> e_student_id e' = student_id ->
             e_status e' = Actif ->
             ~ sorts_after (e_end_date cur) (e_end_date e').
Proof.
  unfold current_enroll, first_by_end_date_desc, active_enrollments_of.
  destruct (filter _ (enrollments db)) as [|e0 rows] eqn:Hf; [done|].
  intros [= <-].
  pose proof (first_from_elem e0 rows) as Hin. rewrite <- Hf in Hin.
  apply list_elem_of_filter in Hin as [[Hs Ha] Hin].
  repeat split; try done.
  intros e' He' Hs' Ha'. apply first_from_maximal. rewrite <- Hf.
  by apply list_elem_of_filter.
Qed.


End current_enrollment.

(** ** Inserts *)

Lemma add_transaction_inv (mk : Z -> Transaction) (db db' : DB) :
  add_transaction mk db = Ok db' ->
  db' = mkDB (students db) (enrollments db) (transaction_categories db)
          (transactions db ++ [mk (transactions_id_seq db)])
          (enrollments_id_seq db) (transactions_id_seq db + 1).
Proof.
  unfold add_transaction, guard.
  repeat (case_decide; simpl; try discriminate). by intros [= <-].
Qed.

Lemma add_enrollment_row_inv (mk : Z -> Enrollment) (db db' : DB) :
  add_enrollment_row mk db = Ok db' ->
  db' = mkDB (students db) (enrollments db ++ [mk (enrollments_id_seq db)])
          (transaction_categories db) (transactions db)
          (enrollments_id_seq db + 1) (transactions_id_seq db).
Proof.
  unfold add_enrollment_row, guard.
  repeat (case_decide; simpl; try discriminate). by intros [= <-].
Qed.

(** ** Payments *)

Lemma current_enroll_enrollments student_id db db' :
  enrollments db' = enrollments db ->
  current_enroll student_id db' = current_enroll student_id db.
Proof.
  intros Heq. unfold current_enroll, active_enrollments_of. by rewrite Heq.
Qed.


Lemma update_rows_length id f rows : length (update_rows id f rows) = length rows.
Proof. unfold update_rows. by rewrite length_fmap. Qed.

Lemma update_rows_lookup id f rows (i : nat) :
  update_rows id f rows !! i =
  (fun e => if decide (e_id e = id) then f e else e) <$> rows !! i.
Proof. unfold update_rows. by rewrite list_lookup_fmap. Qed.

Lemma update_rows_elem id f rows e :
  e ∈ rows -> e_id e = id -> f e ∈ update_rows id f rows.
Proof.
  intros Hin Hid. unfold update_rows.
  apply list_elem_of_fmap. exists e. split; [|done]. by rewrite decide_True.
Qed.



(** ** Expenses *)


(** ** Expiration notifier *)

Section notifier.
Variables (org_id : Z) (today : Date) (stamps : nat -> DateTime).

Lemma elem_of_thresholds (n : Z) :
  n ∈ thresholds <-> n = 0 \/ n = 1 \/ n = 3 \/ n = 7.
Proof.
  unfold thresholds. rewrite !elem_of_cons, elem_of_nil. tauto.
Qed.

Lemma dt_before_date_iff (ts : DateTime) (d : Date) :
  dt_before_date ts d <-> dt_date ts < d.
Proof. unfold dt_before_date. lia. Qed.

(** The rows notified are those of the query that pass the test of the
    loop. *)
Lemma notifiable_iff (e : Enrollment) :
  notifiable org_id today e <->
  at_threshold today e /\ expiring_row org_id today e.
Proof.
  unfold notifiable, at_threshold, expiring_row.
  destruct (e_end_date e) as [d|]; [|tauto].
  assert (d - today ∈ thresholds -> d - today <= py_max thresholds) as Hmax.
  { rewrite elem_of_thresholds. vm_compute py_max. lia. }
  destruct (e_notified_at e) as [ts|]; [rewrite dt_before_date_iff|]; tauto.
Qed.

Lemma stamped_nil (rows : list Enrollment) : stamped stamps [] rows rows.
Proof.
  unfold stamped. apply Forall2_same_length_lookup. split; [done|].
  intros i e e' He He'. rewrite decide_False by apply not_elem_of_nil.
  congruence.
Qed.

Lemma stamped_step (ids : list Z) (rows rows' : list Enrollment) (id : Z) (k : nat) :
  stamped stamps ids rows rows' ->
  stamped stamps (ids ++ [id]) rows
    (update_rows id (set_notified_at (Some (stamps k))) rows').
Proof.
  unfold stamped, update_rows. intros H.
  induction H as [|e e' rows rows' He _ IH]; simpl; constructor; [|done].
  assert (e_id e' = e_id e) as Hid.
  { case_decide; [destruct He as [k' ->]|subst]; done. }
  rewrite Hid. destruct (decide (e_id e = id)) as [Heq|Hne].
  - rewrite decide_True by (apply elem_of_app; right; set_solver).
    exists k. case_decide; [destruct He as [k' ->]|subst]; done.
  - case_decide as Hin.
    + rewrite decide_True by (apply elem_of_app; by left). done.
    + rewrite decide_False; [done|].
      rewrite elem_of_app, list_elem_of_singleton. tauto.
Qed.

(** The loop, run on rows that have an end date: it cannot fail, it
    appends the keys of the rows at a threshold to [notified] and stamps
    the rows of these keys. *)
Lemma notify_loop_spec (expiring : list Enrollment) :
  forall (k : nat) (db : DB) (notified : list Z) (rows : list Enrollment),
    Forall (fun e => is_Some (e_end_date e)) expiring ->
    stamped stamps notified rows (enrollments db) ->
    exists db',
      notify_loop today stamps k expiring db notified =
        Ok (db', notified ++ (e_id <$> filter (at_threshold today) expiring)) /\
      stamped stamps (notified ++ (e_id <$> filter (at_threshold today) expiring))
        rows (enrollments db') /\
      students db' = students db /\
      transaction_categories db' = transaction_categories db /\
      transactions db' = transactions db /\
      enrollments_id_seq db' = enrollments_id_seq db /\
      transactions_id_seq db' = transactions_id_seq db.
Proof.
  induction expiring as [|e rest IH]; intros k db notified rows Hend Hst.
  - exists db. simpl. rewrite app_nil_r. done.
  - apply Forall_cons in Hend as [[d Hd] Hend].
    simpl. unfold days_left. rewrite Hd. simpl.
    assert (at_threshold today e <-> d - today ∈ thresholds) as Hat
      by (unfold at_threshold; by rewrite Hd).
    destruct (decide (d - today ∈ thresholds)) as [Hthr|Hthr].
    + rewrite filter_cons_True by by apply Hat.
      destruct (IH (S k)
                  (update_enrollment (e_id e)
                     (set_notified_at (Some (stamps k))) db)
                  (notified ++ [e_id e]) rows Hend) as (db' & Hrun & Hst' & Heqs).
      { simpl. by apply stamped_step. }
      exists db'. rewrite fmap_cons.
      rewrite <- (assoc_L (++)) in Hrun, Hst'. simpl in Hrun, Hst'.
      done.
    + rewrite filter_cons_False by (by rewrite Hat). by apply IH.
Qed.

(** A loop over rows none of which is at a threshold changes nothing. *)
Lemma notify_loop_skip (expiring : list Enrollment) (k : nat) (db : DB)
    (notified : list Z) :
  Forall (fun e => is_Some (e_end_date e) /\ ~ at_threshold today e) expiring ->
  notify_loop today stamps k expiring db notified = Ok (db, notified).
Proof.
  induction expiring as [|e rest IH]; intros Hall; [done|].
  apply Forall_cons in Hall as [[[d Hd] Hthr] Hall].
  simpl. unfold days_left. rewrite Hd. simpl.
  unfold at_threshold in Hthr. rewrite Hd in Hthr.
  rewrite decide_False by done. by apply IH.
Qed.

Lemma expiring_row_end_date (rows : list Enrollment) :
  Forall (fun e => is_Some (e_end_date e))
    (filter (expiring_row org_id today) rows).
Proof.
  apply Forall_forall. intros e [He _]%list_elem_of_filter.
  destruct He as (_ & _ & He & _). by destruct (e_end_date e).
Qed.

Lemma notified_ids (rows : list Enrollment) :
  e_id <$> filter (at_threshold today) (filter (expiring_row org_id today) rows)
  = e_id <$> filter (notifiable org_id today) rows.
Proof.
  rewrite list_filter_filter. f_equal.
  apply list_filter_iff. intros e. symmetry. apply notifiable_iff.
Qed.
End notifier.

(** What a run of [check_expirations] returns and commits. *)
Lemma check_expirations_spec (org_id : Z) (now : DateTime)
    (stamps : nat -> DateTime) (db : DB) :
  let ids := e_id <$> filter (notifiable org_id (dt_date now)) (enrollments db) in
  exists db',
    check_expirations org_id now stamps db = Ok (db', ids) /\
    stamped stamps ids (enrollments db) (enrollments db') /\
    students db' = students db /\
    transaction_categories db' = transaction_categories db /\
    transactions db' = transactions db /\
    enrollments_id_seq db' = enrollments_id_seq db /\
    transactions_id_seq db' = transactions_id_seq db.
Proof.
  intros ids. unfold check_expirations.
  destruct (notify_loop_spec (dt_date now) stamps
              (filter (expiring_row org_id (dt_date now)) (enrollments db))
              0%nat db [] (enrollments db)) as (db' & Hrun & Hst & Heqs).
  { apply expiring_row_end_date. }
  { apply stamped_nil. }
  simpl in Hrun, Hst. rewrite notified_ids in Hrun, Hst.
  by exists db'.
Qed.

Lemma NoDup_fmap_eq {A B} (f : A -> B) (l : list A) (x y : A) :
  NoDup (f <$> l) -> x ∈ l -> y ∈ l -> f x = f y -> x = y.
Proof.
  induction l as [|a l IH]; intros Hnd Hx Hy Hf.
  - by apply elem_of_nil in Hx.
  - rewrite fmap_cons in Hnd. apply NoDup_cons in Hnd as [Ha Hnd].
    apply elem_of_cons in Hx as [->|Hx]; apply elem_of_cons in Hy as [->|Hy].
    + done.
    + destruct Ha. rewrite Hf. by apply list_elem_of_fmap_2.
    + destruct Ha. rewrite <- Hf. by apply list_elem_of_fmap_2.
    + by apply IH.
Qed.

(** C4. A second run of [check_expirations] on the same calendar day, on
    the database that the first run committed, returns an empty list and
    commits the database as it found it. The clock does not run backwards:
    the readings that the first run stamps are not earlier than its
    [today]. *)
Theorem check_expirations_idempotent
    (org_id : Z) (now1 now2 : DateTime) (stamps1 stamps2 : nat -> DateTime)
    (db : DB) :
  dt_date now2 = dt_date now1 ->
  (forall k, dt_date now1 <= dt_date (stamps1 k)) ->
  exists db1 notified1,
    check_expirations org_id now1 stamps1 db = Ok (db1, notified1) /\
    check_expirations org_id now2 stamps2 db1 = Ok (db1, []).
Proof.
  intros Hday Hclock.
  destruct (check_expirations_spec org_id now1 stamps1 db)
    as (db1 & Hrun & Hst & _).
  exists db1, (e_id <$> filter (notifiable org_id (dt_date now1)) (enrollments db)).
  split; [done|].
  unfold check_expirations. rewrite Hday.
  apply notify_loop_skip. apply Forall_forall.
  intros e1 [Hexp Hin1]%list_elem_of_filter.
  split.
  { destruct Hexp as (_ & _ & He & _). by destruct (e_end_date e1). }
  intros Hthr.
  apply list_elem_of_lookup in Hin1 as [i Hi].
  destruct (Forall2_lookup_r _ _ _ _ _ Hst Hi) as (e & Hie & Hrel).
  case_decide as Hids.
  - destruct Hrel as [k ->].
    destruct Hexp as (_ & _ & _ & Hnot). simpl in Hnot.
    apply dt_before_date_iff in Hnot. specialize (Hclock k). lia.
  - subst e1. apply Hids. apply list_elem_of_fmap_2.
    apply list_elem_of_filter. split.
    + by apply notifiable_iff.
    + by eapply list_elem_of_lookup_2.
Qed.

Lemma NoDup_fmap_filter {A B} (f : A -> B) (P : A -> Prop)
    `{forall x, Decision (P x)} (l : list A) :
  NoDup (f <$> l) -> NoDup (f <$> filter P l).
Proof.
  induction l as [|x l IH]; [done|].
  rewrite fmap_cons, NoDup_cons, filter_cons. intros [Hout Hnd].
  case_decide; [|by apply IH].
  rewrite fmap_cons. apply NoDup_cons. split; [|by apply IH].
  intros (y & Hy & [_ Hin]%list_elem_of_filter)%list_elem_of_fmap.
  apply Hout. rewrite Hy. by apply list_elem_of_fmap_2.
Qed.

(** The rows to notify, with the thresholds and the test on [notified_at]
    written out. *)
Lemma notifiable_due (org_id : Z) (today : Date) (e : Enrollment) :
  notifiable org_id today e <->
  e_organization_id e = org_id /\
  e_status e = Actif /\
  (exists d, e_end_date e = Some d /\
             (d - today = 0 \/ d - today = 1 \/ d - today = 3 \/ d - today = 7)) /\
  (forall ts, e_notified_at e = Some ts -> dt_date ts < today).
Proof.
  unfold notifiable.
  destruct (e_end_date e) as [d|], (e_notified_at e) as [ts|];
    try rewrite elem_of_thresholds; split.
  - intros (Ho & Hs & Hd & Hn). repeat split; [done..| |].
    + by exists d.
    + by intros ts' [= <-].
  - intros (Ho & Hs & (d' & [= <-] & Hd) & Hn). repeat split; [done..|].
    by apply Hn.
  - intros (Ho & Hs & Hd & _). repeat split; [done..| |done]. by exists d.
  - intros (Ho & Hs & (d' & [= <-] & Hd) & _). done.
  - intros (_ & _ & [] & _).
  - intros (_ & _ & (d' & [=] & _) & _).
  - intros (_ & _ & [] & _).
  - intros (_ & _ & (d' & [=] & _) & _).
Qed.

(** C5. A run of [check_expirations] for an organization returns exactly
    the keys of its enrollments that are active, have an end date, were
    not notified or were notified before today, and expire in 0, 1, 3 or 7
    days, each of them once; in exactly these rows it sets [notified_at]
    to a reading of the clock, every other column staying as it was, and
    it leaves every other row as it was, among them the rows that expire
    within 7 days but not in 0, 1, 3 or 7 days. The keys of the table are
    distinct. *)
Theorem check_expirations_notifies_exactly
    (org_id : Z) (now : DateTime) (stamps : nat -> DateTime) (db : DB) :
  NoDup (e_id <$> enrollments db) ->
  let today := dt_date now in
  let due e :=
    e_organization_id e = org_id /\
    e_status e = Actif /\
    (exists d, e_end_date e = Some d /\
               (d - today = 0 \/ d - today = 1 \/ d - today = 3 \/
                d - today = 7)) /\
    (forall ts, e_notified_at e = Some ts -> dt_date ts < today) in
  exists db' notified,
    check_expirations org_id now stamps db = Ok (db', notified) /\
    NoDup notified /\
    (forall id, id ∈ notified <->
                exists e, e ∈ enrollments db /\ e_id e = id /\ due e) /\
    length (enrollments db') = length (enrollments db) /\
    (forall (i : nat) e, enrollments db !! i = Some e ->
       exists e', enrollments db' !! i = Some e' /\
         (due e ->
          exists k,
            e' = mkEnrollment (e_id e) (e_student_id e) (e_organization_id e)
                   (e_start_date e) (e_end_date e) (e_amount e) (e_status e)
                   (Some (stamps k)) (e_terminated_at e)) /\
         (~ due e -> e' = e)).
Proof.
  intros Hnodup today due.
  assert (forall e, notifiable org_id today e <-> due e) as Hdue
    by (intros e; apply notifiable_due).
  destruct (check_expirations_spec org_id now stamps db)
    as (db' & Hrun & Hst & _).
  exists db', (e_id <$> filter (notifiable org_id today) (enrollments db)).
  split; [done|]. split; [by apply NoDup_fmap_filter|]. split.
  { intros id. rewrite list_elem_of_fmap. split.
    - intros (e & -> & [Hn Hin]%list_elem_of_filter).
      exists e. split; [done|]. split; [done|]. by apply Hdue.
    - intros (e & Hin & <- & Hd). exists e. split; [done|].
      apply list_elem_of_filter. split; [by apply Hdue|done]. }
  split.
  { symmetry. by eapply Forall2_length. }
  intros i e Hi.
  destruct (Forall2_lookup_l _ _ _ _ _ Hst Hi) as (e' & Hi' & Hrel).
  exists e'. split; [done|].
  assert (e ∈ enrollments db) as Hin by by eapply list_elem_of_lookup_2.
  destruct (decide (notifiable org_id today e)) as [Hn|Hn].
  - rewrite decide_True in Hrel
      by (apply list_elem_of_fmap_2; by apply list_elem_of_filter).
    split; [|intros Hnd; destruct Hnd; by apply Hdue].
    intros _. destruct Hrel as [k ->]. by exists k.
  - rewrite decide_False in Hrel.
    + split; [|done]. intros Hd. destruct Hn. by apply Hdue.
    + intros (e2 & Hid & [Hn2 Hin2]%list_elem_of_filter)%list_elem_of_fmap.
      apply Hn. by rewrite (NoDup_fmap_eq e_id (enrollments db) e e2).
Qed.

(** ** Termination and renewal *)

Lemma first_or_404_filter {A} (P : A -> Prop) `{forall x, Decision (P x)}
    (l : list A) (x : A) :
  x ∈ l -> P x -> exists y, first_or_404 (filter P l) = Ok y.
Proof.
  intros Hin HP.
  destruct (filter P l) as [|y l'] eqn:Hf; [|by exists y].
  assert (x ∈ filter P l) as Hx by by apply list_elem_of_filter.
  rewrite Hf in Hx. by apply elem_of_nil in Hx.
Qed.

Lemma first_or_404_filter_inv {A} (P : A -> Prop) `{forall x, Decision (P x)}
    (l : list A) (y : A) :
  first_or_404 (filter P l) = Ok y -> P y /\ y ∈ l.
Proof.
  destruct (filter P l) as [|y' l'] eqn:Hf; [done|]. intros [= ->].
  apply (list_elem_of_filter P). rewrite Hf. by left.
Qed.

Lemma terminate_enrollment_Ok (org_id id : Z) (now : DateTime) (db : DB)
    (e : Enrollment) :
  e ∈ enrollments db -> e_id e = id -> e_organization_id e = org_id ->
  terminate_enrollment org_id id now db =
    Ok (update_enrollment id (terminated now) db).
Proof.
  intros Hin Hid Horg. unfold terminate_enrollment.
  destruct (first_or_404_filter
              (fun e => e_id e = id /\ e_organization_id e = org_id)
              (enrollments db) e Hin) as [enroll Hfound]; [done|].
  unfold enrollments_by_id. rewrite Hfound. simpl.
  apply first_or_404_filter_inv in Hfound as [[-> _] _]. done.
Qed.

(** C6. [terminate_enrollment], on an enrollment of the caller's
    organization, sets its status to terminated and [terminated_at] to the
    time of the call; a second call on the same enrollment succeeds too and
    leaves the status terminated. *)
Theorem terminate_enrollment_terminal
    (org_id id : Z) (now1 now2 : DateTime) (db : DB) (e : Enrollment) :
  e ∈ enrollments db -> e_id e = id -> e_organization_id e = org_id ->
  exists db1 db2,
    terminate_enrollment org_id id now1 db = Ok db1 /\
    terminated now1 e ∈ enrollments db1 /\
    (forall r, r ∈ enrollments db1 -> e_id r = id ->
               e_status r = Resilie /\ e_terminated_at r = Some now1) /\
    terminate_enrollment org_id id now2 db1 = Ok db2 /\
    (forall r, r ∈ enrollments db2 -> e_id r = id ->
               e_status r = Resilie /\ e_terminated_at r = Some now2).
Proof.
  intros Hin Hid Horg.
  assert (forall now rows r,
            r ∈ update_rows id (terminated now) rows -> e_id r = id ->
            e_status r = Resilie /\ e_terminated_at r = Some now) as Hrows.
  { intros now rows r (r0 & -> & _)%list_elem_of_fmap Hr.
    case_decide as Hr0; [done|]. by destruct Hr0. }
  assert (terminated now1 e ∈ update_rows id (terminated now1) (enrollments db))
    as Hin1 by by apply update_rows_elem.
  exists (update_enrollment id (terminated now1) db),
         (update_enrollment id (terminated now2)
            (update_enrollment id (terminated now1) db)).
  split; [by eapply terminate_enrollment_Ok|].
  split; [done|]. split; [apply Hrows|].
  split; [by eapply terminate_enrollment_Ok|]. apply Hrows.
Qed.

(** What [record_payment] commits to the table of enrollments: a new row,
    or an update of the row of the current enrollment. *)
Lemma record_payment_enrollments (org_id : Z) (data : PaymentData)
    (now : DateTime) (db db' : DB) :
  record_payment org_id data now db = Ok db' ->
  (current_enroll (pd_student_id data) db = None /\
   exists e, enrollments db' = enrollments db ++ [e]) \/
  (exists cur f, current_enroll (pd_student_id data) db = Some cur /\
                 enrollments db' = update_rows (e_id cur) f (enrollments db)).
Proof.
  unfold record_payment. intros (db1 & Hadd & Hrest)%bind_Ok.
  assert (enrollments db1 = enrollments db) as Henr
    by by rewrite (add_transaction_inv _ _ _ Hadd).
  rewrite (current_enroll_enrollments _ db db1 Henr) in Hrest.
  destruct (current_enroll (pd_student_id data) db) as [cur|].
  - right. apply bind_Ok in Hrest as (end_date & _ & [= <-]).
    eexists cur, _. split; [done|]. simpl. by rewrite Henr.
  - left. split; [done|].
    apply bind_Ok in Hrest as (end_date & _ & Hrow).
    rewrite (add_enrollment_row_inv _ _ _ Hrow).
    simpl. rewrite Henr. by eexists.
Qed.

(** What [renew_enrollment] commits and returns, whenever it succeeds. *)
Lemma renew_enrollment_inv (org_id id : Z) (data : RenewData) (now : DateTime)
    (db db' : DB) (new_id : Z) :
  renew_enrollment org_id id data now db = Ok (db', new_id) ->
  exists enroll new_start,
    enroll ∈ enrollments db /\ e_id enroll = id /\
    e_organization_id enroll = org_id /\
    new_id = enrollments_id_seq db /\
    enrollments db' =
      update_rows id (set_status Renouvele) (enrollments db) ++
      [mkEnrollment new_id (e_student_id enroll) org_id new_start
         (Some (new_start + default 30 (rd_duration_days data)))
         (default (e_amount enroll) (rd_amount data)) Actif None None].
Proof.
  unfold renew_enrollment.
  intros (enroll & Hfound & Hrest)%bind_Ok.
  apply first_or_404_filter_inv in Hfound as [[Hid Horg] Hin].
  apply bind_Ok in Hrest as (new_start & _ & Hrest).
  apply bind_Ok in Hrest as (new_end & Hend & Hrest).
  apply date_plus_days_inv in Hend as [-> _].
  apply bind_Ok in Hrest as (db2 & Hrow & [= <- <-]).
  rewrite (add_enrollment_row_inv _ _ _ Hrow).
  exists enroll, new_start. simpl. rewrite Hid. done.
Qed.

Example renew_terminated_example :
  renew_enrollment 1 1 (mkRenewData None None) (mkDateTime 738960 0)
    db_terminated
  = Ok (mkDB [mkStudent 7 1]
          [mkEnrollment 1 7 1 738946 (Some 738976) 20000 Renouvele None
             (Some (mkDateTime 738950 0));
           mkEnrollment 2 7 1 738977 (Some 739007) 20000 Actif None None]
          [] [] 3 1,
        2).
Proof. reflexivity. Qed.

(** C7, refuted as stated: it is not the case that every renewal of a
    terminated enrollment leaves its status and its end date as they were.
    On [db_terminated] the renewal of enrollment 1 succeeds and turns its
    status from terminated to renewed. *)
Lemma renew_enrollment_resurrects_terminated :
  ~ (forall (db : DB) (e : Enrollment) org_id data now db' new_id,
       e ∈ enrollments db ->
       e_status e = Resilie ->
       renew_enrollment org_id (e_id e) data now db = Ok (db', new_id) ->
       forall e', e' ∈ enrollments db' -> e_id e' = e_id e ->
                  e_status e' = e_status e /\ e_end_date e' = e_end_date e).
Proof.
  intros Hclaim.
  pose (e := mkEnrollment 1 7 1 738946 (Some 738976) 20000 Resilie None
               (Some (mkDateTime 738950 0))).
  pose (e' := mkEnrollment 1 7 1 738946 (Some 738976) 20000 Renouvele None
                (Some (mkDateTime 738950 0))).
  destruct (Hclaim db_terminated e 1 (mkRenewData None None)
              (mkDateTime 738960 0) _ _
              ltac:(by left) eq_refl renew_terminated_example e')
    as [Hstatus _].
  - simpl. by left.
  - reflexivity.
  - discriminate Hstatus.
Qed.

(** C7, as amended. A terminated enrollment is left as it is by every
    payment, and no renewal changes its end date or the time of its
    termination; but a renewal of the terminated enrollment, whenever it
    succeeds, sets its status to renewed and adds a new active enrollment of
    the same student. The keys of the table are distinct. *)
Theorem terminated_enrollment_payment_and_renewal
    (db : DB) (i : nat) (e : Enrollment) :
  NoDup (e_id <$> enrollments db) ->
  enrollments db !! i = Some e ->
  e_status e = Resilie ->
  (forall org_id data now db',
     record_payment org_id data now db = Ok db' ->
     enrollments db' !! i = Some e) /\
  (forall org_id data now db' new_id,
     renew_enrollment org_id (e_id e) data now db = Ok (db', new_id) ->
     exists new,
       enrollments db' !! i = Some (set_status Renouvele e) /\
       e_end_date (set_status Renouvele e) = e_end_date e /\
       e_terminated_at (set_status Renouvele e) = e_terminated_at e /\
       e_status (set_status Renouvele e) = Renouvele /\
       enrollments db' !! length (enrollments db) = Some new /\
       e_student_id new = e_student_id e /\
       e_status new = Actif).
Proof.
  intros Hnodup Hi Hst.
  assert (e ∈ enrollments db) as Hin by by eapply list_elem_of_lookup_2.
  split.
  - intros org_id data now db' Hpay.
    apply record_payment_enrollments in Hpay
      as [[_ [new ->]]|(cur & f & Hcur & ->)].
    + rewrite lookup_app_l; [done|]. by eapply lookup_lt_Some.
    + rewrite update_rows_lookup, Hi. simpl.
      apply current_enroll_Some in Hcur as (Hcin & _ & Hact & _).
      rewrite decide_False; [done|]. intros Hid.
      assert (e = cur) as -> by by eapply (NoDup_fmap_eq e_id).
      congruence.
  - intros org_id data now db' new_id Hrenew.
    apply renew_enrollment_inv in Hrenew
      as (enroll & new_start & Hein & Hid & _ & _ & ->).
    assert (enroll = e) as -> by by eapply (NoDup_fmap_eq e_id).
    eexists. split; [|split; [|split; [|split; [|split]]]].
    + rewrite lookup_app_l by (rewrite update_rows_length; by eapply lookup_lt_Some).
      rewrite update_rows_lookup, Hi. simpl. by rewrite decide_True.
    + reflexivity.
    + reflexivity.
    + reflexivity.
    + rewrite lookup_app_r by by rewrite update_rows_length.
      rewrite update_rows_length, Nat.sub_diag. reflexivity.
    + done.
Qed.

(** ** Tenant isolation *)

(** C8, at the failing input: a payment that organization 1 records for
    the student of organization 2 renews and extends the enrollment of
    organization 2, and files the gain under organization 1. *)
Theorem record_payment_crosses_tenants :
  record_payment 1
    (mkPaymentData 7 15000 (Some 738970) (Some 30) Especes None None)
    (mkDateTime 738970 0) db_two_tenants
  = Ok (mkDB [mkStudent 7 2]
          [mkEnrollment 1 7 2 738946 (Some 739006) 20000 Renouvele None None]
          []
          [mkTransaction 1 1 (Some 7) 738970 Gain 15000 Especes None None None]
          2 2).
Proof. reflexivity. Qed.

(** The sibling handler [add_enrollment] refuses the same student to
    organization 1. *)
Example add_enrollment_scoped :
  add_enrollment 1 (mkEnrollmentData 7 738970 None 15000 None) db_two_tenants
  = Err NotFound.
Proof. reflexivity. Qed.

(** ** Reports *)

(** C9, at the failing input: with gains of 500.00 and categorised
    expenses of -120.00 in the month, [gains] is a [Decimal] and
    [total_expenses] a [float], and their sum raises [TypeError]: the
    handler returns no report. *)
Theorem monthly_report_raises_TypeError :
  total_gains 1 (fun d => extract_year d = 2024 /\ extract_month d = 3) db_march
    = PyDecimal 50000 /\
  sum_floats
    (expenses_by_cat 1 (fun d => extract_year d = 2024 /\ extract_month d = 3)
       db_march)
    = Ok (PyFloat (-12000)) /\
  monthly_report 1 (Some 2024) (Some 3) (mkDateTime 738960 0) db_march
    = Err TypeError.
Proof. repeat split; reflexivity. Qed.

Section uncategorized.
Variables (db : DB) (l1 l2 : list Transaction) (t : Transaction).
Hypothesis t_expense : t_type t = Depense.
Hypothesis t_uncategorized : t_category_id t = None.

Local Abbreviation db_with := (with_transactions (l1 ++ t :: l2) db).
Local Abbreviation db_without := (with_transactions (l1 ++ l2) db).

Lemma join_category_uncategorized (db0 : DB) : join_category db0 t = [].
Proof using t_uncategorized. unfold join_category. by rewrite t_uncategorized. Qed.

Lemma joined_without :
  transactions db_with ≫= join_category db_with
  = transactions db_without ≫= join_category db_without.
Proof using t_uncategorized.
  unfold with_transactions. simpl.
  rewrite !bind_app, bind_cons.
  unfold join_category at 2. rewrite t_uncategorized. reflexivity.
Qed.

Lemma expenses_by_cat_without (org_id : Z) (in_window : Date -> Prop)
    `{forall d, Decision (in_window d)} :
  expenses_by_cat org_id in_window db_with
  = expenses_by_cat org_id in_window db_without.
Proof using t_uncategorized.
  unfold expenses_by_cat. by rewrite joined_without.
Qed.

Lemma total_gains_without (org_id : Z) (in_window : Date -> Prop)
    `{forall d, Decision (in_window d)} :
  total_gains org_id in_window db_with = total_gains org_id in_window db_without.
Proof using t_expense.
  unfold total_gains, with_transactions. simpl.
  rewrite !filter_app, filter_cons_False; [done|].
  intros (_ & Hgain & _). congruence.
Qed.

Lemma month_occupancy_without (org_id year m : Z) :
  month_occupancy org_id year m db_with = month_occupancy org_id year m db_without.
Proof. reflexivity. Qed.

Lemma monthly_avgs_without (org_id year : Z) (months : list Z) :
  monthly_avgs org_id year months db_with
  = monthly_avgs org_id year months db_without.
Proof.
  induction months as [|m months IH]; [done|].
  simpl. by rewrite IH, month_occupancy_without.
Qed.

Lemma monthly_report_without (org_id : Z) (year_arg month_arg : option Z)
    (now : DateTime) :
  monthly_report org_id year_arg month_arg now db_with
  = monthly_report org_id year_arg month_arg now db_without.
Proof using t_expense t_uncategorized.
  unfold monthly_report.
  by rewrite total_gains_without, expenses_by_cat_without,
    month_occupancy_without.
Qed.

Lemma annual_report_without (org_id : Z) (year_arg : option Z) (now : DateTime) :
  annual_report org_id year_arg now db_with
  = annual_report org_id year_arg now db_without.
Proof using t_expense t_uncategorized.
  unfold annual_report.
  by rewrite total_gains_without, expenses_by_cat_without,
    monthly_avgs_without.
Qed.
End uncategorized.

(** The balance is the sum of the amounts of the organization. *)
Lemma balance_sum (org_id : Z) (db : DB) :
  balance org_id db =
  PyFloat (sum_Z (t_amount <$>
             filter (fun t => t_organization_id t = org_id) (transactions db))).
Proof.
  unfold balance, py_or, scalar_sum, py_float, py_truthy.
  destruct (t_amount <$> _) as [|a xs] eqn:Hxs; [done|].
  simpl. destruct (Z.eqb_spec (a + sum_Z xs) 0) as [Hz|Hz]; simpl; [|done].
  by rewrite Hz.
Qed.

Lemma sum_Z_cons (x : Z) (xs : list Z) : sum_Z (x :: xs) = x + sum_Z xs.
Proof. reflexivity. Qed.

Lemma sum_Z_app (xs ys : list Z) : sum_Z (xs ++ ys) = sum_Z xs + sum_Z ys.
Proof. induction xs as [|x xs IH]; simpl; [done|]. rewrite IH. lia. Qed.

(** *** The figures of a report that is returned *)

Lemma py_add_cents (x y p : pynum) :
  py_add x y = Ok p -> cents_of p = cents_of x + cents_of y.
Proof. destruct x, y; simpl; intros [= <-]; simpl; lia. Qed.

(** A sum of floats is an [int] or a [float], never a [Decimal], and never
    fails. *)
Lemma py_sum_from_floats (rows : list (string * Z)) :
  forall acc, ~ is_decimal acc ->
    exists x, py_sum_from acc ((fun r => py_float (PyDecimal r.2)) <$> rows) = Ok x /\
              cents_of x = cents_of acc + sum_Z (rows.*2) /\
              ~ is_decimal x.
Proof.
  induction rows as [|[l a] rows IH]; intros acc Hacc.
  - exists acc. simpl. split; [done|]. split; [lia|done].
  - rewrite !fmap_cons. simpl.
    destruct acc as [n|c|c]; simpl in *; [| |done].
    + destruct (IH (PyFloat (100 * n + a))) as (x & Hx & Hc & Hd); [done|].
      exists x. split; [done|]. split; [simpl in Hc; lia|done].
    + destruct (IH (PyFloat (c + a))) as (x & Hx & Hc & Hd); [done|].
      exists x. split; [done|]. split; [simpl in Hc; lia|done].
Qed.

Lemma sum_floats_cents (rows : list (string * Z)) :
  exists x, sum_floats rows = Ok x /\ cents_of x = sum_Z (rows.*2) /\
            ~ is_decimal x.
Proof.
  destruct (py_sum_from_floats rows (PyInt 0)) as (x & Hx & Hc & Hd);
    [by intros []|].
  exists x. split; [done|]. split; [simpl in Hc; lia|done].
Qed.

Lemma py_sum_from_float (rows : list (string * Z)) (c : Z) :
  exists c', py_sum_from (PyFloat c) ((fun r => py_float (PyDecimal r.2)) <$> rows)
             = Ok (PyFloat c').
Proof.
  revert c. induction rows as [|[l a] rows IH]; intros c; [by exists c|].
  rewrite fmap_cons. simpl. apply IH.
Qed.

(** The sum of the floats of at least one row is a [float]. *)
Lemma sum_floats_float (rows : list (string * Z)) :
  rows <> [] -> exists c, sum_floats rows = Ok (PyFloat c).
Proof.
  destruct rows as [|[l a] rows]; [done|]. intros _.
  unfold sum_floats, py_sum. rewrite fmap_cons. simpl. apply py_sum_from_float.
Qed.

Lemma add_to_group_sum (label : string) (amount : Z) (groups : list (string * Z)) :
  sum_Z ((add_to_group label amount groups).*2) = sum_Z (groups.*2) + amount.
Proof.
  induction groups as [|[l s] groups IH]; [simpl; lia|].
  cbn [add_to_group]. case_decide; rewrite !fmap_cons, !sum_Z_cons; simpl.
  - lia.
  - rewrite IH. lia.
Qed.

(** Grouping keeps the total. *)
Lemma group_by_label_sum (rows : list (string * Z)) :
  sum_Z ((group_by_label rows).*2) = sum_Z (rows.*2).
Proof.
  unfold group_by_label.
  assert (forall groups,
            sum_Z ((fold_left (fun groups r => add_to_group r.1 r.2 groups)
                      rows groups).*2)
            = sum_Z (groups.*2) + sum_Z (rows.*2)) as Hgen.
  { induction rows as [|[l a] rows IH]; intros groups; [simpl; lia|].
    cbn [fold_left]. rewrite IH, add_to_group_sum, fmap_cons, sum_Z_cons.
    simpl. lia. }
  by rewrite Hgen.
Qed.

Section figures.
Variables (org_id : Z) (in_window : Date -> Prop).
Context `{Hdec : forall d, Decision (in_window d)}.

Lemma total_gains_cents (db : DB) :
  cents_of (total_gains org_id in_window db) = gains_sum org_id in_window (transactions db).
Proof.
  unfold total_gains, gains_sum, py_or, scalar_sum, py_truthy.
  destruct (t_amount <$> _) as [|a xs]; [done|]. simpl.
  destruct (Z.eqb_spec (a + sum_Z xs) 0) as [Hz|Hz]; simpl; [|done].
  by rewrite Hz.
Qed.

Lemma expenses_by_cat_sum (db : DB) :
  sum_Z ((expenses_by_cat org_id in_window db).*2)
  = joined_sum org_id in_window db (transactions db).
Proof.
  unfold expenses_by_cat, joined_sum.
  rewrite group_by_label_sum, <- list_fmap_compose. reflexivity.
Qed.

Lemma ledger_net_split (db : DB) :
  ledger_net org_id in_window db
  = gains_sum org_id in_window (transactions db)
    + expenses_sum org_id in_window (transactions db).
Proof.
  unfold ledger_net, gains_sum, expenses_sum.
  induction (transactions db) as [|t txs IH]; [done|].
  rewrite !filter_cons.
  destruct (t_type t) eqn:Hty; repeat case_decide;
    rewrite ?fmap_cons, ?sum_Z_cons;
    first [lia | exfalso; intuition congruence].
Qed.

Lemma joined_sum_app (db : DB) (xs ys : list Transaction) :
  joined_sum org_id in_window db (xs ++ ys)
  = joined_sum org_id in_window db xs + joined_sum org_id in_window db ys.
Proof.
  unfold joined_sum. by rewrite bind_app, filter_app, fmap_app, sum_Z_app.
Qed.

Lemma expenses_sum_app (xs ys : list Transaction) :
  expenses_sum org_id in_window (xs ++ ys)
  = expenses_sum org_id in_window xs + expenses_sum org_id in_window ys.
Proof.
  unfold expenses_sum. by rewrite filter_app, fmap_app, sum_Z_app.
Qed.
End figures.

Lemma filter_key_length (cats : list TransactionCategory) (cid : Z) :
  NoDup (c_id <$> cats) ->
  (length (filter (fun c => c_id c = cid) cats) <= 1)%nat.
Proof.
  induction cats as [|c cats IH]; intros Hnd; [simpl; lia|].
  rewrite fmap_cons in Hnd. apply NoDup_cons in Hnd as [Hc Hnd].
  rewrite filter_cons. case_decide as Hid; [|by apply IH].
  assert (filter (fun c => c_id c = cid) cats = []) as ->; [|simpl; lia].
  apply elem_of_nil_inv. intros c' [Hid' Hin]%list_elem_of_filter.
  apply Hc. rewrite Hid, <- Hid'. by apply list_elem_of_fmap_2.
Qed.

Section bounds.
Variables (org_id : Z) (in_window : Date -> Prop).
Context `{Hdec : forall d, Decision (in_window d)}.

Local Abbreviation selected t :=
  (t_organization_id t = org_id /\ t_type t = Depense /\ in_window (t_date t)).

Lemma expenses_sum_one (t : Transaction) :
  expenses_sum org_id in_window [t] = if decide (selected t) then t_amount t else 0.
Proof.
  unfold expenses_sum. rewrite filter_cons, filter_nil.
  case_decide; simpl; lia.
Qed.

(** With distinct category keys, a transaction is in at most one row of
    the join. *)
Lemma joined_sum_one (db : DB) (t : Transaction) :
  NoDup (c_id <$> transaction_categories db) ->
  joined_sum org_id in_window db [t] = 0 \/
  (selected t /\ is_Some (t_category_id t) /\
   joined_sum org_id in_window db [t] = t_amount t).
Proof.
  intros Hnd. unfold joined_sum. rewrite bind_singleton.
  unfold join_category. destruct (t_category_id t) as [cid|]; [|by left].
  pose proof (filter_key_length _ cid Hnd) as Hlen.
  destruct (filter _ (transaction_categories db)) as [|c [|c' cats]];
    [by left| |simpl in Hlen; lia].
  rewrite list_fmap_singleton, filter_cons, filter_nil.
  case_decide as Hsel; [right|by left].
  split; [done|]. split; [done|]. simpl. lia.
Qed.

Lemma joined_sum_none (db : DB) (t : Transaction) :
  t_category_id t = None -> joined_sum org_id in_window db [t] = 0.
Proof.
  intros Hnone. unfold joined_sum. rewrite bind_singleton.
  unfold join_category. by rewrite Hnone.
Qed.

(** Expenses being stored as amounts that are not positive, the join
    sums to no less than the expenses of the window. *)
Lemma joined_sum_ge (db : DB) (txs : list Transaction) :
  NoDup (c_id <$> transaction_categories db) ->
  (forall t, t ∈ txs -> t_type t = Depense -> t_amount t <= 0) ->
  expenses_sum org_id in_window txs <= joined_sum org_id in_window db txs.
Proof.
  intros Hnd. induction txs as [|t txs IH]; intros Hneg; [done|].
  change (t :: txs) with ([t] ++ txs).
  rewrite expenses_sum_app, joined_sum_app, expenses_sum_one.
  assert (expenses_sum org_id in_window txs
          <= joined_sum org_id in_window db txs) as Hrest.
  { apply IH. intros t' Hin. apply Hneg. by right. }
  destruct (joined_sum_one db t Hnd) as [->|(Hsel & _ & ->)].
  - case_decide as Hsel; [|lia].
    assert (t_amount t <= 0); [|lia].
    apply Hneg; [by left|]. by destruct Hsel as (_ & ? & _).
  - rewrite decide_True by done. lia.
Qed.

(** An expense of the window without category, of an amount that is
    not zero, makes the inequality strict. *)
Lemma joined_sum_gt (db : DB) (l1 l2 : list Transaction) (t : Transaction) :
  NoDup (c_id <$> transaction_categories db) ->
  (forall t', t' ∈ l1 ++ t :: l2 -> t_type t' = Depense -> t_amount t' <= 0) ->
  t_category_id t = None ->
  selected t ->
  t_amount t < 0 ->
  expenses_sum org_id in_window (l1 ++ t :: l2)
  < joined_sum org_id in_window db (l1 ++ t :: l2).
Proof.
  intros Hnd Hneg Hnone Hsel Hlt.
  change (t :: l2) with ([t] ++ l2).
  rewrite !expenses_sum_app, !joined_sum_app, expenses_sum_one,
    joined_sum_none by done.
  rewrite decide_True by done.
  assert (expenses_sum org_id in_window l1
          <= joined_sum org_id in_window db l1).
  { apply joined_sum_ge; [done|]. intros t' Hin. apply Hneg.
    apply elem_of_app. by left. }
  assert (expenses_sum org_id in_window l2
          <= joined_sum org_id in_window db l2).
  { apply joined_sum_ge; [done|]. intros t' Hin. apply Hneg.
    apply elem_of_app. right. by right. }
  lia.
Qed.

(** The figures that both reports compute, when the addition of the
    gains and the expenses is defined. *)
Lemma figures_cents (db : DB) (total p : pynum) :
  sum_floats (expenses_by_cat org_id in_window db) = Ok total ->
  py_add (total_gains org_id in_window db) total = Ok p ->
  cents_of total = joined_sum org_id in_window db (transactions db) /\
  cents_of p = gains_sum org_id in_window (transactions db)
               + joined_sum org_id in_window db (transactions db).
Proof.
  intros Htotal Hadd.
  destruct (sum_floats_cents (expenses_by_cat org_id in_window db))
    as (x & Hx & Hc & _).
  rewrite Hx in Htotal. injection Htotal as ->.
  rewrite expenses_by_cat_sum in Hc. split; [done|].
  by rewrite (py_add_cents _ _ _ Hadd), total_gains_cents, Hc.
Qed.
(** The addition is undefined as soon as the gains of the window are not
zero and the query of expenses by category returns a row: a [Decimal] is
added to a [float]. *)
Lemma figures_TypeError (db : DB) :
  gains_sum org_id in_window (transactions db) <> 0 ->
  expenses_by_cat org_id in_window db <> [] ->
  (let* total := sum_floats (expenses_by_cat org_id in_window db) in
   py_add (total_gains org_id in_window db) total) = Err TypeError.
Proof.
  intros Hgains Hrows.
  destruct (sum_floats_float _ Hrows) as [c ->]. simpl.
  unfold gains_sum in Hgains. unfold total_gains, py_or, scalar_sum, py_truthy.
  destruct (t_amount <$> _) as [|a xs]; [done|]. simpl.
  destruct (Z.eqb_spec (sum_Z (a :: xs)) 0) as [Hz|Hz]; [done|].
  rewrite sum_Z_cons in Hz.
  destruct (Z.eqb_spec (a + sum_Z xs) 0); done.
Qed.
End bounds.

(** Where [monthly_report] returns, its figures are the sum of the gains
    of the month, the sum of the expenses of the month that have a
    category, and the sum of the two. *)
Lemma monthly_report_figures (org_id : Z) (year_arg month_arg : option Z)
    (now : DateTime) (db : DB) (r : Report Z) :
  let year := default (extract_year (dt_date now)) year_arg in
  let month := default (extract_month (dt_date now)) month_arg in
  let in_window d := extract_year d = year /\ extract_month d = month in
  monthly_report org_id year_arg month_arg now db = Ok r ->
  gains r = PyFloat (gains_sum org_id in_window (transactions db)) /\
  expenses r = expenses_dict (expenses_by_cat org_id in_window db) /\
  total_expenses r = PyFloat (joined_sum org_id in_window db (transactions db)) /\
  profit_loss r =
    PyFloat (gains_sum org_id in_window (transactions db)
             + joined_sum org_id in_window db (transactions db)).
Proof.
  intros year month in_window. unfold monthly_report.
  fold year month. fold in_window.
  intros (total & Htotal & Hrest)%bind_Ok.
  apply bind_Ok in Hrest as (p & Hadd & Hrest).
  apply bind_Ok in Hrest as (avg & _ & [= <-]).
  destruct (figures_cents _ _ _ _ _ Htotal Hadd) as [Ht Hp].
  simpl. unfold py_float. rewrite Ht, Hp, total_gains_cents. done.
Qed.

Lemma annual_report_figures (org_id : Z) (year_arg : option Z)
    (now : DateTime) (db : DB) (r : Report Q) :
  let year := default (extract_year (dt_date now)) year_arg in
  let in_window d := extract_year d = year in
  annual_report org_id year_arg now db = Ok r ->
  gains r = PyFloat (gains_sum org_id in_window (transactions db)) /\
  expenses r = expenses_dict (expenses_by_cat org_id in_window db) /\
  total_expenses r = PyFloat (joined_sum org_id in_window db (transactions db)) /\
  profit_loss r =
    PyFloat (gains_sum org_id in_window (transactions db)
             + joined_sum org_id in_window db (transactions db)).
Proof.
  intros year in_window. unfold annual_report.
  fold year. fold in_window.
  intros (total & Htotal & Hrest)%bind_Ok.
  apply bind_Ok in Hrest as (p & Hadd & Hrest).
  apply bind_Ok in Hrest as (avgs & _ & [= <-]).
  destruct (figures_cents _ _ _ _ _ Htotal Hadd) as [Ht Hp].
  simpl. unfold py_float. rewrite Ht, Hp, total_gains_cents. done.
Qed.

(** [monthly_report] raises [TypeError] in every month that has gains
    that do not sum to zero and an expense with a category. *)
Lemma monthly_report_TypeError (org_id year month : Z) (now : DateTime) (db : DB) :
  let in_window d := extract_year d = year /\ extract_month d = month in
  gains_sum org_id in_window (transactions db) <> 0 ->
  expenses_by_cat org_id in_window db <> [] ->
  monthly_report org_id (Some year) (Some month) now db = Err TypeError.
Proof.
  intros in_window Hgains Hrows. unfold monthly_report. simpl.
  fold in_window.
  pose proof (figures_TypeError org_id in_window db Hgains Hrows) as Herr.
  destruct (sum_floats (expenses_by_cat org_id in_window db)) as [total|e];
    simpl in *; [by rewrite Herr|by injection Herr as ->].
Qed.

(** C10. An expense [t] without category is invisible to both reports:
    they are what they would be if [t] were not in the ledger, in the
    mapping of expenses by category, in [total_expenses] and in
    [profit_loss]; the balance of its organization counts the amount of
    [t]. Hence, in a ledger whose categories have distinct keys and whose
    expenses are stored as amounts that are not positive, a report of the
    month of [t] that is returned shows a [profit_loss] above the true
    result of the month, gains minus expenses, as soon as the amount of [t]
    is not zero. *)
Theorem uncategorized_expense_excluded
    (db : DB) (l1 l2 : list Transaction) (t : Transaction) :
  t_type t = Depense ->
  t_category_id t = None ->
  let db_with := with_transactions (l1 ++ t :: l2) db in
  let db_without := with_transactions (l1 ++ l2) db in
  (forall org_id year_arg month_arg now,
     monthly_report org_id year_arg month_arg now db_with
     = monthly_report org_id year_arg month_arg now db_without) /\
  (forall org_id year_arg now,
     annual_report org_id year_arg now db_with
     = annual_report org_id year_arg now db_without) /\
  balance (t_organization_id t) db_with
  = PyFloat (cents_of (balance (t_organization_id t) db_without) + t_amount t) /\
  (forall year month now r,
     NoDup (c_id <$> transaction_categories db) ->
     (forall t', t' ∈ l1 ++ t :: l2 -> t_type t' = Depense -> t_amount t' <= 0) ->
     extract_year (t_date t) = year ->
     extract_month (t_date t) = month ->
     t_amount t < 0 ->
     monthly_report (t_organization_id t) (Some year) (Some month) now db_with
       = Ok r ->
     ledger_net (t_organization_id t)
       (fun d => extract_year d = year /\ extract_month d = month) db_with
     < cents_of (profit_loss r)).
Proof.
  intros Hexp Hnone db_with db_without.
  split; [|split; [|split]].
  - intros. by apply monthly_report_without.
  - intros. by apply annual_report_without.
  - rewrite !balance_sum. unfold with_transactions. simpl.
    rewrite !filter_app, filter_cons_True by done.
    rewrite !fmap_app, fmap_cons, !sum_Z_app, sum_Z_cons. f_equal. lia.
  - intros year month now r Hnd Hneg Hy Hm Hlt Hr.
    apply monthly_report_figures in Hr as (_ & _ & _ & ->). simpl.
    rewrite ledger_net_split.
    pose proof (joined_sum_gt (t_organization_id t)
                  (fun d => extract_year d = year /\ extract_month d = month)
                  db_with l1 l2 t Hnd Hneg Hnone) as Hgt.
    change (transactions db_with) with (l1 ++ t :: l2).
    specialize (Hgt (conj eq_refl (conj Hexp (conj Hy Hm))) Hlt). lia.
Qed.

(** * Instances

    Each property above that has hypotheses, at a database on which they
    hold. *)




(** On 2024-03-30 the enrollment of student 7 expires in one day. *)
Lemma check_expirations_idempotent_witness :
  exists db1 notified1,
    check_expirations 1 (mkDateTime 738975 0)
      (fun _ => mkDateTime 738975 10) db_active = Ok (db1, notified1) /\
    check_expirations 1 (mkDateTime 738975 5000)
      (fun _ => mkDateTime 738975 6000) db1 = Ok (db1, []).
Proof.
  apply (check_expirations_idempotent 1 (mkDateTime 738975 0)
           (mkDateTime 738975 5000) (fun _ => mkDateTime 738975 10)
           (fun _ => mkDateTime 738975 6000) db_active).
  - reflexivity.
  - intros k. simpl. lia.
Defined.

Lemma check_expirations_notifies_exactly_witness :
  NoDup (e_id <$> enrollments db_active) /\
  let due e :=
    e_organization_id e = 1 /\
    e_status e = Actif /\
    (exists d, e_end_date e = Some d /\
               (d - 738975 = 0 \/ d - 738975 = 1 \/ d - 738975 = 3 \/
                d - 738975 = 7)) /\
    (forall ts, e_notified_at e = Some ts -> dt_date ts < 738975) in
  exists db' notified,
    check_expirations 1 (mkDateTime 738975 0)
      (fun _ => mkDateTime 738975 10) db_active
    = Ok (db', notified) /\
    NoDup notified /\
    (forall id, id ∈ notified <->
                exists e, e ∈ enrollments db_active /\ e_id e = id /\ due e) /\
    length (enrollments db') = length (enrollments db_active) /\
    (forall (i : nat) e, enrollments db_active !! i = Some e ->
       exists e', enrollments db' !! i = Some e' /\
         (due e ->
          exists k : nat,
            e' = mkEnrollment (e_id e) (e_student_id e) (e_organization_id e)
                   (e_start_date e) (e_end_date e) (e_amount e) (e_status e)
                   (Some (mkDateTime 738975 10)) (e_terminated_at e)) /\
         (~ due e -> e' = e)).
Proof.
  assert (NoDup (e_id <$> enrollments db_active)) as H1
    by (by apply (bool_decide_unpack _)).
  exact (conj H1
           (check_expirations_notifies_exactly 1 (mkDateTime 738975 0)
              (fun _ => mkDateTime 738975 10) db_active H1)).
Defined.

Lemma terminate_enrollment_terminal_witness :
  exists db1 db2,
    terminate_enrollment 1 1 (mkDateTime 738950 0) db_active = Ok db1 /\
    terminated (mkDateTime 738950 0)
      (mkEnrollment 1 7 1 738946 (Some 738976) 20000 Actif None None)
      ∈ enrollments db1 /\
    (forall r, r ∈ enrollments db1 -> e_id r = 1 ->
               e_status r = Resilie /\
               e_terminated_at r = Some (mkDateTime 738950 0)) /\
    terminate_enrollment 1 1 (mkDateTime 738951 0) db1 = Ok db2 /\
    (forall r, r ∈ enrollments db2 -> e_id r = 1 ->
               e_status r = Resilie /\
               e_terminated_at r = Some (mkDateTime 738951 0)).
Proof.
  apply (terminate_enrollment_terminal 1 1 (mkDateTime 738950 0)
           (mkDateTime 738951 0) db_active
           (mkEnrollment 1 7 1 738946 (Some 738976) 20000 Actif None None)).
  - by left.
  - reflexivity.
  - reflexivity.
Defined.

Lemma terminated_enrollment_payment_and_renewal_witness :
  NoDup (e_id <$> enrollments db_active) /\
  enrollments db_active !! 2%nat = Some enrollment_terminated /\
  e_status enrollment_terminated = Resilie /\
  (forall org_id data now db',
     record_payment org_id data now db_active = Ok db' ->
     enrollments db' !! 2%nat = Some enrollment_terminated) /\
  (forall org_id data now db' new_id,
     renew_enrollment org_id (e_id enrollment_terminated) data now db_active
       = Ok (db', new_id) ->
     exists new,
       enrollments db' !! 2%nat = Some (set_status Renouvele enrollment_terminated) /\
       e_end_date (set_status Renouvele enrollment_terminated)
         = e_end_date enrollment_terminated /\
       e_terminated_at (set_status Renouvele enrollment_terminated)
         = e_terminated_at enrollment_terminated /\
       e_status (set_status Renouvele enrollment_terminated) = Renouvele /\
       enrollments db' !! length (enrollments db_active) = Some new /\
       e_student_id new = e_student_id enrollment_terminated /\
       e_status new = Actif).
Proof.
  assert (NoDup (e_id <$> enrollments db_active)) as H1
    by (by apply (bool_decide_unpack _)).
  exact (conj H1 (conj eq_refl (conj eq_refl
           (terminated_enrollment_payment_and_renewal db_active 2
              enrollment_terminated H1 eq_refl eq_refl)))).
Defined.

(** The renewal of the terminated enrollment of [db_active] does succeed. *)
Example renew_terminated_db_active :
  renew_enrollment 1 3 (mkRenewData (Some 14) None) (mkDateTime 738950 0)
    db_active
  = Ok (mkDB [mkStudent 7 1; mkStudent 8 1]
          [mkEnrollment 1 7 1 738946 (Some 738976) 20000 Actif None None;
           mkEnrollment 2 8 1 738946 None 18000 Actif
             (Some (mkDateTime 738946 0)) None;
           mkEnrollment 3 8 1 738900 (Some 738930) 18000 Renouvele None
             (Some (mkDateTime 738931 0));
           mkEnrollment 4 8 1 738931 (Some 738945) 18000 Actif None None]
          [] [] 5 1,
        4).
Proof. reflexivity. Qed.

(** The report of the month shows a profit of 500.00 and no expense; the
    true result of the month and the balance are 380.00. *)
Example monthly_report_uncategorized :
  monthly_report 1 (Some 2024) (Some 3) (mkDateTime 738960 0) db_uncategorized
    = Ok (mkReport (PyFloat 50000) ∅ (PyFloat 0) (PyFloat 50000) 0) /\
  ledger_net 1 (fun d => extract_year d = 2024 /\ extract_month d = 3)
    db_uncategorized = 38000 /\
  balance 1 db_uncategorized = PyFloat 38000.
Proof. repeat split; reflexivity. Qed.

(** Deleting the category of the expense of [db_march] leaves the expense
    in the ledger without category: the report of March then shows a
    profit of 500.00 while the balance stays 380.00. *)
Example delete_category_uncategorizes :
  exists db',
    delete_category 1 1 db_march = Ok db' /\
    t_category_id <$> transactions db' = [None; None] /\
    monthly_report 1 (Some 2024) (Some 3) (mkDateTime 738960 0) db'
      = Ok (mkReport (PyFloat 50000) ∅ (PyFloat 0) (PyFloat 50000) 0) /\
    balance 1 db' = PyFloat 38000 /\
    balance 1 db_march = PyFloat 38000.
Proof. eexists. repeat split; reflexivity. Qed.

Lemma uncategorized_expense_excluded_witness :
  t_type expense_uncategorized = Depense /\
  t_category_id expense_uncategorized = None /\
  let db_with :=
    with_transactions ([gain_march] ++ expense_uncategorized :: [])
      db_uncategorized in
  let db_without := with_transactions ([gain_march] ++ []) db_uncategorized in
  (forall org_id year_arg month_arg now,
     monthly_report org_id year_arg month_arg now db_with
     = monthly_report org_id year_arg month_arg now db_without) /\
  (forall org_id year_arg now,
     annual_report org_id year_arg now db_with
     = annual_report org_id year_arg now db_without) /\
  balance (t_organization_id expense_uncategorized) db_with
  = PyFloat (cents_of (balance (t_organization_id expense_uncategorized)
                         db_without)
             + t_amount expense_uncategorized) /\
  (forall year month now r,
     NoDup (c_id <$> transaction_categories db_uncategorized) ->
     (forall t', t' ∈ [gain_march] ++ expense_uncategorized :: [] ->
                 t_type t' = Depense -> t_amount t' <= 0) ->
     extract_year (t_date expense_uncategorized) = year ->
     extract_month (t_date expense_uncategorized) = month ->
     t_amount expense_uncategorized < 0 ->
     monthly_report (t_organization_id expense_uncategorized)
       (Some year) (Some month) now db_with = Ok r ->
     ledger_net (t_organization_id expense_uncategorized)
       (fun d => extract_year d = year /\ extract_month d = month) db_with
     < cents_of (profit_loss r)).
Proof.
  exact (conj eq_refl (conj eq_refl
           (uncategorized_expense_excluded db_uncategorized [gain_march] []
              expense_uncategorized eq_refl eq_refl))).
Defined.

(** * Further properties of the handlers *)

(** ** The ledger under payments and expenses *)

(** What a committed payment leaves in the tables other than the
    enrollments. *)
Lemma record_payment_ledger (org_id : Z) (data : PaymentData) (now : DateTime)
    (db db' : DB) :
  record_payment org_id data now db = Ok db' ->
  students db' = students db /\
  transaction_categories db' = transaction_categories db /\
  transactions db' =
    transactions db ++
    [mkTransaction (transactions_id_seq db) org_id (Some (pd_student_id data))
       (default (dt_date now) (pd_date data)) Gain (pd_amount data)
       (pd_payment_method data) (pd_reference data) None (pd_comment data)].
Proof.
  unfold record_payment. intros (db1 & Hadd & Hrest)%bind_Ok.
  apply add_transaction_inv in Hadd. subst db1.
  destruct (current_enroll _ _) as [cur|].
  - apply bind_Ok in Hrest as (end_date & _ & [= <-]). done.
  - apply bind_Ok in Hrest as (end_date & _ & Hrow).
    apply add_enrollment_row_inv in Hrow. subst db'. done.
Qed.

Lemma balance_append (org_id : Z) (db db' : DB) (t : Transaction) :
  transactions db' = transactions db ++ [t] ->
  balance org_id db' =
    PyFloat (cents_of (balance org_id db)
             + (if decide (t_organization_id t = org_id) then t_amount t else 0)).
Proof.
  intros Htx. rewrite !balance_sum, Htx, filter_app, fmap_app, sum_Z_app.
  rewrite filter_cons, filter_nil. simpl.
  case_decide; simpl; f_equal; lia.
Qed.

(** X1. A committed payment raises the balance of the organization of the
    caller by the paid amount and leaves the balance of every other
    organization as it was. *)
Theorem record_payment_balance (org_id : Z) (data : PaymentData)
    (now : DateTime) (db db' : DB) (org' : Z) :
  record_payment org_id data now db = Ok db' ->
  balance org' db' =
    PyFloat (cents_of (balance org' db)
             + (if decide (org_id = org') then pd_amount data else 0)).
Proof.
  intros (_ & _ & Htx)%record_payment_ledger.
  by rewrite (balance_append org' db db' _ Htx).
Qed.

(** X2. A committed expense lowers the balance of the organization of the
    caller by the absolute value of the input amount, whatever its sign,
    and leaves the balance of every other organization as it was. *)
Theorem record_expense_balance (org_id : Z) (data : ExpenseData)
    (now : DateTime) (db db' : DB) (org' : Z) :
  record_expense org_id data now db = Ok db' ->
  balance org' db' =
    PyFloat (cents_of (balance org' db)
             - (if decide (org_id = org') then Z.abs (xd_amount data) else 0)).
Proof.
  intros Hrun. apply add_transaction_inv in Hrun.
  assert (transactions db' = transactions db ++
            [mkTransaction (transactions_id_seq db) org_id None
               (default (dt_date now) (xd_date data)) Depense
               (- Z.abs (xd_amount data)) (xd_payment_method data)
               (xd_reference data) (xd_category_id data) (xd_comment data)])
    as Htx by by subst db'.
  rewrite (balance_append org' db db' _ Htx). simpl.
  case_decide; f_equal; lia.
Qed.

(** ** Payments in a row *)





(** ** Renewal, termination and creation of enrollments *)

Lemma enrollments_by_id_first (org_id id : Z) (db : DB) (e : Enrollment) :
  NoDup (e_id <$> enrollments db) ->
  e ∈ enrollments db -> e_id e = id -> e_organization_id e = org_id ->
  first_or_404 (enrollments_by_id id org_id db) = Ok e.
Proof.
  intros Hnd Hin Hid Horg.
  destruct (first_or_404_filter
              (fun e => e_id e = id /\ e_organization_id e = org_id)
              (enrollments db) e Hin) as [e0 Hfound]; [done|].
  unfold enrollments_by_id. rewrite Hfound. f_equal.
  apply first_or_404_filter_inv in Hfound as [[Hid0 _] Hin0].
  apply (NoDup_fmap_eq e_id (enrollments db)); congruence.
Qed.

Lemma enrollments_by_id_none (org_id id : Z) (db : DB) :
  (forall e, e ∈ enrollments db -> e_id e = id -> e_organization_id e <> org_id) ->
  first_or_404 (enrollments_by_id id org_id db) = Err NotFound.
Proof.
  intros Hnone. unfold enrollments_by_id.
  destruct (filter _ (enrollments db)) as [|e0 rows] eqn:Hf; [done|].
  assert (e0 ∈ filter (fun e => e_id e = id /\ e_organization_id e = org_id)
                  (enrollments db)) as Hin by (rewrite Hf; by left).
  apply list_elem_of_filter in Hin as [[Hid Horg] Hin].
  by destruct (Hnone e0 Hin Hid).
Qed.

(** X5. A valid renewal of an enrollment of the caller's organization
    sets its status to renewed and appends one active enrollment of the
    same student and organization, which starts the day after the end
    date of the old one, or today when the old one has no end date, lasts
    [duration_days] and carries the given amount or else the old one; the
    key of the new row is returned. *)
Theorem renew_enrollment_creates_successor
    (org_id id : Z) (data : RenewData) (now : DateTime) (db : DB)
    (e : Enrollment) :
  let duration_days := default 30 (rd_duration_days data) in
  let new_start :=
    match e_end_date e with
    | Some d => d + 1
    | None => dt_date now
    end in
  let amount := default (e_amount e) (rd_amount data) in
  NoDup (e_id <$> enrollments db) ->
  e ∈ enrollments db -> e_id e = id -> e_organization_id e = org_id ->
  student_exists (e_student_id e) db ->
  fits_numeric_10_2 amount ->
  (forall d, e_end_date e = Some d -> valid_date d) ->
  valid_date new_start ->
  valid_date (new_start + duration_days) ->
  renew_enrollment org_id id data now db =
    Ok (mkDB (students db)
          (update_rows id (set_status Renouvele) (enrollments db) ++
           [mkEnrollment (enrollments_id_seq db) (e_student_id e) org_id
              new_start (Some (new_start + duration_days)) amount Actif
              None None])
          (transaction_categories db) (transactions db)
          (enrollments_id_seq db + 1) (transactions_id_seq db),
        enrollments_id_seq db).
Proof.
  intros duration_days new_start amount Hnd Hin Hid Horg Hstudent Hfits
    Hend Hstart Hnew.
  unfold renew_enrollment.
  rewrite (enrollments_by_id_first org_id id db e) by done. simpl.
  assert ((match e_end_date e with
           | Some d => date_plus_days d 1
           | None => Ok (dt_date now)
           end) = Ok new_start) as ->.
  { unfold new_start in *. destruct (e_end_date e) as [d|]; [|done].
    apply date_plus_days_Ok; [by apply Hend|done]. }
  simpl. fold duration_days. rewrite date_plus_days_Ok by done. simpl.
  unfold add_enrollment_row. simpl. fold amount.
  rewrite !guard_true by done. simpl. by rewrite Hid.
Qed.

(** X6. [renew_enrollment] is scoped to the organization of the caller:
    the call is refused with [NotFound] when no enrollment of this key
    belongs to it, and a call that commits leaves every enrollment of
    another organization as it was and appends an enrollment of the
    caller's organization. The keys of the table are distinct. *)
Theorem renew_enrollment_scoped
    (org_id id : Z) (data : RenewData) (now : DateTime) (db : DB) :
  NoDup (e_id <$> enrollments db) ->
  ((forall e, e ∈ enrollments db -> e_id e = id -> e_organization_id e <> org_id) ->
   renew_enrollment org_id id data now db = Err NotFound) /\
  (forall db' new_id,
     renew_enrollment org_id id data now db = Ok (db', new_id) ->
     (forall (i : nat) e, enrollments db !! i = Some e ->
        e_organization_id e <> org_id -> enrollments db' !! i = Some e) /\
     exists new,
       enrollments db' !! length (enrollments db) = Some new /\
       e_organization_id new = org_id /\
       length (enrollments db') = S (length (enrollments db))).
Proof.
  intros Hnd. split.
  - intros Hnone. unfold renew_enrollment.
    by rewrite enrollments_by_id_none.
  - intros db' new_id Hrun.
    apply renew_enrollment_inv in Hrun
      as (enroll & new_start & Hin & Hid & Horg & _ & ->).
    split.
    + intros i e Hi Hother.
      rewrite lookup_app_l
        by (rewrite update_rows_length; by eapply lookup_lt_Some).
      rewrite update_rows_lookup, Hi. simpl.
      rewrite decide_False; [done|]. intros Heid. apply Hother.
      assert (e = enroll) as ->; [|done].
      apply (NoDup_fmap_eq e_id (enrollments db)); try congruence.
      by eapply list_elem_of_lookup_2.
    + eexists. split; [|split].
      * rewrite lookup_app_r by by rewrite update_rows_length.
        rewrite update_rows_length, Nat.sub_diag. reflexivity.
      * reflexivity.
      * rewrite length_app, update_rows_length. simpl. lia.
Qed.

(** X7. [terminate_enrollment] is scoped to the organization of the
    caller: the call is refused with [NotFound] when no enrollment of this
    key belongs to it, and a call that commits changes the row of this key
    only, without adding or removing a row. The keys of the table are
    distinct. *)
Theorem terminate_enrollment_scoped
    (org_id id : Z) (now : DateTime) (db : DB) :
  NoDup (e_id <$> enrollments db) ->
  ((forall e, e ∈ enrollments db -> e_id e = id -> e_organization_id e <> org_id) ->
   terminate_enrollment org_id id now db = Err NotFound) /\
  (forall db',
     terminate_enrollment org_id id now db = Ok db' ->
     students db' = students db /\
     transactions db' = transactions db /\
     length (enrollments db') = length (enrollments db) /\
     forall (i : nat) e, enrollments db !! i = Some e ->
       enrollments db' !! i =
         Some (if decide (e_id e = id /\ e_organization_id e = org_id)
               then terminated now e else e)).
Proof.
  intros Hnd. split.
  - intros Hnone. unfold terminate_enrollment.
    by rewrite enrollments_by_id_none.
  - intros db'. unfold terminate_enrollment.
    intros (enroll & Hfound & [= <-])%bind_Ok.
    apply first_or_404_filter_inv in Hfound as [[Hid Horg] Hin].
    simpl. repeat split; try done.
    + apply update_rows_length.
    + intros i e Hi. rewrite update_rows_lookup, Hi. simpl. f_equal.
      rewrite Hid.
      destruct (decide (e_id e = id)) as [Heid|Heid].
      * assert (e = enroll) as ->.
        { apply (NoDup_fmap_eq e_id (enrollments db)); try congruence.
          by eapply list_elem_of_lookup_2. }
        by rewrite decide_True.
      * rewrite decide_False; [done|]. tauto.
Qed.

(** X8. [add_enrollment] creates an enrollment for a student of the
    caller's organization only: it is refused with [NotFound] when the
    student is not one of its students, and otherwise, the amount fitting
    its column, it appends one enrollment with the given dates and amount,
    active unless another status is given, and returns its key. *)
Theorem add_enrollment_scoped_creation
    (org_id : Z) (data : EnrollmentData) (db : DB) :
  ((forall s, s ∈ students db -> s_id s = ed_student_id data ->
              s_organization_id s <> org_id) ->
   add_enrollment org_id data db = Err NotFound) /\
  (forall s, s ∈ students db -> s_id s = ed_student_id data ->
             s_organization_id s = org_id ->
             fits_numeric_10_2 (ed_amount data) ->
   add_enrollment org_id data db =
     Ok (mkDB (students db)
           (enrollments db ++
            [mkEnrollment (enrollments_id_seq db) (ed_student_id data) org_id
               (ed_start_date data) (ed_end_date data) (ed_amount data)
               (default Actif (ed_status data)) None None])
           (transaction_categories db) (transactions db)
           (enrollments_id_seq db + 1) (transactions_id_seq db),
         enrollments_id_seq db)).
Proof.
  split.
  - intros Hnone. unfold add_enrollment.
    destruct (filter _ (students db)) as [|s0 rows] eqn:Hf; [done|].
    assert (s0 ∈ filter (fun s => s_id s = ed_student_id data /\
                                  s_organization_id s = org_id) (students db))
      as Hin by (rewrite Hf; by left).
    apply list_elem_of_filter in Hin as [[Hid Horg] Hin].
    by destruct (Hnone s0 Hin Hid).
  - intros s Hin Hid Horg Hfits. unfold add_enrollment.
    destruct (first_or_404_filter
                (fun s => s_id s = ed_student_id data /\
                          s_organization_id s = org_id)
                (students db) s Hin) as [s0 ->]; [done|].
    simpl. unfold add_enrollment_row. simpl.
    rewrite !guard_true; [done|done|].
    unfold student_exists. apply Exists_exists. by exists s.
Qed.

(** ** What the notifier leaves alone *)

(** X9. A run of [check_expirations] always returns; it adds and removes
    no row, changes no table but the enrollments and, in an enrollment,
    nothing but [notified_at]: no status, in particular, is ever set to
    expired. With distinct keys, the enrollments of the other
    organizations are left as they were. *)
Theorem check_expirations_only_stamps
    (org_id : Z) (now : DateTime) (stamps : nat -> DateTime) (db : DB) :
  exists db' notified,
    check_expirations org_id now stamps db = Ok (db', notified) /\
    students db' = students db /\
    transaction_categories db' = transaction_categories db /\
    transactions db' = transactions db /\
    length (enrollments db') = length (enrollments db) /\
    forall (i : nat) e, enrollments db !! i = Some e ->
      exists e',
        enrollments db' !! i = Some e' /\
        e' = set_notified_at (e_notified_at e') e /\
        (NoDup (e_id <$> enrollments db) ->
         e_organization_id e <> org_id -> e' = e).
Proof.
  destruct (check_expirations_spec org_id now stamps db)
    as (db' & Hrun & Hst & Hs & Hc & Ht & _).
  exists db', (e_id <$> filter (notifiable org_id (dt_date now)) (enrollments db)).
  repeat split; try done.
  { symmetry. by eapply Forall2_length. }
  intros i e Hi.
  destruct (Forall2_lookup_l _ _ _ _ _ Hst Hi) as (e' & Hi' & Hrel).
  exists e'. split; [done|]. split.
  - case_decide; [destruct Hrel as [k ->]|subst e']; by destruct e.
  - intros Hnd Hother. rewrite decide_False in Hrel; [done|].
    intros (e2 & Hid & [Hn2 Hin2]%list_elem_of_filter)%list_elem_of_fmap.
    apply Hother.
    assert (e = e2) as ->.
    { apply (NoDup_fmap_eq e_id (enrollments db)); try done.
      by eapply list_elem_of_lookup_2. }
    by destruct Hn2.
Qed.

(** ** Deletion of a category *)

Lemma clear_category_sum (org_id cid : Z) (txs : list Transaction) :
  sum_Z (t_amount <$>
           filter (fun t => t_organization_id t = org_id)
             (clear_category cid <$> txs))
  = sum_Z (t_amount <$> filter (fun t => t_organization_id t = org_id) txs).
Proof.
  induction txs as [|t txs IH]; [done|].
  rewrite fmap_cons, !filter_cons.
  assert (t_organization_id (clear_category cid t) = t_organization_id t /\
          t_amount (clear_category cid t) = t_amount t) as [Horg Hamt]
    by (unfold clear_category; by case_decide).
  rewrite Horg. case_decide; rewrite ?fmap_cons, ?sum_Z_cons, ?Hamt, IH; done.
Qed.

(** X10. [delete_category] refuses with [NotFound] a key that is not
    one of a category of the caller's organization, and with [Forbidden]
    a system category: it never deletes one. The keys of the table are
    distinct. *)
Theorem delete_category_guards (org_id id : Z) (db : DB) :
  ((forall c, c ∈ transaction_categories db -> c_id c = id ->
              c_organization_id c <> org_id) ->
   delete_category org_id id db = Err NotFound) /\
  (forall c, NoDup (c_id <$> transaction_categories db) ->
             c ∈ transaction_categories db -> c_id c = id ->
             c_organization_id c = org_id -> c_is_system c = true ->
   delete_category org_id id db = Err Forbidden).
Proof.
  split.
  - intros Hnone. unfold delete_category.
    destruct (filter _ (transaction_categories db)) as [|c0 rows] eqn:Hf; [done|].
    assert (c0 ∈ filter (fun c => c_id c = id /\ c_organization_id c = org_id)
                    (transaction_categories db)) as Hin
      by (rewrite Hf; by left).
    apply list_elem_of_filter in Hin as [[Hid Horg] Hin].
    by destruct (Hnone c0 Hin Hid).
  - intros c Hnd Hin Hid Horg Hsys. unfold delete_category.
    destruct (first_or_404_filter
                (fun c => c_id c = id /\ c_organization_id c = org_id)
                (transaction_categories db) c Hin) as [c0 Hfound]; [done|].
    rewrite Hfound. simpl.
    apply first_or_404_filter_inv in Hfound as [[Hid0 _] Hin0].
    assert (c0 = c) as ->
      by (apply (NoDup_fmap_eq c_id (transaction_categories db)); congruence).
    by rewrite Hsys.
Qed.

(** X11. A deletion of a category that commits removes the category and
    no transaction: the transactions that referred to it stay in the
    ledger with a null category, every other transaction is as it was, so
    that no transaction refers to the deleted key any more and the balance
    of every organization is what it was. *)
Theorem delete_category_keeps_ledger (org_id id : Z) (db db' : DB) :
  delete_category org_id id db = Ok db' ->
  ~ category_exists id db' /\
  (forall c, c ∈ transaction_categories db' <->
             c ∈ transaction_categories db /\ c_id c <> id) /\
  transactions db' = clear_category id <$> transactions db /\
  (forall t, t ∈ transactions db' -> t_category_id t <> Some id) /\
  enrollments db' = enrollments db /\
  (forall org', balance org' db' = balance org' db).
Proof.
  unfold delete_category. intros (cat & Hfound & Hrest)%bind_Ok.
  apply first_or_404_filter_inv in Hfound as [[Hid _] _].
  destruct (c_is_system cat); [done|]. injection Hrest as <-.
  rewrite Hid. simpl. split; [|split; [|split; [|split; [|split]]]].
  - unfold category_exists. simpl. rewrite Exists_exists.
    intros (c & [Hne _]%list_elem_of_filter & Hc). done.
  - intros c. rewrite list_elem_of_filter. tauto.
  - done.
  - intros t (t0 & -> & _)%list_elem_of_fmap.
    unfold clear_category. by case_decide.
  - done.
  - intros org'. rewrite !balance_sum. simpl. by rewrite clear_category_sum.
Qed.

(** ** Reports: the months they exist for, and their occupancy *)

Lemma mk_date_inv (year month day d : Z) :
  mk_date year month day = Ok d ->
  MINYEAR <= year <= MAXYEAR /\ 1 <= month <= 12 /\ d = ymd2ord year month day.
Proof.
  unfold mk_date, guard. repeat (case_decide; simpl; try discriminate).
  by intros [= <-].
Qed.

Lemma month_occupancy_inv (org_id year m : Z) (db : DB) (n : Z) :
  month_occupancy org_id year m db = Ok n ->
  1 <= year <= 9999 /\ 1 <= m <= 12 /\ ~ (year = 9999 /\ m = 12) /\
  n = active_students org_id (ymd2ord year m 1) (ymd2ord year m 1 + 31) db.
Proof.
  unfold month_occupancy.
  intros (first & Hfirst & Hrest)%bind_Ok.
  apply mk_date_inv in Hfirst as (Hy & Hm & ->).
  apply bind_Ok in Hrest as (upper & Hupper & [= <-]).
  apply date_plus_days_inv in Hupper as [-> Hvalid].
  unfold MINYEAR, MAXYEAR in Hy. repeat split; try done; try lia.
  intros [-> ->]. vm_compute in Hvalid. by destruct Hvalid as [_ []].
Qed.

Lemma size_list_to_set_le (l : list Z) :
  (size (list_to_set (C := gset Z) l) <= length l)%nat.
Proof.
  induction l as [|x l IH]; [done|].
  rewrite list_to_set_cons. simpl.
  destruct (decide (x ∈ (list_to_set l : gset Z))) as [Hin|Hout].
  - rewrite subseteq_union_1_L by by apply singleton_subseteq_l.
    lia.
  - rewrite size_union by by apply disjoint_singleton_l.
    rewrite size_singleton. lia.
Qed.

(** X12. [monthly_report] returns a report only for a month of the
    calendar, from year 1 to year 9999 and other than December 9999, for
    which the window of 31 days leaves the range of dates; the average
    that it then reports is the number of distinct students counted over
    the window that starts on the first day of the month. *)
Theorem monthly_report_months
    (org_id : Z) (year_arg month_arg : option Z) (now : DateTime) (db : DB)
    (r : Report Z) :
  let year := default (extract_year (dt_date now)) year_arg in
  let month := default (extract_month (dt_date now)) month_arg in
  monthly_report org_id year_arg month_arg now db = Ok r ->
  1 <= year <= 9999 /\ 1 <= month <= 12 /\ ~ (year = 9999 /\ month = 12) /\
  avg_active_students r =
    active_students org_id (ymd2ord year month 1) (ymd2ord year month 1 + 31) db /\
  0 <= avg_active_students r <= Z.of_nat (length (enrollments db)).
Proof.
  intros year month. unfold monthly_report. fold year month.
  intros (total & _ & Hrest)%bind_Ok.
  apply bind_Ok in Hrest as (p & _ & Hrest).
  apply bind_Ok in Hrest as (avg & Hocc & [= <-]).
  apply month_occupancy_inv in Hocc as (Hy & Hm & Hdec & ->).
  simpl. split; [done|]. split; [done|]. split; [done|]. split; [done|].
  unfold active_students. split; [lia|]. apply inj_le.
  etransitivity; [apply size_list_to_set_le|].
  rewrite length_fmap. apply length_filter.
Qed.

Lemma monthly_avgs_lookup (org_id year : Z) (db : DB) (months : list Z) :
  forall avgs,
    monthly_avgs org_id year months db = Ok avgs ->
    length avgs = length months /\
    forall (i : nat) m, months !! i = Some m ->
      exists n, avgs !! i = Some n /\ month_occupancy org_id year m db = Ok n.
Proof.
  induction months as [|m0 months IH]; intros avgs.
  - intros [= <-]. split; [done|]. intros i m Hi. done.
  - simpl. intros (n0 & Hn0 & Hrest)%bind_Ok.
    apply bind_Ok in Hrest as (avgs0 & Havgs0 & [= <-]).
    destruct (IH avgs0 Havgs0) as [Hlen Hlookup].
    split; [simpl; by rewrite Hlen|].
    intros [|i] m Hi; simpl in *.
    + injection Hi as <-. by exists n0.
    + by apply Hlookup.
Qed.

(** X13. [annual_report] returns a report only for a year from 1 to 9998
    (the window of December 9999 leaves the range of dates); its average
    is then the sum of twelve numbers divided by twelve, and the number of
    each month is the average that a [monthly_report] of this month and
    year reports whenever it returns. *)
Theorem annual_report_average
    (org_id : Z) (year_arg : option Z) (now : DateTime) (db : DB)
    (r : Report Q) :
  let year := default (extract_year (dt_date now)) year_arg in
  annual_report org_id year_arg now db = Ok r ->
  1 <= year <= 9998 /\
  exists avgs,
    length avgs = 12%nat /\
    avg_active_students r = (inject_Z (sum_Z avgs) / 12)%Q /\
    forall (i : nat) n now' rm,
      avgs !! i = Some n ->
      monthly_report org_id (Some year) (Some (1 + Z.of_nat i)) now' db = Ok rm ->
      avg_active_students rm = n.
Proof.
  intros year. unfold annual_report. fold year.
  intros (total & _ & Hrest)%bind_Ok.
  apply bind_Ok in Hrest as (p & _ & Hrest).
  apply bind_Ok in Hrest as (avgs & Havgs & [= <-]).
  apply monthly_avgs_lookup in Havgs as [Hlen Hlookup].
  rewrite length_seqZ in Hlen. simpl in Hlen.
  split.
  - destruct (Hlookup 11%nat 12) as (n & _ & Hocc); [done|].
    apply month_occupancy_inv in Hocc as (Hy & _ & Hdec & _). lia.
  - exists avgs. split; [done|]. split.
    + simpl. destruct avgs; [done|reflexivity].
    + intros i n now' rm Hi Hrm.
      assert (i < 12)%nat as Hlt.
      { pose proof (lookup_lt_Some _ _ _ Hi) as Hlt. rewrite Hlen in Hlt.
        exact Hlt. }
      destruct (Hlookup i (1 + Z.of_nat i)) as (n' & Hn' & Hocc).
      { apply lookup_seqZ. split; [done|lia]. }
      rewrite Hi in Hn'. injection Hn' as <-.
      unfold monthly_report in Hrm. simpl in Hrm.
      apply bind_Ok in Hrm as (total' & _ & Hrm).
      apply bind_Ok in Hrm as (p' & _ & Hrm).
      apply bind_Ok in Hrm as (avg & Hocc' & [= <-]).
      simpl. congruence.
Qed.

(** ** Dashboard and listing *)

Lemma length_filter_impl {A} (P Q : A -> Prop) `{forall x, Decision (P x)}
    `{forall x, Decision (Q x)} (l : list A) :
  (forall x, P x -> Q x) ->
  (length (filter P l) <= length (filter Q l))%nat.
Proof.
  intros Himpl. induction l as [|x l IH]; [done|].
  rewrite !filter_cons.
  destruct (decide (P x)) as [HP|HP].
  - rewrite decide_True by by apply Himpl. simpl. lia.
  - case_decide; simpl; lia.
Qed.

(** X14. Every enrollment that a run of [check_expirations] notifies is
    counted among the upcoming payments of the dashboard of the same
    organization at the same time: the list that the run returns is no
    longer than the count. *)
Theorem notified_are_upcoming
    (org_id : Z) (now : DateTime) (stamps : nat -> DateTime) (db db' : DB)
    (notified : list Z) (n : Z) :
  check_expirations org_id now stamps db = Ok (db', notified) ->
  upcoming_payments org_id now db = Ok n ->
  Z.of_nat (length notified) <= n.
Proof.
  intros Hrun Hup.
  destruct (check_expirations_spec org_id now stamps db) as (db0 & Hspec & _).
  rewrite Hspec in Hrun. injection Hrun as _ <-.
  unfold upcoming_payments in Hup.
  apply bind_Ok in Hup as (limit & Hlimit & [= <-]).
  apply date_plus_days_inv in Hlimit as [-> _].
  rewrite length_fmap. apply inj_le, length_filter_impl.
  intros e (Horg & Hact & Hend & _). unfold upcoming_row.
  split; [done|]. split; [|done].
  destruct (e_end_date e) as [d|]; [|done].
  apply elem_of_thresholds in Hend. lia.
Qed.

Lemma expenses_by_cat_ext (org_id : Z) (W1 W2 : Date -> Prop)
    `{forall d, Decision (W1 d)} `{forall d, Decision (W2 d)} (db : DB) :
  (forall d, W1 d <-> W2 d) ->
  expenses_by_cat org_id W1 db = expenses_by_cat org_id W2 db.
Proof.
  intros Hiff. unfold expenses_by_cat. do 2 f_equal.
  apply list_filter_iff. intros r. rewrite (Hiff (t_date r.1)). tauto.
Qed.

(** X15. The expenses by category of the dashboard are those of the
    report of the current month: whenever [monthly_report], called without
    year nor month, returns a report, its mapping of expenses is the one
    of the dashboard. *)
Theorem dashboard_expenses_are_monthly
    (org_id : Z) (now : DateTime) (db : DB) (r : Report Z) :
  monthly_report org_id None None now db = Ok r ->
  expenses r = dashboard_monthly_expenses org_id now db.
Proof.
  intros Hr. apply monthly_report_figures in Hr as (_ & -> & _).
  unfold dashboard_monthly_expenses. simpl. f_equal.
  apply expenses_by_cat_ext. intros d. tauto.
Qed.

Lemma elem_of_filter_if {A B} (P : B -> A -> Prop)
    `{forall v x, Decision (P v x)} (o : option B) (q : list A) (x : A) :
  x ∈ match o with
      | Some v => filter (P v) q
      | None => q
      end <->
  x ∈ q /\ forall v, o = Some v -> P v x.
Proof.
  destruct o as [v|].
  - rewrite list_elem_of_filter. split.
    + intros [HP Hin]. split; [done|]. by intros v' [= <-].
    + intros [Hin HP]. split; [by apply HP|done].
  - split; [|by intros [? _]]. intros Hin. split; [done|]. by intros v [=].
Qed.

(** X16. [get_transactions] lists, in the order of the table, the
    transactions of the caller's organization that have the type and the
    student asked for, if any, and, when both bounds of the period are
    given, a date from the first to the last day of the period; a bound
    given without the other one filters nothing. *)
Theorem get_transactions_filters
    (org_id : Z) (args : TransactionsArgs) (db : DB) :
  get_transactions org_id args db `sublist_of` transactions db /\
  (forall t,
     t ∈ get_transactions org_id args db <->
     t ∈ transactions db /\
     t_organization_id t = org_id /\
     (forall ty, ta_type args = Some ty -> t_type t = ty) /\
     (forall sid, ta_student_id args = Some sid -> t_student_id t = Some sid) /\
     (forall s e, ta_start args = Some s -> ta_end args = Some e ->
                  s <= t_date t <= e)) /\
  (ta_start args = None \/ ta_end args = None ->
   get_transactions org_id args db =
   get_transactions org_id
     (mkTransactionsArgs None None (ta_type args) (ta_student_id args)) db).
Proof.
  unfold get_transactions.
  destruct args as [start end_ ty sid]. simpl. split; [|split].
  - destruct ty, sid, start, end_;
      repeat (etransitivity; [apply sublist_filter|]); done.
  - intros t.
    set (q1 := filter (fun t => t_organization_id t = org_id) (transactions db)).
    set (q2 := match ty with
               | Some trans_type => filter (fun t => t_type t = trans_type) q1
               | None => q1
               end).
    set (q3 := match sid with
               | Some student_id =>
                   filter (fun t => t_student_id t = Some student_id) q2
               | None => q2
               end).
    assert (t ∈ match start, end_ with
                | Some s, Some e => filter (fun t => s <= t_date t <= e) q3
                | _, _ => q3
                end <->
            (t ∈ q3 /\
             forall s e, start = Some s -> end_ = Some e -> s <= t_date t <= e))
      as ->.
    { destruct start as [s|], end_ as [e|]; rewrite ?list_elem_of_filter.
      - split.
        + intros [Hd Hin]. split; [done|]. by intros s' e' [= <-] [= <-].
        + intros [Hin Hd]. split; [by apply Hd|done].
      - split; [|by intros [? _]]. intros Hin. split; [done|]. by intros s' e' _ [=].
      - split; [|by intros [? _]]. intros Hin. split; [done|]. by intros s' e' [=].
      - split; [|by intros [? _]]. intros Hin. split; [done|]. by intros s' e' [=]. }
    unfold q3, q2, q1.
    rewrite (elem_of_filter_if (fun student_id t => t_student_id t = Some student_id)).
    rewrite (elem_of_filter_if (fun trans_type t => t_type t = trans_type)).
    rewrite list_elem_of_filter. tauto.
  - intros [->| ->]; [done|]. by destruct start.
Qed.

(** ** Expenses by category *)

Lemma label_total_cons (label : string) (r : string * Z) (rows : list (string * Z)) :
  label_total label (r :: rows) =
  (if decide (r.1 = label) then r.2 else 0) + label_total label rows.
Proof.
  unfold label_total. rewrite filter_cons.
  case_decide; rewrite ?fmap_cons, ?sum_Z_cons; lia.
Qed.

Lemma label_total_absent (label : string) (rows : list (string * Z)) :
  label ∉ rows.*1 -> label_total label rows = 0.
Proof.
  induction rows as [|r rows IH]; [done|].
  rewrite fmap_cons, not_elem_of_cons, label_total_cons. intros [Hne Hout].
  rewrite decide_False by done. rewrite IH by done. lia.
Qed.

Lemma add_to_group_total (label l : string) (amount : Z) (groups : list (string * Z)) :
  label_total l (add_to_group label amount groups) =
  label_total l groups + (if decide (label = l) then amount else 0).
Proof.
  induction groups as [|[l0 s0] groups IH]; cbn [add_to_group].
  - rewrite label_total_cons. unfold label_total. simpl. lia.
  - destruct (decide (l0 = label)) as [->|Hne]; rewrite !label_total_cons; simpl.
    + repeat case_decide; try lia; congruence.
    + rewrite IH. lia.
Qed.

Lemma add_to_group_keys (label l : string) (amount : Z) (groups : list (string * Z)) :
  l ∈ (add_to_group label amount groups).*1 <-> l = label \/ l ∈ groups.*1.
Proof.
  induction groups as [|[l0 s0] groups IH]; cbn [add_to_group].
  - rewrite list_fmap_singleton, list_elem_of_singleton, fmap_nil, elem_of_nil.
    simpl. tauto.
  - destruct (decide (l0 = label)) as [->|Hne];
      rewrite !fmap_cons, !elem_of_cons; simpl.
    + tauto.
    + rewrite IH. tauto.
Qed.

Lemma add_to_group_NoDup (label : string) (amount : Z) (groups : list (string * Z)) :
  NoDup groups.*1 -> NoDup (add_to_group label amount groups).*1.
Proof.
  induction groups as [|[l0 s0] groups IH]; cbn [add_to_group]; intros Hnd.
  - rewrite list_fmap_singleton. apply NoDup_singleton.
  - rewrite fmap_cons in Hnd. apply NoDup_cons in Hnd as [Hout Hnd].
    destruct (decide (l0 = label)) as [->|Hne];
      rewrite fmap_cons; apply NoDup_cons; simpl in *.
    + done.
    + split; [|by apply IH]. rewrite add_to_group_keys.
      intros [->|Hin]; done.
Qed.

(** Grouping gives one row per label of the rows, with the sum of the
    amounts of the rows of this label. *)
Lemma group_by_label_spec (rows : list (string * Z)) :
  NoDup (group_by_label rows).*1 /\
  forall l,
    (l ∈ (group_by_label rows).*1 <-> l ∈ rows.*1) /\
    label_total l (group_by_label rows) = label_total l rows.
Proof.
  unfold group_by_label.
  assert (forall groups,
            NoDup groups.*1 ->
            let res := fold_left (fun groups r => add_to_group r.1 r.2 groups)
                         rows groups in
            NoDup res.*1 /\
            forall l,
              (l ∈ res.*1 <-> l ∈ groups.*1 \/ l ∈ rows.*1) /\
              label_total l res = label_total l groups + label_total l rows)
    as Hgen.
  { induction rows as [|[l0 a0] rows IH]; intros groups Hnd;
      cbv zeta; cbn [fold_left fst snd].
    - split; [done|]. intros l. rewrite fmap_nil, elem_of_nil.
      change (label_total l []) with 0. split; [tauto|lia].
    - destruct (IH (add_to_group l0 a0 groups)) as [Hnd' Hl];
        [by apply add_to_group_NoDup|].
      split; [done|]. intros l. destruct (Hl l) as [Hkeys Htot].
      rewrite Hkeys, Htot, add_to_group_keys, add_to_group_total,
        fmap_cons, elem_of_cons, label_total_cons. simpl.
      split; [tauto|]. repeat case_decide; first [lia | congruence]. }
  destruct (Hgen [] (NoDup_nil_2)) as [Hnd Hl]. split; [done|].
  intros l. destruct (Hl l) as [Hkeys Htot]. simpl in *.
  rewrite Hkeys, Htot, elem_of_nil.
  change (label_total l []) with 0. split; [tauto|lia].
Qed.

Lemma expenses_dict_lookup (groups : list (string * Z)) (l : string) :
  NoDup groups.*1 ->
  expenses_dict groups !! l =
  if decide (l ∈ groups.*1) then Some (PyFloat (label_total l groups)) else None.
Proof.
  unfold expenses_dict.
  assert (forall (m : gmap string pynum),
            NoDup groups.*1 ->
            fold_left (fun d r => <[r.1 := py_float (PyDecimal r.2)]> d) groups m
              !! l =
            if decide (l ∈ groups.*1)
            then Some (PyFloat (label_total l groups)) else m !! l) as Hgen.
  { induction groups as [|[l0 a0] groups IH]; intros m Hnd; cbn [fold_left].
    - rewrite decide_False; [done|]. rewrite fmap_nil. apply not_elem_of_nil.
    - rewrite fmap_cons in Hnd. apply NoDup_cons in Hnd as [Hout Hnd].
      rewrite IH by done. rewrite fmap_cons, label_total_cons. simpl in *.
      destruct (decide (l0 = l)) as [->|Hne].
      + rewrite decide_False by done.
        rewrite decide_True by (apply elem_of_cons; by left).
        rewrite lookup_insert_eq, label_total_absent by done.
        unfold py_float. simpl. do 2 f_equal. lia.
      + destruct (decide (l ∈ groups.*1)) as [Hin|Hnin].
        * rewrite decide_True by (apply elem_of_cons; by right). done.
        * rewrite decide_False by (rewrite elem_of_cons; intros [?|?]; done).
          by rewrite lookup_insert_ne. }
  intros Hnd. by rewrite Hgen.
Qed.

(** X17. The mapping of expenses of a monthly report that is returned has
    one key per label of a category that an expense of the month of the
    organization refers to, and no other key (a category without expense
    in the month is absent, not zero); the value of a key is the sum of
    the amounts of these expenses. *)
Theorem monthly_report_expenses_by_label
    (org_id : Z) (year_arg month_arg : option Z) (now : DateTime) (db : DB)
    (r : Report Z) (label : string) :
  let year := default (extract_year (dt_date now)) year_arg in
  let month := default (extract_month (dt_date now)) month_arg in
  let rows :=
    expense_rows org_id
      (fun d => extract_year d = year /\ extract_month d = month) db in
  monthly_report org_id year_arg month_arg now db = Ok r ->
  expenses r !! label =
    if decide (label ∈ rows.*1)
    then Some (PyFloat (label_total label rows)) else None.
Proof.
  intros year month rows Hr.
  apply monthly_report_figures in Hr as (_ & -> & _).
  fold year month.
  change (expenses_by_cat org_id
            (fun d => extract_year d = year /\ extract_month d = month) db)
    with (group_by_label rows).
  destruct (group_by_label_spec rows) as [Hnd Hl].
  rewrite expenses_dict_lookup by done.
  destruct (Hl label) as [Hkeys ->].
  destruct (decide (label ∈ rows.*1)) as [Hin|Hnin].
  - by rewrite decide_True by by apply Hkeys.
  - by rewrite decide_False by by rewrite Hkeys.
Qed.

(** ** Categories *)

Lemma add_category_inv (org_id : Z) (data : CategoryData) (next_id : Z)
    (db db' : DB) (id : Z) :
  add_category org_id data next_id db = Ok (db', id) ->
  let cat :=
    mkTransactionCategory next_id org_id (cd_label data)
      (default false (cd_is_system data)) in
  id = next_id /\
  category_row_ok cat (transaction_categories db) /\
  db' = mkDB (students db) (enrollments db) (transaction_categories db ++ [cat])
          (transactions db) (enrollments_id_seq db) (transactions_id_seq db).
Proof.
  unfold add_category, guard.
  repeat (case_decide; simpl; try discriminate). by intros [= <- <-].
Qed.

(** The number of characters of a string of ASCII letters is its number of
    bytes; an accented letter, of two bytes, is one character. *)
Lemma char_length_le (s : string) : (char_length s <= String.length s)%nat.
Proof.
  induction s as [|a s IH]; simpl; [lia|].
  destruct (is_continuation a); lia.
Qed.

Example char_length_creche :
  char_length "Crèche" = 6%nat /\ String.length "Crèche" = 7%nat.
Proof. by split. Qed.

(** X18. The three handlers that write the table of categories keep its
    keys distinct and, in each organization, its labels distinct: a
    creation or a change of label that would give an organization two
    categories of one label is refused. *)
Theorem categories_unique_kept (db : DB) :
  categories_unique (transaction_categories db) ->
  (forall org_id data next_id db' id,
     add_category org_id data next_id db = Ok (db', id) ->
     categories_unique (transaction_categories db')) /\
  (forall org_id id label db',
     update_category org_id id label db = Ok db' ->
     categories_unique (transaction_categories db')) /\
  (forall org_id id db',
     delete_category org_id id db = Ok db' ->
     categories_unique (transaction_categories db')).
Proof.
  intros [Hids Hlabels]. split; [|split].
  - intros org_id data next_id db' id Hrun.
    apply add_category_inv in Hrun as (_ & [_ Hok] & ->). simpl.
    rewrite Forall_forall in Hok.
    split; rewrite fmap_app; apply NoDup_app; (split; [done|]);
      (split; [|apply NoDup_singleton]);
      intros x (c & -> & Hin)%list_elem_of_fmap Hx;
      apply list_elem_of_singleton in Hx; destruct (Hok c Hin) as [Hid Hlab].
    + by apply Hid.
    + apply Hlab. simpl in Hx. by injection Hx.
  - intros org_id id label db'. unfold update_category.
    intros (cat & Hfound & Hrest)%bind_Ok.
    apply first_or_404_filter_inv in Hfound as [_ Hcat].
    cbv zeta in Hrest.
    destruct (decide (default (c_label cat) label = c_label cat))
      as [Hsame|Hnew].
    { injection Hrest as <-. by split. }
    unfold guard in Hrest.
    repeat (case_decide; simpl in Hrest; try discriminate).
    injection Hrest as <-. simpl.
    match goal with H : category_row_ok _ _ |- _ => destruct H as [_ Hok] end.
    rewrite Forall_forall in Hok. simpl in Hok.
    split.
    + rewrite <- list_fmap_compose.
      rewrite (list_fmap_ext _ c_id (transaction_categories db)); [done|].
      intros i c _. simpl. by case_decide.
    + rewrite <- list_fmap_compose. apply NoDup_fmap_2_strong;
        [|by eapply NoDup_fmap_1].
      intros x y Hx Hy. simpl.
      destruct (decide (c_id x = c_id cat)) as [Hxc|Hxc];
        destruct (decide (c_id y = c_id cat)) as [Hyc|Hyc]; simpl; intros Heq.
      * apply (NoDup_fmap_eq c_id (transaction_categories db)); congruence.
      * assert (x = cat) as ->
          by by apply (NoDup_fmap_eq c_id (transaction_categories db)).
        destruct (Hok y) as [_ Hlab]; [by apply list_elem_of_filter|].
        destruct Hlab. by injection Heq.
      * assert (y = cat) as ->
          by by apply (NoDup_fmap_eq c_id (transaction_categories db)).
        destruct (Hok x) as [_ Hlab]; [by apply list_elem_of_filter|].
        destruct Hlab. by injection Heq.
      * apply (NoDup_fmap_eq
                 (fun c => (c_organization_id c, c_label c))
                 (transaction_categories db)); done.
  - intros org_id id db'. unfold delete_category.
    intros (cat & _ & Hrest)%bind_Ok.
    destruct (c_is_system cat); [done|]. injection Hrest as <-. simpl.
    split; by apply NoDup_fmap_filter.
Qed.

(** X19. A category that [add_category] has created without the system
    flag is deleted again by [delete_category], which gives back the
    database of before the creation, provided the key of the sequence is
    new and, as the foreign key has it, no transaction refers to it. A
    category created with the system flag, which the body of the request
    sets, cannot be deleted any more. *)
Theorem add_then_delete_category
    (org_id : Z) (data : CategoryData) (next_id : Z) (db db1 : DB) (id : Z) :
  (forall t, t ∈ transactions db -> t_category_id t <> Some next_id) ->
  add_category org_id data next_id db = Ok (db1, id) ->
  (cd_is_system data <> Some true -> delete_category org_id id db1 = Ok db) /\
  (cd_is_system data = Some true -> delete_category org_id id db1 = Err Forbidden).
Proof.
  intros Hfk Hrun. apply add_category_inv in Hrun as (-> & [_ Hok] & ->).
  rewrite Forall_forall in Hok. simpl in Hok.
  assert (filter (fun c => c_id c = next_id /\ c_organization_id c = org_id)
            (transaction_categories db) = []) as Hnone.
  { apply elem_of_nil_inv. intros c [[Hid _] Hin]%list_elem_of_filter.
    by destruct (Hok c Hin). }
  assert (filter (fun c => c_id c <> next_id) (transaction_categories db)
          = transaction_categories db) as Hall.
  { clear Hnone. induction (transaction_categories db) as [|c cats IH]; [done|].
    rewrite filter_cons_True by (apply Hok; by left).
    rewrite IH; [done|]. intros c' Hin. apply Hok. by right. }
  assert (clear_category next_id <$> transactions db = transactions db) as Htx.
  { clear Hnone Hall. induction (transactions db) as [|t txs IH]; [done|].
    rewrite fmap_cons, IH by (intros t' Hin; apply Hfk; by right).
    f_equal. unfold clear_category.
    rewrite decide_False; [done|]. apply Hfk. by left. }
  unfold delete_category. simpl.
  rewrite filter_app, Hnone, filter_cons_True, filter_nil by done. simpl.
  split.
  - intros Hsys.
    assert (default false (cd_is_system data) = false) as ->
      by by destruct (cd_is_system data) as [[]|].
    rewrite filter_app, Hall, filter_cons_False, filter_nil, app_nil_r, Htx
      by (simpl; tauto).
    by destruct db.
  - intros ->. done.
Qed.

(** ** Attendance *)

Lemma record_entry_inv (org_id : Z) (date_val : Date) (entry : AttendanceEntry)
    (reg reg' : Registry) :
  record_entry org_id date_val entry reg = Ok reg' ->
  students_by_id (ae_student_id entry) org_id (core reg) <> [] /\
  core reg' = core reg /\
  parent_contacts reg' = parent_contacts reg /\
  parent_contacts_id_seq reg' = parent_contacts_id_seq reg /\
  ((exists att rest,
      attendance_of (ae_student_id entry) date_val (attendance reg) = att :: rest /\
      attendance reg' =
        update_attendance (a_id att) (set_entry entry) (attendance reg) /\
      attendance_id_seq reg' = attendance_id_seq reg) \/
   (attendance_of (ae_student_id entry) date_val (attendance reg) = [] /\
    attendance reg' =
      attendance reg ++
      [set_entry entry
         (mkAttendance (attendance_id_seq reg) (ae_student_id entry) org_id
            date_val Absent None None None)] /\
    attendance_id_seq reg' = attendance_id_seq reg + 1)).
Proof.
  unfold record_entry.
  destruct (students_by_id _ _ _) as [|st sts]; [done|]. simpl.
  destruct (attendance_of _ _ _) as [|att rest] eqn:Hatt; intros [= <-]; simpl.
  - repeat split; try done. by right.
  - repeat split; try done. left. by exists att, rest.
Qed.

Lemma record_entry_Ok (org_id : Z) (date_val : Date) (entry : AttendanceEntry)
    (reg : Registry) :
  students_by_id (ae_student_id entry) org_id (core reg) <> [] ->
  exists reg', record_entry org_id date_val entry reg = Ok reg'.
Proof.
  unfold record_entry.
  destruct (students_by_id _ _ _) as [|st sts]; [done|]. simpl. intros _.
  destruct (attendance_of _ _ _); eauto.
Qed.

Lemma record_entry_Err (org_id : Z) (date_val : Date) (entry : AttendanceEntry)
    (reg : Registry) :
  students_by_id (ae_student_id entry) org_id (core reg) = [] ->
  record_entry org_id date_val entry reg = Err NotFound.
Proof. unfold record_entry. by intros ->. Qed.

(** X20. [record_attendance] records a request when each of its entries
    names a student of the organization of the caller, and then leaves the
    students, the ledger and the contacts as they are; when an entry names
    any other student the request is answered [NotFound] and nothing of
    it is committed, whatever the entries before it. *)
Theorem record_attendance_all_or_nothing (org_id : Z) (date_val : Date)
    (entries : list AttendanceEntry) (reg : Registry) :
  let known entry :=
    students_by_id (ae_student_id entry) org_id (core reg) <> [] in
  (Forall known entries ->
   exists reg', record_attendance org_id date_val entries reg = Ok reg' /\
                core reg' = core reg /\
                parent_contacts reg' = parent_contacts reg) /\
  (~ Forall known entries ->
   record_attendance org_id date_val entries reg = Err NotFound).
Proof.
  intros known. subst known.
  revert reg. induction entries as [|entry entries IH]; intros reg.
  - split; [by exists reg|]. intros []. constructor.
  - simpl. split.
    + intros [Hentry Hrest]%Forall_cons.
      destruct (record_entry_Ok org_id date_val entry reg Hentry) as [reg1 Hstep].
      rewrite Hstep. simpl.
      apply record_entry_inv in Hstep as (_ & Hcore & Hpc & _).
      destruct (IH reg1) as [Hok _]. rewrite Hcore in Hok.
      destruct (Hok Hrest) as (reg' & -> & Hc & Hp).
      exists reg'. by rewrite Hc, Hp.
    + intros Hnot.
      destruct (decide (students_by_id (ae_student_id entry) org_id (core reg) = []))
        as [Hnone|Hsome].
      * by rewrite record_entry_Err.
      * destruct (record_entry_Ok org_id date_val entry reg Hsome) as [reg1 Hstep].
        rewrite Hstep. simpl.
        apply record_entry_inv in Hstep as (_ & Hcore & _).
        destruct (IH reg1) as [_ Herr]. rewrite Hcore in Herr.
        apply Herr. intros Hrest. apply Hnot. by constructor.
Qed.

(** The rows of a student and a date, when the table has one row at most
    for each. *)
Lemma attendance_of_unique (rows : list Attendance) (a : Attendance) :
  NoDup ((fun a => (a_student_id a, a_date a)) <$> rows) ->
  a ∈ rows ->
  attendance_of (a_student_id a) (a_date a) rows = [a].
Proof.
  unfold attendance_of. induction rows as [|x rows IH]; [by intros _ ?%elem_of_nil|].
  rewrite fmap_cons, NoDup_cons. intros [Hout Hnd] [->|Hin]%elem_of_cons.
  - rewrite filter_cons_True by done. f_equal.
    apply elem_of_nil_inv. intros y [[Hs Hd] Hy]%list_elem_of_filter.
    apply Hout. rewrite <- Hs, <- Hd.
    by apply (list_elem_of_fmap_2 (fun a => (a_student_id a, a_date a))).
  - rewrite filter_cons_False; [by apply IH|].
    intros [Hs Hd]. apply Hout. rewrite Hs, Hd.
    by apply (list_elem_of_fmap_2 (fun a => (a_student_id a, a_date a))).
Qed.

Lemma attendance_of_head (rows : list Attendance) (s : Z) (d : Date)
    (att : Attendance) (rest : list Attendance) :
  NoDup ((fun a => (a_student_id a, a_date a)) <$> rows) ->
  attendance_of s d rows = att :: rest ->
  att ∈ rows /\ a_student_id att = s /\ a_date att = d /\ rest = [].
Proof.
  intros Hnd Hf.
  assert (att ∈ attendance_of s d rows) as [[Hs Hd] Hin]%list_elem_of_filter
    by (rewrite Hf; by left).
  split; [done|]. split; [done|]. split; [done|].
  pose proof (attendance_of_unique rows att Hnd Hin) as Hu.
  rewrite Hs, Hd, Hf in Hu. by injection Hu.
Qed.

(** An update of the fields of an entry keeps the key, the student, the
    organization and the date of the rows, hence commutes with a
    selection on these. *)
Lemma update_attendance_filter (P : Attendance -> Prop)
    `{forall a, Decision (P a)} (id : Z) (entry : AttendanceEntry)
    (rows : list Attendance) :
  (forall a, P (set_entry entry a) <-> P a) ->
  filter P (update_attendance id (set_entry entry) rows) =
  update_attendance id (set_entry entry) (filter P rows).
Proof.
  intros HP. unfold update_attendance.
  induction rows as [|a rows IH]; [done|].
  rewrite fmap_cons, !filter_cons.
  destruct (decide (a_id a = id)) as [Hid|Hid].
  - destruct (decide (P a)) as [Ha|Ha].
    + rewrite decide_True by by apply HP.
      rewrite fmap_cons, decide_True by done. by rewrite IH.
    + rewrite decide_False by by rewrite HP. done.
  - destruct (decide (P a)) as [Ha|Ha]; [|done].
    rewrite fmap_cons, decide_False by done. by rewrite IH.
Qed.

Lemma update_attendance_ids (id : Z) (entry : AttendanceEntry)
    (rows : list Attendance) :
  a_id <$> update_attendance id (set_entry entry) rows = a_id <$> rows.
Proof.
  unfold update_attendance. rewrite <- list_fmap_compose.
  apply list_fmap_ext. intros i a _. simpl. by case_decide.
Qed.

Lemma update_attendance_keys (id : Z) (entry : AttendanceEntry)
    (rows : list Attendance) :
  (fun a => (a_student_id a, a_date a)) <$>
    update_attendance id (set_entry entry) rows =
  (fun a => (a_student_id a, a_date a)) <$> rows.
Proof.
  unfold update_attendance. rewrite <- list_fmap_compose.
  apply list_fmap_ext. intros i a _. simpl. by case_decide.
Qed.

Lemma update_attendance_absent (id : Z) (f : Attendance -> Attendance)
    (rows : list Attendance) :
  (forall a, a ∈ rows -> a_id a <> id) ->
  update_attendance id f rows = rows.
Proof.
  intros Hno. unfold update_attendance.
  induction rows as [|a rows IH]; [done|].
  rewrite fmap_cons, decide_False by (apply Hno; by left).
  rewrite IH; [done|]. intros a' Hin. apply Hno. by right.
Qed.

(** A turn of the loop keeps the invariant of the table. *)
Lemma record_entry_wf (org_id : Z) (date_val : Date) (entry : AttendanceEntry)
    (reg reg' : Registry) :
  attendance_wf reg ->
  record_entry org_id date_val entry reg = Ok reg' ->
  attendance_wf reg'.
Proof.
  intros (Hids & Hseq & Hkeys) Hstep.
  apply record_entry_inv in Hstep
    as (_ & _ & _ & _ & [(att & rest & Hatt & Hrows & Hs)|(Hnone & Hrows & Hs)]);
    unfold attendance_wf; rewrite Hrows, Hs.
  - rewrite update_attendance_ids, update_attendance_keys.
    split; [done|]. split; [|done].
    unfold update_attendance. rewrite Forall_fmap.
    eapply Forall_impl; [exact Hseq|]. intros a Ha. simpl. by case_decide.
  - rewrite Forall_forall in Hseq.
    split; [|split].
    + rewrite fmap_app. apply NoDup_app. split; [done|].
      split; [|apply NoDup_singleton].
      intros x (a & -> & Hin)%list_elem_of_fmap Hx.
      apply list_elem_of_singleton in Hx. simpl in Hx.
      specialize (Hseq a Hin). lia.
    + apply Forall_app. split.
      * apply Forall_forall. intros a Hin. specialize (Hseq a Hin). lia.
      * apply Forall_singleton. simpl. lia.
    + rewrite fmap_app. apply NoDup_app. split; [done|].
      split; [|apply NoDup_singleton].
      intros x (a & -> & Hin)%list_elem_of_fmap Hx.
      apply list_elem_of_singleton in Hx. simpl in Hx. injection Hx as Hs' Hd'.
      assert (a ∈ attendance_of (ae_student_id entry) date_val (attendance reg))
        as Ha by by apply list_elem_of_filter.
      rewrite Hnone in Ha. by apply elem_of_nil in Ha.
Qed.

(** The invariant of the table through the turns of the loop. *)
Lemma record_attendance_wf (org_id : Z) (date_val : Date)
    (entries : list AttendanceEntry) (reg reg' : Registry) :
  attendance_wf reg ->
  record_attendance org_id date_val entries reg = Ok reg' ->
  attendance_wf reg'.
Proof.
  revert reg. induction entries as [|entry entries IH]; intros reg Hwf; simpl.
  - by intros [= <-].
  - intros (reg1 & Hstep & Hrest)%bind_Ok.
    apply (IH reg1); [|done]. by eapply record_entry_wf.
Qed.

(** X21. A recorded request keeps the invariant of the table of
    attendance: the keys stay distinct and below the next key of the
    sequence, and a student keeps one row at most for a date, so that the
    handler never runs into the unique constraint on student and date. *)
Theorem record_attendance_keeps_wf (org_id : Z) (date_val : Date)
    (entries : list AttendanceEntry) (reg reg' : Registry) :
  attendance_wf reg ->
  record_attendance org_id date_val entries reg = Ok reg' ->
  attendance_wf reg' /\
  forall s d, (length (attendance_of s d (attendance reg')) <= 1)%nat.
Proof.
  intros Hwf Hrun.
  pose proof (record_attendance_wf _ _ _ _ _ Hwf Hrun) as Hwf'.
  split; [done|]. intros s d.
  destruct (attendance_of s d (attendance reg')) as [|a rest] eqn:Hrows;
    [simpl; lia|].
  destruct Hwf' as (_ & _ & Hkeys).
  apply attendance_of_head in Hrows as (_ & _ & _ & ->); [|done].
  simpl. lia.
Qed.

(** What a turn of the loop leaves of a selection that depends on no field
    of the entries and that excludes the row of the entry. *)
Lemma record_entry_other (P : Attendance -> Prop) `{forall a, Decision (P a)}
    (org_id : Z) (date_val : Date) (entry : AttendanceEntry)
    (reg reg' : Registry) :
  attendance_wf reg ->
  record_entry org_id date_val entry reg = Ok reg' ->
  (forall e a, P (set_entry e a) <-> P a) ->
  (forall a, P a ->
     ~ (a_student_id a = ae_student_id entry /\ a_date a = date_val)) ->
  filter P (attendance reg') = filter P (attendance reg).
Proof.
  intros (Hids & _ & Hkeys) Hstep Hfields Hother.
  apply record_entry_inv in Hstep
    as (_ & _ & _ & _ & [(att & rest & Hatt & -> & _)|(_ & -> & _)]).
  - apply attendance_of_head in Hatt as (Hin & Hs & Hd & _); [|done].
    rewrite update_attendance_filter by apply Hfields.
    apply update_attendance_absent.
    intros a [Ha Hina]%list_elem_of_filter Hid.
    assert (a = att) as -> by by apply (NoDup_fmap_eq a_id (attendance reg)).
    by apply (Hother att).
  - rewrite filter_app, filter_cons_False, filter_nil, app_nil_r; [done|].
    rewrite Hfields. intros Hnew. by apply (Hother _ Hnew).
Qed.

(** The row of the student of the entry after a turn of the loop. *)
Lemma record_entry_same (org_id : Z) (date_val : Date) (entry : AttendanceEntry)
    (reg reg' : Registry) :
  attendance_wf reg ->
  record_entry org_id date_val entry reg = Ok reg' ->
  exists a0,
    attendance_of (ae_student_id entry) date_val (attendance reg') =
      [set_entry entry a0] /\
    a_student_id a0 = ae_student_id entry /\ a_date a0 = date_val /\
    (attendance_of (ae_student_id entry) date_val (attendance reg) = [a0] \/
     attendance_of (ae_student_id entry) date_val (attendance reg) = [] /\
     a_id a0 = attendance_id_seq reg /\ a_organization_id a0 = org_id).
Proof.
  intros (Hids & _ & Hkeys) Hstep.
  apply record_entry_inv in Hstep
    as (_ & _ & _ & _ & [(att & rest & Hatt & -> & _)|(Hnone & -> & _)]).
  - pose proof (attendance_of_head _ _ _ _ _ Hkeys Hatt) as (Hin & Hs & Hd & ->).
    exists att. split; [|by auto].
    unfold attendance_of. rewrite update_attendance_filter by done.
    fold (attendance_of (ae_student_id entry) date_val (attendance reg)).
    rewrite Hatt. unfold update_attendance. simpl. by rewrite decide_True.
  - exists (mkAttendance (attendance_id_seq reg) (ae_student_id entry) org_id
              date_val Absent None None None).
    split; [|split; [done|split; [done|right; by repeat split]]].
    unfold attendance_of. rewrite filter_app.
    fold (attendance_of (ae_student_id entry) date_val (attendance reg)).
    rewrite Hnone, filter_cons_True, filter_nil by done. done.
Qed.

(** A row of the table stays the one row of its student and its date, with
    its key and its organization, through a turn of the loop. *)
Lemma record_entry_keeps (org_id : Z) (date_val : Date) (entry : AttendanceEntry)
    (reg reg' : Registry) (s : Z) (d : Date) (a0 : Attendance) :
  attendance_wf reg ->
  record_entry org_id date_val entry reg = Ok reg' ->
  attendance_of s d (attendance reg) = [a0] ->
  exists a1, attendance_of s d (attendance reg') = [a1] /\
             a_id a1 = a_id a0 /\ a_organization_id a1 = a_organization_id a0.
Proof.
  intros Hwf Hstep Hrow.
  destruct (decide (s = ae_student_id entry /\ d = date_val)) as [[-> ->]|Hne].
  - destruct (record_entry_same _ _ _ _ _ Hwf Hstep)
      as (a & Hnew & _ & _ & [Hold|[Hold _]]); [|congruence].
    rewrite Hrow in Hold. injection Hold as <-.
    exists (set_entry entry a0). by split.
  - exists a0. split; [|done]. rewrite <- Hrow. unfold attendance_of.
    apply (record_entry_other _ org_id date_val entry); [done..| |].
    + done.
    + intros a [<- <-] [Hs Hd]. by apply Hne.
Qed.

Lemma record_attendance_keeps (org_id : Z) (date_val : Date)
    (entries : list AttendanceEntry) (reg reg' : Registry)
    (s : Z) (d : Date) (a0 : Attendance) :
  attendance_wf reg ->
  record_attendance org_id date_val entries reg = Ok reg' ->
  attendance_of s d (attendance reg) = [a0] ->
  exists a1, attendance_of s d (attendance reg') = [a1] /\
             a_id a1 = a_id a0 /\ a_organization_id a1 = a_organization_id a0.
Proof.
  revert reg a0. induction entries as [|entry entries IH]; intros reg a0 Hwf; simpl.
  - intros [= <-] Hrow. by exists a0.
  - intros (reg1 & Hstep & Hrest)%bind_Ok Hrow.
    destruct (record_entry_keeps _ _ _ _ _ _ _ _ Hwf Hstep Hrow)
      as (a1 & Hrow1 & Hid1 & Horg1).
    destruct (IH reg1 a1) as (a2 & Hrow2 & Hid2 & Horg2);
      [by eapply record_entry_wf|done|done|].
    exists a2. split; [done|]. split; congruence.
Qed.

Lemma record_attendance_other (P : Attendance -> Prop)
    `{forall a, Decision (P a)} (org_id : Z) (date_val : Date)
    (entries : list AttendanceEntry) (reg reg' : Registry) :
  attendance_wf reg ->
  record_attendance org_id date_val entries reg = Ok reg' ->
  (forall e a, P (set_entry e a) <-> P a) ->
  (forall a, P a ->
     ~ (a_student_id a ∈ ae_student_id <$> entries /\ a_date a = date_val)) ->
  filter P (attendance reg') = filter P (attendance reg).
Proof.
  revert reg. induction entries as [|entry entries IH]; intros reg Hwf; simpl.
  - by intros [= <-].
  - intros (reg1 & Hstep & Hrest)%bind_Ok Hfields Hother.
    rewrite (IH reg1); [| by eapply record_entry_wf | done | done |].
    + apply (record_entry_other P org_id date_val entry); [done..|].
      intros a Ha [Hs Hd]. apply (Hother a Ha). split; [|done].
      rewrite Hs. by left.
    + intros a Ha [Hs Hd]. apply (Hother a Ha). split; [|done]. by right.
Qed.

Lemma record_attendance_app (org_id : Z) (date_val : Date)
    (l1 l2 : list AttendanceEntry) (reg : Registry) :
  record_attendance org_id date_val (l1 ++ l2) reg =
  let* reg1 := record_attendance org_id date_val l1 reg in
  record_attendance org_id date_val l2 reg1.
Proof.
  revert reg. induction l1 as [|entry l1 IH]; intros reg; simpl; [done|].
  destruct (record_entry org_id date_val entry reg) as [reg1|e]; simpl; [|done].
  apply IH.
Qed.

(** X22. After a recorded request a student of the request has exactly one
    row on the date of the request, and it carries the status (absent by
    default), the times and the notes of the last entry of the student.
    A row that the student had on that date before the request is the one
    that is updated: it keeps its key and its organization; a row that
    the request creates is of the organization of the caller. *)
Theorem record_attendance_last_entry_wins (org_id : Z) (date_val : Date)
    (before after : list AttendanceEntry) (entry : AttendanceEntry)
    (reg reg' : Registry) :
  attendance_wf reg ->
  ae_student_id entry ∉ ae_student_id <$> after ->
  record_attendance org_id date_val (before ++ entry :: after) reg = Ok reg' ->
  exists a,
    attendance_of (ae_student_id entry) date_val (attendance reg') = [a] /\
    a_status a = default Absent (ae_status entry) /\
    a_arrival_time a = ae_arrival_time entry /\
    a_departure_time a = ae_departure_time entry /\
    a_notes a = ae_notes entry /\
    (forall a0,
       attendance_of (ae_student_id entry) date_val (attendance reg) = [a0] ->
       a_id a = a_id a0 /\ a_organization_id a = a_organization_id a0) /\
    (attendance_of (ae_student_id entry) date_val (attendance reg) = [] ->
     a_organization_id a = org_id).
Proof.
  intros Hwf Hlast. rewrite record_attendance_app.
  intros (reg1 & Hbefore & Hrest)%bind_Ok. simpl in Hrest.
  apply bind_Ok in Hrest as (reg2 & Hstep & Hafter).
  assert (attendance_wf reg1) as Hwf1 by by eapply record_attendance_wf.
  assert (attendance_wf reg2) as Hwf2 by by eapply record_entry_wf.
  destruct (record_entry_same _ _ _ _ _ Hwf1 Hstep)
    as (a1 & Hrow2 & Hs1 & Hd1 & Hfrom).
  exists (set_entry entry a1).
  split; [|split; [done|split; [done|split; [done|split; [done|split]]]]].
  - rewrite <- Hrow2. unfold attendance_of.
    apply (record_attendance_other _ org_id date_val after); [done..| |].
    + done.
    + intros a [Hs _] [Hin _]. apply Hlast. by rewrite <- Hs.
  - intros a0 Hrow0.
    destruct (record_attendance_keeps _ _ _ _ _ _ _ _ Hwf Hbefore Hrow0)
      as (a' & Hrow1 & Hid & Horg).
    destruct Hfrom as [Hold|[Hold _]]; [|congruence].
    rewrite Hrow1 in Hold. injection Hold as <-. done.
  - intros Hnone. simpl.
    destruct Hfrom as [Hold|(_ & _ & Horg)]; [|done].
    (* the row was created by an earlier entry of the same request *)
    clear Hrow2 Hstep Hafter Hwf1 Hwf2 Hlast reg2 reg' after.
    revert reg reg1 Hwf Hbefore Hnone Hold.
    induction before as [|e before IH]; intros reg reg1 Hwf; simpl.
    + intros [= <-]. congruence.
    + intros (regm & Hstep & Hrest)%bind_Ok Hnone Hold.
      assert (attendance_wf regm) as Hwfm by by eapply record_entry_wf.
      destruct (attendance_of (ae_student_id entry) date_val (attendance regm))
        as [|am restm] eqn:Hm.
      * by apply (IH regm reg1).
      * pose proof (attendance_of_head _ _ _ _ _ (proj2 (proj2 Hwfm)) Hm)
          as (_ & _ & _ & ->).
        destruct (record_attendance_keeps _ _ _ _ _ _ _ _ Hwfm Hrest Hm)
          as (a' & Hrow1 & _ & Horg).
        rewrite Hrow1 in Hold. injection Hold as <-. rewrite Horg.
        destruct (decide (ae_student_id e = ae_student_id entry)) as [Heq|Hne].
        -- destruct (record_entry_same _ _ _ _ _ Hwf Hstep)
             as (a0 & Hnew & _ & _ & [Hex|(_ & _ & Horg0)]).
           ++ rewrite Heq in Hex. congruence.
           ++ rewrite Heq, Hm in Hnew. by injection Hnew as ->.
        -- assert (attendance_of (ae_student_id entry) date_val (attendance regm)
                   = attendance_of (ae_student_id entry) date_val (attendance reg))
             as Hsame.
           { unfold attendance_of.
             apply (record_entry_other _ org_id date_val e); [done..| |].
             - done.
             - intros a [Hs _] [Hs' _]. apply Hne. congruence. }
           rewrite Hm, Hnone in Hsame. done.
Qed.

(** X23. A recorded request leaves the rows of the other dates and of the
    students that it does not name as they are, and adds none to them. *)
Theorem record_attendance_other_rows (org_id : Z) (date_val : Date)
    (entries : list AttendanceEntry) (reg reg' : Registry) :
  attendance_wf reg ->
  record_attendance org_id date_val entries reg = Ok reg' ->
  let untouched a :=
    ~ (a_student_id a ∈ ae_student_id <$> entries /\ a_date a = date_val) in
  filter untouched (attendance reg') = filter untouched (attendance reg).
Proof.
  intros Hwf Hrun untouched.
  apply (record_attendance_other untouched org_id date_val entries);
    [done..| |].
  - done.
  - intros a Ha. exact Ha.
Qed.

(** ** Deletion of a student, and contacts *)

Lemma delete_student_inv (org_id id : Z) (reg reg' : Registry) :
  delete_student org_id id reg = Ok reg' ->
  student_exists id (core reg) /\
  reg' =
    mkRegistry
      (mkDB (filter (fun s => s_id s <> id) (students (core reg)))
         (filter (fun e => e_student_id e <> id) (enrollments (core reg)))
         (transaction_categories (core reg))
         (clear_student id <$> transactions (core reg))
         (enrollments_id_seq (core reg)) (transactions_id_seq (core reg)))
      (filter (fun c => pc_student_id c <> id) (parent_contacts reg))
      (filter (fun a => a_student_id a <> id) (attendance reg))
      (parent_contacts_id_seq reg) (attendance_id_seq reg).
Proof.
  unfold delete_student. intros (st & Hfound & [= <-])%bind_Ok.
  apply first_or_404_filter_inv in Hfound as [[Hid _] Hin]. rewrite Hid.
  split; [|done]. apply Exists_exists. by exists st.
Qed.

Lemma student_exists_filter (sid id : Z) (db db' : DB) :
  students db' = filter (fun s => s_id s <> id) (students db) ->
  student_exists sid db' <-> student_exists sid db /\ sid <> id.
Proof.
  intros Hst. unfold student_exists. rewrite Hst, !Exists_exists. split.
  - intros (s & [Hne Hin]%list_elem_of_filter & <-). split; [by exists s|done].
  - intros [(s & Hin & <-) Hne]. exists s. split; [by apply list_elem_of_filter|done].
Qed.

Lemma clear_student_amounts (org_id id : Z) (txs : list Transaction) :
  t_amount <$> filter (fun t => t_organization_id t = org_id)
                 (clear_student id <$> txs) =
  t_amount <$> filter (fun t => t_organization_id t = org_id) txs.
Proof.
  induction txs as [|t txs IH]; [done|].
  rewrite fmap_cons, !filter_cons.
  assert (t_organization_id (clear_student id t) = t_organization_id t) as Horg
    by (unfold clear_student; by case_decide).
  assert (t_amount (clear_student id t) = t_amount t) as Hamt
    by (unfold clear_student; by case_decide).
  rewrite Horg. case_decide; [|done]. by rewrite !fmap_cons, IH, Hamt.
Qed.

(** X24. After the deletion of a student no student has its key, and the
    foreign keys to the students still hold: its enrollments, contacts and
    attendance are gone with it. Its transactions stay in the ledger
    without student, so that the ledger keeps its length and every
    organization its balance. *)
Theorem delete_student_cascade (org_id id : Z) (reg reg' : Registry) :
  references_ok reg ->
  delete_student org_id id reg = Ok reg' ->
  ~ student_exists id (core reg') /\
  references_ok reg' /\
  Forall (fun t => t_student_id t <> Some id) (transactions (core reg')) /\
  length (transactions (core reg')) = length (transactions (core reg)) /\
  (forall org', balance org' (core reg') = balance org' (core reg)).
Proof.
  intros (He & Ht & Hc & Ha) [Hex ->]%delete_student_inv.
  set (db' := mkDB _ _ _ _ _ _).
  assert (forall sid, student_exists sid db' <->
                      student_exists sid (core reg) /\ sid <> id) as Hst
    by (intros sid; by apply student_exists_filter).
  split; [|split; [|split; [|split]]].
  - simpl. rewrite Hst. tauto.
  - unfold references_ok. simpl core. fold db'.
    rewrite Forall_forall in He. rewrite Forall_forall in Ht.
    rewrite Forall_forall in Hc. rewrite Forall_forall in Ha.
    repeat split; apply Forall_forall; simpl.
    + intros e [Hne Hin]%list_elem_of_filter. apply Hst. auto.
    + intros t' (t & -> & Hin)%list_elem_of_fmap.
      unfold clear_student. case_decide as Hsid; simpl; [done|].
      specialize (Ht t Hin). destruct (t_student_id t) as [k|]; [|done].
      simpl in *. apply Hst. split; [done|]. congruence.
    + intros c [Hne Hin]%list_elem_of_filter. apply Hst. auto.
    + intros a [Hne Hin]%list_elem_of_filter. apply Hst. auto.
  - simpl. apply Forall_forall. intros t' (t & -> & Hin)%list_elem_of_fmap.
    unfold clear_student. by case_decide.
  - simpl. by rewrite length_fmap.
  - intros org'. rewrite !balance_sum. simpl. by rewrite clear_student_amounts.
Qed.

Lemma add_contact_inv (org_id student_id : Z) (data : ContactData)
    (reg reg' : Registry) (id : Z) :
  add_contact org_id student_id data reg = Ok (reg', id) ->
  students_by_id student_id org_id (core reg) <> [] /\
  id = parent_contacts_id_seq reg /\
  reg' =
    mkRegistry (core reg)
      (parent_contacts reg ++
       [mkParentContact id student_id (kd_type data) (kd_value data)
          (default false (kd_is_principal data)) (kd_firstname data)
          (kd_lastname data) (default AutreRelation (kd_relation data))])
      (attendance reg) (id + 1) (attendance_id_seq reg).
Proof.
  unfold add_contact, guard.
  destruct (students_by_id _ _ _) as [|st sts]; [done|]. simpl.
  case_decide; simpl; [|done]. by intros [= <- <-].
Qed.

(** X25. After [add_contact] the contacts that [get_contacts] lists for the
    student are those listed before and the new contact, whatever the
    order of the listing; the new contact has the key returned, the type,
    the value and the names of the body and the defaults of the flag and
    of the relation. The lists of the other students do not change. *)
Theorem add_contact_listed (org_id student_id : Z) (data : ContactData)
    (reg reg' : Registry) (id : Z) :
  add_contact org_id student_id data reg = Ok (reg', id) ->
  (exists l l' c,
     get_contacts org_id student_id reg = Ok l /\
     get_contacts org_id student_id reg' = Ok l' /\
     l' ≡ₚ c :: l /\
     pc_id c = id /\ pc_student_id c = student_id /\
     pc_type c = kd_type data /\ pc_value c = kd_value data /\
     pc_is_principal c = default false (kd_is_principal data) /\
     pc_firstname c = kd_firstname data /\
     pc_lastname c = kd_lastname data /\
     pc_relation c = default AutreRelation (kd_relation data)) /\
  (forall org' student',
     student' <> student_id ->
     get_contacts org' student' reg' = get_contacts org' student' reg).
Proof.
  intros (Hst & -> & ->)%add_contact_inv. unfold get_contacts. simpl.
  split.
  - destruct (students_by_id _ _ _) as [|st sts]; [done|]. simpl.
    eexists _, _, _. split; [done|]. split; [done|].
    rewrite filter_app, filter_cons_True, filter_nil by done.
    split.
    { symmetry. apply Permutation_cons_append. }
    by repeat split.
  - intros org' student' Hne.
    destruct (students_by_id _ _ _) as [|st sts]; [done|]. simpl.
    rewrite filter_app, filter_cons_False, filter_nil, app_nil_r; [done|].
    simpl. congruence.
Qed.

(** X26. [delete_contact] on the key that [add_contact] has returned, for
    the same student, gives back the table of contacts of before the
    creation, with the sequence advanced by one; the organization of the
    token of the deletion plays no part in it. *)
Theorem add_then_delete_contact (org_id student_id : Z) (data : ContactData)
    (reg reg' : Registry) (id : Z) :
  Forall (fun c => pc_id c < parent_contacts_id_seq reg) (parent_contacts reg) ->
  add_contact org_id student_id data reg = Ok (reg', id) ->
  forall org',
    delete_contact org' student_id id reg' =
      Ok (mkRegistry (core reg) (parent_contacts reg) (attendance reg)
            (parent_contacts_id_seq reg + 1) (attendance_id_seq reg)).
Proof.
  intros Hseq (_ & -> & ->)%add_contact_inv org'.
  rewrite Forall_forall in Hseq.
  unfold delete_contact. simpl.
  assert (filter (fun c => pc_id c = parent_contacts_id_seq reg /\
                           pc_student_id c = student_id)
            (parent_contacts reg) = []) as Hnone.
  { apply elem_of_nil_inv. intros c [[Hid _] Hin]%list_elem_of_filter.
    specialize (Hseq c Hin). lia. }
  assert (filter (fun c => pc_id c <> parent_contacts_id_seq reg)
            (parent_contacts reg) = parent_contacts reg) as Hall.
  { clear Hnone. induction (parent_contacts reg) as [|c cs IH]; [done|].
    assert (pc_id c < parent_contacts_id_seq reg) as Hc by (apply Hseq; by left).
    rewrite filter_cons_True by lia.
    rewrite IH; [done|]. intros c' Hin. apply Hseq. by right. }
  rewrite filter_app, Hnone, filter_cons_True, filter_nil by done. simpl.
  rewrite filter_app, Hall, filter_cons_False, filter_nil, app_nil_r
    by (simpl; tauto).
  done.
Qed.

(** * Instances of the further properties

    Each of the further properties that has hypotheses, at a database on
    which they hold. *)

Lemma record_payment_balance_witness :
  record_payment 1 payment_march (mkDateTime 738950 0) db_expired = Ok db_paid /\
  balance 1 db_paid =
    PyFloat (cents_of (balance 1 db_expired)
             + (if decide (1 = 1) then pd_amount payment_march else 0)).
Proof.
  assert (record_payment 1 payment_march (mkDateTime 738950 0) db_expired
          = Ok db_paid) as H1 by reflexivity.
  exact (conj H1 (record_payment_balance 1 payment_march (mkDateTime 738950 0)
                    db_expired db_paid 1 H1)).
Defined.

Lemma record_expense_balance_witness :
  record_expense 1 (expense_50 (-5000)) (mkDateTime 738950 0) db_expired
  = Ok db_spent /\
  balance 1 db_spent =
    PyFloat (cents_of (balance 1 db_expired)
             - (if decide (1 = 1) then Z.abs (-5000) else 0)).
Proof.
  assert (record_expense 1 (expense_50 (-5000)) (mkDateTime 738950 0) db_expired
          = Ok db_spent) as H1 by reflexivity.
  exact (conj H1 (record_expense_balance 1 (expense_50 (-5000))
                    (mkDateTime 738950 0) db_expired db_spent 1 H1)).
Defined.



Lemma renew_enrollment_creates_successor_witness :
  NoDup (e_id <$> enrollments db_active) /\
  enrollment_active ∈ enrollments db_active /\
  student_exists 7 db_active /\
  fits_numeric_10_2 20000 /\
  (forall d, e_end_date enrollment_active = Some d -> valid_date d) /\
  valid_date 738977 /\
  valid_date (738977 + 30) /\
  renew_enrollment 1 1 (mkRenewData None None) (mkDateTime 738950 0) db_active =
    Ok (mkDB (students db_active)
          (update_rows 1 (set_status Renouvele) (enrollments db_active) ++
           [mkEnrollment 4 7 1 738977 (Some (738977 + 30)) 20000 Actif
              None None])
          (transaction_categories db_active) (transactions db_active) 5 1,
        4).
Proof.
  assert (NoDup (e_id <$> enrollments db_active)) as H1
    by (by apply (bool_decide_unpack _)).
  assert (enrollment_active ∈ enrollments db_active) as H2
    by (by apply (bool_decide_unpack _)).
  assert (student_exists 7 db_active) as H3 by (by apply (bool_decide_unpack _)).
  assert (fits_numeric_10_2 20000) as H4 by (unfold fits_numeric_10_2; lia).
  assert (forall d, e_end_date enrollment_active = Some d -> valid_date d) as H5.
  { intros d [= <-]. unfold valid_date, MAXORDINAL. lia. }
  assert (valid_date 738977) as H6 by (unfold valid_date, MAXORDINAL; lia).
  assert (valid_date (738977 + 30)) as H7 by (unfold valid_date, MAXORDINAL; lia).
  exact (conj H1 (conj H2 (conj H3 (conj H4 (conj H5 (conj H6 (conj H7
           (renew_enrollment_creates_successor 1 1 (mkRenewData None None)
              (mkDateTime 738950 0) db_active enrollment_active
              H1 H2 eq_refl eq_refl H3 H4 H5 H6 H7)))))))).
Defined.

Lemma renew_enrollment_scoped_witness :
  NoDup (e_id <$> enrollments db_two_tenants) /\
  ((forall e, e ∈ enrollments db_two_tenants -> e_id e = 1 ->
              e_organization_id e <> 1) ->
   renew_enrollment 1 1 (mkRenewData None None) (mkDateTime 738950 0)
     db_two_tenants = Err NotFound) /\
  (forall db' new_id,
     renew_enrollment 1 1 (mkRenewData None None) (mkDateTime 738950 0)
       db_two_tenants = Ok (db', new_id) ->
     (forall (i : nat) e, enrollments db_two_tenants !! i = Some e ->
        e_organization_id e <> 1 -> enrollments db' !! i = Some e) /\
     exists new,
       enrollments db' !! length (enrollments db_two_tenants) = Some new /\
       e_organization_id new = 1 /\
       length (enrollments db') = S (length (enrollments db_two_tenants))).
Proof.
  assert (NoDup (e_id <$> enrollments db_two_tenants)) as H1
    by (by apply (bool_decide_unpack _)).
  exact (conj H1 (renew_enrollment_scoped 1 1 (mkRenewData None None)
                    (mkDateTime 738950 0) db_two_tenants H1)).
Defined.

Lemma terminate_enrollment_scoped_witness :
  NoDup (e_id <$> enrollments db_two_tenants) /\
  ((forall e, e ∈ enrollments db_two_tenants -> e_id e = 1 ->
              e_organization_id e <> 1) ->
   terminate_enrollment 1 1 (mkDateTime 738950 0) db_two_tenants
   = Err NotFound) /\
  (forall db',
     terminate_enrollment 1 1 (mkDateTime 738950 0) db_two_tenants = Ok db' ->
     students db' = students db_two_tenants /\
     transactions db' = transactions db_two_tenants /\
     length (enrollments db') = length (enrollments db_two_tenants) /\
     forall (i : nat) e, enrollments db_two_tenants !! i = Some e ->
       enrollments db' !! i =
         Some (if decide (e_id e = 1 /\ e_organization_id e = 1)
               then terminated (mkDateTime 738950 0) e else e)).
Proof.
  assert (NoDup (e_id <$> enrollments db_two_tenants)) as H1
    by (by apply (bool_decide_unpack _)).
  exact (conj H1 (terminate_enrollment_scoped 1 1 (mkDateTime 738950 0)
                    db_two_tenants H1)).
Defined.

Lemma delete_category_keeps_ledger_witness :
  delete_category 1 1 db_march = Ok db_march_deleted /\
  ~ category_exists 1 db_march_deleted /\
  (forall c, c ∈ transaction_categories db_march_deleted <->
             c ∈ transaction_categories db_march /\ c_id c <> 1) /\
  transactions db_march_deleted = clear_category 1 <$> transactions db_march /\
  (forall t, t ∈ transactions db_march_deleted -> t_category_id t <> Some 1) /\
  enrollments db_march_deleted = enrollments db_march /\
  (forall org', balance org' db_march_deleted = balance org' db_march).
Proof.
  assert (delete_category 1 1 db_march = Ok db_march_deleted) as H1
    by reflexivity.
  exact (conj H1 (delete_category_keeps_ledger 1 1 db_march db_march_deleted H1)).
Defined.

Lemma monthly_report_months_witness :
  monthly_report 1 (Some 2024) (Some 3) (mkDateTime 738950 0) db_spring
  = Ok report_spring /\
  1 <= 2024 <= 9999 /\ 1 <= 3 <= 12 /\ ~ (2024 = 9999 /\ 3 = 12) /\
  avg_active_students report_spring =
    active_students 1 (ymd2ord 2024 3 1) (ymd2ord 2024 3 1 + 31) db_spring /\
  0 <= avg_active_students report_spring
    <= Z.of_nat (length (enrollments db_spring)).
Proof.
  assert (monthly_report 1 (Some 2024) (Some 3) (mkDateTime 738950 0) db_spring
          = Ok report_spring) as H1 by (vm_compute; reflexivity).
  exact (conj H1 (monthly_report_months 1 (Some 2024) (Some 3)
                    (mkDateTime 738950 0) db_spring report_spring H1)).
Defined.

Lemma annual_report_average_witness :
  annual_report 1 (Some 2024) (mkDateTime 738950 0) db_spring
  = Ok report_spring_annual /\
  1 <= 2024 <= 9998 /\
  exists avgs,
    length avgs = 12%nat /\
    avg_active_students report_spring_annual
    = (inject_Z (sum_Z avgs) / 12)%Q /\
    forall (i : nat) n now' rm,
      avgs !! i = Some n ->
      monthly_report 1 (Some 2024) (Some (1 + Z.of_nat i)) now' db_spring
      = Ok rm ->
      avg_active_students rm = n.
Proof.
  assert (annual_report 1 (Some 2024) (mkDateTime 738950 0) db_spring
          = Ok report_spring_annual) as H1 by (vm_compute; reflexivity).
  exact (conj H1 (annual_report_average 1 (Some 2024) (mkDateTime 738950 0)
                    db_spring report_spring_annual H1)).
Defined.

Lemma notified_are_upcoming_witness :
  check_expirations 1 (mkDateTime 738975 0) (fun _ => mkDateTime 738975 10)
    db_active
  = Ok (update_enrollment 1
          (set_notified_at (Some (mkDateTime 738975 10))) db_active, [1]) /\
  upcoming_payments 1 (mkDateTime 738975 0) db_active = Ok 1 /\
  Z.of_nat (length [1]) <= 1.
Proof.
  assert (check_expirations 1 (mkDateTime 738975 0)
            (fun _ => mkDateTime 738975 10) db_active
          = Ok (update_enrollment 1
                  (set_notified_at (Some (mkDateTime 738975 10))) db_active,
                [1])) as H1 by (vm_compute; reflexivity).
  assert (upcoming_payments 1 (mkDateTime 738975 0) db_active = Ok 1) as H2
    by (vm_compute; reflexivity).
  exact (conj H1 (conj H2
           (notified_are_upcoming 1 (mkDateTime 738975 0)
              (fun _ => mkDateTime 738975 10) db_active _ [1] 1 H1 H2))).
Defined.

Lemma dashboard_expenses_are_monthly_witness :
  monthly_report 1 None None (mkDateTime 738950 0) db_spring = Ok report_spring /\
  expenses report_spring
  = dashboard_monthly_expenses 1 (mkDateTime 738950 0) db_spring.
Proof.
  assert (monthly_report 1 None None (mkDateTime 738950 0) db_spring
          = Ok report_spring) as H1 by (vm_compute; reflexivity).
  exact (conj H1 (dashboard_expenses_are_monthly 1 (mkDateTime 738950 0)
                    db_spring report_spring H1)).
Defined.

Lemma monthly_report_expenses_by_label_witness :
  monthly_report 1 (Some 2024) (Some 3) (mkDateTime 738950 0) db_spring
  = Ok report_spring /\
  expenses report_spring !! "Loyer" =
    if decide ("Loyer" ∈
               (expense_rows 1
                  (fun d => extract_year d = 2024 /\ extract_month d = 3)
                  db_spring).*1)
    then Some (PyFloat (label_total "Loyer"
                 (expense_rows 1
                    (fun d => extract_year d = 2024 /\ extract_month d = 3)
                    db_spring)))
    else None.
Proof.
  assert (monthly_report 1 (Some 2024) (Some 3) (mkDateTime 738950 0) db_spring
          = Ok report_spring) as H1 by (vm_compute; reflexivity).
  exact (conj H1 (monthly_report_expenses_by_label 1 (Some 2024) (Some 3)
                    (mkDateTime 738950 0) db_spring report_spring "Loyer" H1)).
Defined.

Lemma categories_unique_kept_witness :
  categories_unique (transaction_categories db_spring) /\
  (forall org_id data next_id db' id,
     add_category org_id data next_id db_spring = Ok (db', id) ->
     categories_unique (transaction_categories db')) /\
  (forall org_id id label db',
     update_category org_id id label db_spring = Ok db' ->
     categories_unique (transaction_categories db')) /\
  (forall org_id id db',
     delete_category org_id id db_spring = Ok db' ->
     categories_unique (transaction_categories db')).
Proof.
  assert (categories_unique (transaction_categories db_spring)) as H1
    by (split; by apply (bool_decide_unpack _)).
  exact (conj H1 (categories_unique_kept db_spring H1)).
Defined.

Lemma add_then_delete_category_witness :
  (forall t, t ∈ transactions db_spring -> t_category_id t <> Some 3) /\
  add_category 1 (mkCategoryData "Cantine" None) 3 db_spring
  = Ok (db_cantine, 3) /\
  add_category 1 (mkCategoryData "Crèche" (Some true)) 3 db_spring
  = Ok (db_creche, 3) /\
  delete_category 1 3 db_cantine = Ok db_spring /\
  delete_category 1 3 db_creche = Err Forbidden.
Proof.
  assert (forall t, t ∈ transactions db_spring -> t_category_id t <> Some 3)
    as H1.
  { intros t Ht. simpl in Ht.
    repeat (apply elem_of_cons in Ht as [->|Ht]); try done.
    by apply elem_of_nil in Ht. }
  assert (add_category 1 (mkCategoryData "Cantine" None) 3 db_spring
          = Ok (db_cantine, 3)) as H2 by reflexivity.
  assert (add_category 1 (mkCategoryData "Crèche" (Some true)) 3 db_spring
          = Ok (db_creche, 3)) as H3 by reflexivity.
  assert (cd_is_system (mkCategoryData "Cantine" None) <> Some true) as H4
    by discriminate.
  exact (conj H1 (conj H2 (conj H3 (conj
           (proj1 (add_then_delete_category 1 (mkCategoryData "Cantine" None)
                     3 db_spring db_cantine 3 H1 H2) H4)
           (proj2 (add_then_delete_category 1
                     (mkCategoryData "Crèche" (Some true))
                     3 db_spring db_creche 3 H1 H3) eq_refl))))).
Defined.

Lemma record_attendance_keeps_wf_witness :
  attendance_wf reg_school /\
  record_attendance 1 738950 entries_march reg_school = Ok reg_recorded /\
  attendance_wf reg_recorded /\
  forall s d, (length (attendance_of s d (attendance reg_recorded)) <= 1)%nat.
Proof.
  assert (attendance_wf reg_school) as H1
    by (split; [|split]; by apply (bool_decide_unpack _)).
  assert (record_attendance 1 738950 entries_march reg_school = Ok reg_recorded)
    as H2 by reflexivity.
  exact (conj H1 (conj H2
           (record_attendance_keeps_wf 1 738950 entries_march reg_school
              reg_recorded H1 H2))).
Defined.

Lemma record_attendance_last_entry_wins_witness :
  attendance_wf reg_school /\
  (ae_student_id entry_justified ∉ ae_student_id <$> [entry_default]) /\
  record_attendance 1 738950
    ([entry_present] ++ entry_justified :: [entry_default]) reg_school
  = Ok reg_recorded /\
  exists a,
    attendance_of 7 738950 (attendance reg_recorded) = [a] /\
    a_status a = Justifie /\
    a_arrival_time a = None /\
    a_departure_time a = None /\
    a_notes a = Some "medecin" /\
    (forall a0,
       attendance_of 7 738950 (attendance reg_school) = [a0] ->
       a_id a = a_id a0 /\ a_organization_id a = a_organization_id a0) /\
    (attendance_of 7 738950 (attendance reg_school) = [] ->
     a_organization_id a = 1).
Proof.
  assert (attendance_wf reg_school) as H1
    by (split; [|split]; by apply (bool_decide_unpack _)).
  assert (ae_student_id entry_justified ∉ ae_student_id <$> [entry_default])
    as H2 by (by apply (bool_decide_unpack _)).
  assert (record_attendance 1 738950
            ([entry_present] ++ entry_justified :: [entry_default]) reg_school
          = Ok reg_recorded) as H3 by reflexivity.
  exact (conj H1 (conj H2 (conj H3
           (record_attendance_last_entry_wins 1 738950 [entry_present]
              [entry_default] entry_justified reg_school reg_recorded
              H1 H2 H3)))).
Defined.

Lemma record_attendance_other_rows_witness :
  attendance_wf reg_school /\
  record_attendance 1 738950 entries_march reg_school = Ok reg_recorded /\
  filter (fun a => ~ (a_student_id a ∈ ae_student_id <$> entries_march /\
                      a_date a = 738950))
    (attendance reg_recorded) =
  filter (fun a => ~ (a_student_id a ∈ ae_student_id <$> entries_march /\
                      a_date a = 738950))
    (attendance reg_school).
Proof.
  assert (attendance_wf reg_school) as H1
    by (split; [|split]; by apply (bool_decide_unpack _)).
  assert (record_attendance 1 738950 entries_march reg_school = Ok reg_recorded)
    as H2 by reflexivity.
  exact (conj H1 (conj H2
           (record_attendance_other_rows 1 738950 entries_march reg_school
              reg_recorded H1 H2))).
Defined.

Lemma delete_student_cascade_witness :
  references_ok reg_school /\
  delete_student 1 7 reg_school = Ok reg_left /\
  ~ student_exists 7 (core reg_left) /\
  references_ok reg_left /\
  Forall (fun t => t_student_id t <> Some 7) (transactions (core reg_left)) /\
  length (transactions (core reg_left))
  = length (transactions (core reg_school)) /\
  (forall org', balance org' (core reg_left) = balance org' (core reg_school)).
Proof.
  assert (references_ok reg_school) as H1
    by (split; [|split; [|split]]; by apply (bool_decide_unpack _)).
  assert (delete_student 1 7 reg_school = Ok reg_left) as H2 by reflexivity.
  exact (conj H1 (conj H2
           (delete_student_cascade 1 7 reg_school reg_left H1 H2))).
Defined.

Lemma add_contact_listed_witness :
  add_contact 1 8 contact_email reg_school = Ok (reg_contact, 2) /\
  (exists l l' c,
     get_contacts 1 8 reg_school = Ok l /\
     get_contacts 1 8 reg_contact = Ok l' /\
     l' ≡ₚ c :: l /\
     pc_id c = 2 /\ pc_student_id c = 8 /\
     pc_type c = Email /\ pc_value c = "parent@example.org" /\
     pc_is_principal c = false /\
     pc_firstname c = None /\
     pc_lastname c = None /\
     pc_relation c = AutreRelation) /\
  (forall org' student',
     student' <> 8 ->
     get_contacts org' student' reg_contact
     = get_contacts org' student' reg_school).
Proof.
  assert (add_contact 1 8 contact_email reg_school = Ok (reg_contact, 2)) as H1
    by reflexivity.
  exact (conj H1 (add_contact_listed 1 8 contact_email reg_school reg_contact
                    2 H1)).
Defined.

Lemma add_then_delete_contact_witness :
  Forall (fun c => pc_id c < parent_contacts_id_seq reg_school)
    (parent_contacts reg_school) /\
  add_contact 1 8 contact_email reg_school = Ok (reg_contact, 2) /\
  forall org',
    delete_contact org' 8 2 reg_contact =
      Ok (mkRegistry (core reg_school) (parent_contacts reg_school)
            (attendance reg_school)
            (parent_contacts_id_seq reg_school + 1)
            (attendance_id_seq reg_school)).
Proof.
  assert (Forall (fun c => pc_id c < parent_contacts_id_seq reg_school)
            (parent_contacts reg_school)) as H1
    by (by apply (bool_decide_unpack _)).
  assert (add_contact 1 8 contact_email reg_school = Ok (reg_contact, 2)) as H2
    by reflexivity.
  exact (conj H1 (conj H2
           (add_then_delete_contact 1 8 contact_email reg_school reg_contact
              2 H1 H2))).
Defined.
